(** * Crossfit routines generator: the conversational RAG core

    A shallow embedding of the retrieval / generation / approval loop of the
    repository (rag/generator.py, rag/agent.py, rag/retriever.py,
    scripts/ingest.py) and the properties its specification states about it.

    Conventions of the embedding.
    - A Python [str] is a Rocq [string] holding its UTF-8 encoding.  Substring
      search, lexicographic comparison and the regular expressions of the
      source only anchor on ASCII characters, and UTF-8 keeps both substring
      and code point order, so working on the encoding is exact.
    - A Python exception is a value of [excepcion]; a function that may raise
      returns a [resultado].
    - Built-ins whose behaviour rests on the Unicode tables or on floating
      point ([str.lower], [str.upper], the truth value and the [repr] of a
      float or of a container, the text of a run-time exception) are the
      fields of the class [Runtime]: every theorem holds for any
      implementation of them. *)

From Stdlib Require Import ZArith QArith Qround Ascii Lia DecimalString.
From stdpp Require Import base option list sorting gmap strings.

Open Scope string_scope.
Open Scope list_scope.
Open Scope Z_scope.

(** ** Python strings *)

Module Str.

(** [p in s] of Python: [p] occurs in [s] as a contiguous slice. *)
Fixpoint contiene (p s : string) : bool :=
  String.prefix p s ||
  match s with
  | EmptyString => false
  | String _ s' => contiene p s'
  end.

(** First offset at which [p] occurs in [s] ([str.find], [None] for -1). *)
Fixpoint buscar (p s : string) : option nat :=
  if String.prefix p s then Some 0%nat
  else match s with
       | EmptyString => None
       | String _ s' => S <$> buscar p s'
       end.

(** [s[n:]] *)
Fixpoint desde (n : nat) (s : string) : string :=
  match n, s with
  | O, _ => s
  | S n', String _ s' => desde n' s'
  | S _, EmptyString => EmptyString
  end.

(** [s[:n]] *)
Fixpoint hasta (n : nat) (s : string) : string :=
  match n, s with
  | O, _ => EmptyString
  | S n', String c s' => String c (hasta n' s')
  | S _, EmptyString => EmptyString
  end.

(** [sep.join(l)] *)
Fixpoint join (sep : string) (l : list string) : string :=
  match l with
  | [] => ""
  | [x] => x
  | x :: l' => x +:+ sep +:+ join sep l'
  end.

(** Lower-casing of text written in Basic Latin and Latin-1 Supplement, on
    the UTF-8 encoding: [A-Z] and the two-byte letters [C3 80 .. C3 9E]
    (the multiplication sign [C3 97] apart).  On such text it is what
    [str.lower] computes; it instantiates the section variable in the
    examples. *)
Definition minuscula_ascii (c : ascii) : ascii :=
  let n := N_of_ascii c in
  if ((65 <=? n) && (n <=? 90))%N then ascii_of_N (n + 32) else c.

Fixpoint lower_latin1 (s : string) : string :=
  match s with
  | EmptyString => EmptyString
  | String c s' =>
      if (N_of_ascii c =? 195)%N then
        match s' with
        | String d s'' =>
            let n := N_of_ascii d in
            if ((128 <=? n) && (n <=? 158) && negb (n =? 151))%N
            then String c (String (ascii_of_N (n + 32)) (lower_latin1 s''))
            else String c (lower_latin1 s')
        | EmptyString => String c EmptyString
        end
      else String (minuscula_ascii c) (lower_latin1 s')
  end.

Definition mayuscula_ascii (c : ascii) : ascii :=
  let n := N_of_ascii c in
  if ((97 <=? n) && (n <=? 122))%N then ascii_of_N (n - 32) else c.

(** Upper-casing of text in Basic Latin and Latin-1 Supplement: [a-z], the
    two-byte letters [C3 A0 .. C3 BE] (the division sign [C3 B7] apart),
    and the three letters whose capitals leave the range: the micro sign
    [C2 B5] gives the Greek capital mu [CE 9C], the sharp s [C3 9F] gives
    [SS] and the y with diaeresis [C3 BF] gives [C5 B8]. *)
Fixpoint upper_latin1 (s : string) : string :=
  match s with
  | EmptyString => EmptyString
  | String c s' =>
      if (N_of_ascii c =? 195)%N then
        match s' with
        | String d s'' =>
            let n := N_of_ascii d in
            if ((160 <=? n) && (n <=? 190) && negb (n =? 183))%N
            then String c (String (ascii_of_N (n - 32)) (upper_latin1 s''))
            else if (n =? 159)%N then String "S" (String "S" (upper_latin1 s''))
            else if (n =? 191)%N
            then String (ascii_of_N 197) (String (ascii_of_N 184) (upper_latin1 s''))
            else String c (upper_latin1 s')
        | EmptyString => String c EmptyString
        end
      else if (N_of_ascii c =? 194)%N then
        match s' with
        | String d s'' =>
            if (N_of_ascii d =? 181)%N
            then String (ascii_of_N 206) (String (ascii_of_N 156) (upper_latin1 s''))
            else String c (upper_latin1 s')
        | EmptyString => String c EmptyString
        end
      else String (mayuscula_ascii c) (upper_latin1 s')
  end.

Definition de_bytes (l : list N) : string :=
  String.string_of_list_ascii (ascii_of_N <$> l).

(** The code points for which [str.isspace] holds (the class [\s] of a
    [str] pattern as well), each as its UTF-8 encoding: U+0009..U+000D,
    U+001C..U+001F, U+0020, U+0085, U+00A0, U+1680, U+2000..U+200A, U+2028,
    U+2029, U+202F, U+205F, U+3000. *)
Definition espacios : list string :=
  (de_bytes <$> [ [9]; [10]; [11]; [12]; [13]; [28]; [29]; [30]; [31]; [32];
                  [194; 133]; [194; 160]; [225; 154; 128] ]%N)
  ++ ((fun n => de_bytes [226; 128; n]%N) <$>
        [128; 129; 130; 131; 132; 133; 134; 135; 136; 137; 138; 168; 169; 175]%N)
  ++ (de_bytes <$> [ [226; 129; 159]; [227; 128; 128] ]%N).

(** The rest of [s] after one leading white-space character, if any. *)
Definition sin_espacio_inicial (ws : list string) (s : string) : option string :=
  (fun w => desde (String.length w) s) <$> List.find (fun w => String.prefix w s) ws.

Fixpoint lstrip_con (ws : list string) (fuel : nat) (s : string) : string :=
  match fuel with
  | O => s
  | S fuel' =>
      match sin_espacio_inicial ws s with
      | Some s' => lstrip_con ws fuel' s'
      | None => s
      end
  end.

Definition lstrip (s : string) : string := lstrip_con espacios (String.length s) s.

(** Nothing but white space. *)
Definition solo_espacios (s : string) : bool :=
  match lstrip s with EmptyString => true | _ => false end.

(** No white-space character starts with a continuation byte, so a text
    ends where the rest of it is white space only. *)
Fixpoint rstrip (s : string) : string :=
  match s with
  | EmptyString => EmptyString
  | String c r => if solo_espacios s then EmptyString else String c (rstrip r)
  end.

(** [s.strip()] *)
Definition strip (s : string) : string := rstrip (lstrip s).

(** A byte that continues a multi-byte UTF-8 character. *)
Definition es_continuacion (c : ascii) : bool :=
  let n := N_of_ascii c in ((128 <=? n) && (n <? 192))%N.

(** The characters of [s], as Python iterates over a [str]. *)
Fixpoint caracteres (s : string) : list string :=
  match s with
  | EmptyString => []
  | String c s' =>
      let r := caracteres s' in
      match s' with
      | String d _ =>
          if es_continuacion d
          then match r with h :: t => String c h :: t | [] => [String c ""] end
          else String c "" :: r
      | EmptyString => [String c ""]
      end
  end.

(** The double quote. *)
Definition comilla : ascii := ascii_of_N 34.

(** A text written with apostrophes where it holds double quotes. *)
Fixpoint con_comillas (s : string) : string :=
  match s with
  | EmptyString => EmptyString
  | String c r =>
      String (if Ascii.eqb c "'"%char then comilla else c) (con_comillas r)
  end.

(** [str(n)] for an [int]. *)
Definition de_entero (n : Z) : string := NilZero.string_of_int (Z.to_int n).

End Str.

(** ** Exceptions and results *)

Inductive excepcion : Type :=
| KeyError (clave : string)
| TypeError
| AttributeError
| ValueError (mensaje : string)
| JSONDecodeError
| OverflowError
| ErrorExterno (mensaje : string).

Inductive resultado (A : Type) : Type :=
| Ok (valor : A)
| Lanza (e : excepcion).
Arguments Ok {A} valor.
Arguments Lanza {A} e.

#[global] Instance resultado_ret : MRet resultado := fun A => @Ok A.
#[global] Instance resultado_bind : MBind resultado :=
  fun A B f m => match m with Ok a => f a | Lanza e => Lanza e end.
#[global] Instance resultado_fmap : FMap resultado :=
  fun A B f m => match m with Ok a => Ok (f a) | Lanza e => Lanza e end.

Definition es_ok {A} (r : resultado A) : bool :=
  match r with Ok _ => true | Lanza _ => false end.

(** ** The values [json.loads] builds

    [int] is unbounded, a [float] is kept as the literal it was read from, a
    [dict] is the list of its items in insertion order. *)

#[warnings="-register-all"]
Inductive json : Type :=
| JNull
| JBool (b : bool)
| JInt (n : Z)
| JFloat (literal : string)
| JStr (s : string)
| JArr (elementos : list json)
| JObj (campos : list (string * json)).

Class Runtime : Type := {
  (** [str.lower], [str.upper] *)
  str_lower : string -> string;
  str_upper : string -> string;
  (** [bool(x)] for the float read from a literal *)
  float_truthy : string -> bool;
  (** [str(x)] for a float, a list or a dict *)
  repr_compuesto : json -> string;
  (** [str(e)] for an exception the interpreter or a library raised *)
  texto_excepcion : excepcion -> string;
  (** [str(x)] for the float nearest to a rational *)
  str_flotante : Q -> string;
  (** [json.dumps(v, indent=2, ensure_ascii=False)] *)
  json_dumps : json -> string;
  (** [strftime("%Y-%m-%d")] of the date with a proleptic Gregorian ordinal *)
  strftime_ymd : Z -> string;
}.

Definition nl : string := String (ascii_of_N 10) "".

Module Py.
Section Py.
Context `{Runtime}.

(** [bool(v)] *)
Definition truthy (v : json) : bool :=
  match v with
  | JNull => false
  | JBool b => b
  | JInt n => negb (n =? 0)
  | JFloat l => float_truthy l
  | JStr s => negb (String.eqb s "")
  | JArr l => match l with [] => false | _ => true end
  | JObj c => match c with [] => false | _ => true end
  end.

Fixpoint buscar_clave (k : string) (c : list (string * json)) : option json :=
  match c with
  | [] => None
  | (k', v) :: c' => if String.eqb k k' then Some v else buscar_clave k c'
  end.

(** [v[k]] for a [str] key *)
Definition item (v : json) (k : string) : resultado json :=
  match v with
  | JObj c => match buscar_clave k c with
              | Some x => Ok x
              | None => Lanza (KeyError k)
              end
  | _ => Lanza TypeError
  end.

(** [v.get(k, d)] *)
Definition get_o (v : json) (k : string) (d : json) : resultado json :=
  match v with
  | JObj c => Ok (default d (buscar_clave k c))
  | _ => Lanza AttributeError
  end.

(** [v.get(k)] *)
Definition get (v : json) (k : string) : resultado json := get_o v k JNull.

(** [str(v)], the text an f-string inserts for [{v}] *)
Definition str (v : json) : string :=
  match v with
  | JStr s => s
  | JInt n => Str.de_entero n
  | JNull => "None"
  | JBool true => "True"
  | JBool false => "False"
  | _ => repr_compuesto v
  end.

(** [v.upper()] *)
Definition upper (v : json) : resultado string :=
  match v with
  | JStr s => Ok (str_upper s)
  | _ => Lanza AttributeError
  end.

(** The items [for x in v] goes through. *)
Definition iter (v : json) : resultado (list json) :=
  match v with
  | JArr l => Ok l
  | JStr s => Ok (JStr <$> Str.caracteres s)
  | JObj c => Ok ((fun kv => JStr kv.1) <$> c)
  | _ => Lanza TypeError
  end.

(** [len(v)] *)
Definition len (v : json) : resultado Z :=
  l ← iter v; mret (Z.of_nat (length l)).

Definition como_str (v : json) : resultado string :=
  match v with
  | JStr s => Ok s
  | _ => Lanza TypeError
  end.

(** [sep.join(v)] *)
Definition join (sep : string) (v : json) : resultado string :=
  l ← iter v;
  ls ← mapM como_str l;
  mret (Str.join sep ls).

(** [str(e)] *)
Definition str_exc (e : excepcion) : string :=
  match e with
  | ValueError m | ErrorExterno m => m
  | _ => texto_excepcion e
  end.

(** A Python [set] whose use ends in [", ".join(sorted(s))]: the strings it
    holds, and whether anything hashable that is not a string was added
    (the join then raises [TypeError], whatever [sorted] did before). *)
Record conjunto : Type := { cadenas : gset string; otros : bool }.

Definition set_vacio : conjunto := {| cadenas := ∅; otros := false |}.

(** [s.add(x)] *)
Definition set_add (s : conjunto) (x : json) : resultado conjunto :=
  match x with
  | JStr t => Ok {| cadenas := {[ t ]} ∪ cadenas s; otros := otros s |}
  | JArr _ | JObj _ => Lanza TypeError
  | _ => Ok {| cadenas := cadenas s; otros := true |}
  end.

Fixpoint set_add_todos (s : conjunto) (l : list json) : resultado conjunto :=
  match l with
  | [] => Ok s
  | x :: l' => s' ← set_add s x; set_add_todos s' l'
  end.

(** [s.update(v)] *)
Definition set_update (s : conjunto) (v : json) : resultado conjunto :=
  l ← iter v; set_add_todos s l.

(** [sorted(s)] on strings *)
Definition sorted (s : gset string) : list string :=
  merge_sort String.le (elements s).

(** [", ".join(sorted(s))] *)
Definition join_sorted (s : conjunto) : resultado string :=
  if otros s then Lanza TypeError else Ok (Str.join ", " (sorted (cadenas s))).

End Py.
End Py.

(** ** rag/generator.py: the intent classifier *)

Section Clasificador.
Context `{Runtime}.

Definition palabras_aprobar : list string :=
  [ "aprobar"; "guardar"; "perfecto"; "listo"; "ok"; "está bien";
    "me gusta"; "confirmá"; "confirmar"; "publicar"; "usar esta" ].

Definition palabras_editar : list string :=
  [ "cambiá"; "cambiar"; "modificá"; "modificar"; "reemplazá"; "reemplazar";
    "quitá"; "quitar"; "agregá"; "agregar"; "ajustá"; "ajustar";
    "bajá"; "subí"; "menos"; "más"; "en vez de"; "en lugar de" ].

(** [any(palabra in texto for palabra in palabras)] *)
Definition alguna_en (palabras : list string) (texto : string) : bool :=
  existsb (fun palabra => Str.contiene palabra texto) palabras.

Definition detectar_intencion (mensaje : string) (tiene_rutina : bool) : string :=
  let mensaje_lower := str_lower mensaje in
  if alguna_en palabras_aprobar mensaje_lower then "aprobar"
  else if tiene_rutina && alguna_en palabras_editar mensaje_lower then "editar"
  else if negb tiene_rutina then "generar"
  else if tiene_rutina then "editar"
  else "otro".

End Clasificador.

(** ** scripts/ingest.py: the routine codec *)

Section Codec.
Context `{Runtime}.

(** [f"{e['nombre']} {e.get('reps', '')}".strip()] *)
Definition texto_ejercicio (e : json) : resultado string :=
  nombre ← Py.item e "nombre";
  reps ← Py.get_o e "reps" (JStr "");
  mret (Str.strip (Py.str nombre +:+ " " +:+ Py.str reps)).

(** The CORE and ACCESORIOS blocks share one shape. *)
Definition partes_bloque_rondas (clave etiqueta : string) (dia : json)
  : resultado (list string) :=
  bloque ← Py.get dia clave;
  if Py.truthy bloque then
    ejercicios ← Py.get bloque "ejercicios";
    if Py.truthy ejercicios then
      ejs ← Py.item bloque "ejercicios";
      l ← Py.iter ejs;
      textos ← mapM texto_ejercicio l;
      rondas ← Py.get_o bloque "rondas" (JStr "?");
      mret [etiqueta +:+ " (" +:+ Py.str rondas +:+ " rondas): " +:+ Str.join ", " textos]
    else mret []
  else mret [].

Definition partes_core : json -> resultado (list string) :=
  partes_bloque_rondas "core" "Core".

Definition partes_accesorios : json -> resultado (list string) :=
  partes_bloque_rondas "accesorios" "Accesorios".

Definition partes_bloque_principal (dia : json) : resultado (list string) :=
  bp ← Py.get dia "bloque_principal";
  if Py.truthy bp then
    sets ← Py.get bp "sets";
    ambos ← (if Py.truthy sets then Py.get bp "reps" else mret sets);
    sets_reps ← (if Py.truthy ambos
                 then s ← Py.item bp "sets"; r ← Py.item bp "reps";
                      mret (Py.str s +:+ "x" +:+ Py.str r)
                 else mret "");
    tipo ← Py.get_o bp "tipo" (JStr "N/A");
    movimiento ← Py.get_o bp "movimiento" (JStr "N/A");
    let linea := Str.strip (Py.str tipo +:+ ": " +:+ Py.str movimiento +:+ " " +:+ sets_reps) in
    variante ← Py.get bp "variante_principiante";
    if Py.truthy variante
    then v ← Py.item bp "variante_principiante";
         mret [linea; "Principiante: " +:+ Py.str v]
    else mret [linea]
  else mret [].

Definition linea_ejercicio_wod (ej : json) : resultado string :=
  nombre ← Py.item ej "nombre";
  reps ← Py.get_o ej "reps" (JStr "");
  let linea := Str.strip ("  - " +:+ Py.str nombre +:+ " " +:+ Py.str reps) in
  escala ← Py.get ej "escala";
  if Py.truthy escala
  then e ← Py.item ej "escala"; mret (linea +:+ " (escala: " +:+ Py.str e +:+ ")")
  else mret linea.

Definition duracion_wod (wod : json) : resultado string :=
  duracion ← Py.get wod "duracion";
  if Py.truthy duracion then d ← Py.item wod "duracion"; mret (Py.str d +:+ "'")
  else
    rondas ← Py.get wod "rondas";
    if Py.truthy rondas then r ← Py.item wod "rondas"; mret (Py.str r +:+ " rounds")
    else
      time_cap ← Py.get wod "time_cap";
      if Py.truthy time_cap then t ← Py.item wod "time_cap"; mret ("TC " +:+ Py.str t +:+ "'")
      else mret "".

Definition partes_wod (dia : json) : resultado (list string) :=
  wod ← Py.get dia "wod";
  if Py.truthy wod then
    duracion_str ← duracion_wod wod;
    formato ← Py.item wod "formato";
    let cabecera := Str.strip ("WOD " +:+ Py.str formato +:+ " " +:+ duracion_str +:+ ":") in
    ejs ← Py.get_o wod "ejercicios" (JArr []);
    l ← Py.iter ejs;
    lineas ← mapM linea_ejercicio_wod l;
    mret (cabecera :: lineas)
  else mret [].

Definition partes_metadata (dia : json) : resultado (list string) :=
  meta ← Py.get dia "metadata";
  if Py.truthy meta then
    grupos ← Py.get_o meta "grupos_musculares" (JArr []);
    musculos ← Py.join ", " grupos;
    mo ← Py.get meta "movimientos_olimpicos";
    olimpicos ← (if Py.truthy mo
                 then x ← Py.item meta "movimientos_olimpicos";
                      j ← Py.join ", " x; mret ["Olímpicos: " +:+ j]
                 else mret []);
    intensidad ← Py.get_o meta "intensidad_estimada" (JStr "N/A");
    pm ← Py.get meta "patron_movimiento_fuerza";
    patron ← (if Py.truthy pm
              then x ← Py.item meta "patron_movimiento_fuerza";
                   mret ["Patrón: " +:+ Py.str x]
              else mret []);
    mret (["Músculos: " +:+ musculos] ++ olimpicos
          ++ ["Intensidad: " +:+ Py.str intensidad] ++ patron)
  else mret [].

(** [f"\n{dia['dia'].upper()} - {dia.get('tipo_bloque_principal') or 'N/A'}"] *)
Definition encabezado_dia (dia : json) : resultado string :=
  nombre ← Py.item dia "dia";
  mayusculas ← Py.upper nombre;
  tipo ← Py.get dia "tipo_bloque_principal";
  let tipo_o := if Py.truthy tipo then tipo else JStr "N/A" in
  mret (nl +:+ mayusculas +:+ " - " +:+ Py.str tipo_o).

(** What one turn of the loop over the days appends to [partes]. *)
Definition partes_dia (dia : json) : resultado (list string) :=
  encabezado ← encabezado_dia dia;
  core ← partes_core dia;
  bp ← partes_bloque_principal dia;
  wod ← partes_wod dia;
  acc ← partes_accesorios dia;
  meta ← partes_metadata dia;
  mret (encabezado :: core ++ bp ++ wod ++ acc ++ meta).

(** The list [partes] at the end of the function. *)
Definition partes_semana (semana : json) : resultado (list string) :=
  semana_id ← Py.item semana "semana_id";
  fecha_inicio ← Py.item semana "fecha_inicio";
  let cabecera := "Semana: " +:+ Py.str semana_id +:+ " | Inicio: " +:+ Py.str fecha_inicio in
  dias ← Py.item semana "dias";
  l ← Py.iter dias;
  por_dia ← mapM partes_dia l;
  mret (cabecera :: concat por_dia).

Definition json_a_texto_enriquecido (semana : json) : resultado string :=
  Str.join nl <$> partes_semana semana.

(** The three sets the loop of [extraer_metadata_para_chroma] fills. *)
Record acumulado : Type := {
  todos_olimpicos : Py.conjunto;
  todos_patrones : Py.conjunto;
  todos_grupos : Py.conjunto;
}.

Definition acumulado_vacio : acumulado :=
  {| todos_olimpicos := Py.set_vacio;
     todos_patrones := Py.set_vacio;
     todos_grupos := Py.set_vacio |}.

Definition acumular_dia (a : acumulado) (dia : json) : resultado acumulado :=
  meta ← Py.item dia "metadata";
  mo ← Py.get_o meta "movimientos_olimpicos" (JArr []);
  olimpicos ← Py.set_update (todos_olimpicos a) mo;
  gm ← Py.get_o meta "grupos_musculares" (JArr []);
  grupos ← Py.set_update (todos_grupos a) gm;
  pm ← Py.get meta "patron_movimiento_fuerza";
  patrones ← (if Py.truthy pm
              then x ← Py.item meta "patron_movimiento_fuerza";
                   Py.set_add (todos_patrones a) x
              else mret (todos_patrones a));
  mret {| todos_olimpicos := olimpicos;
          todos_patrones := patrones;
          todos_grupos := grupos |}.

Fixpoint acumular_dias (a : acumulado) (dias : list json) : resultado acumulado :=
  match dias with
  | [] => Ok a
  | dia :: dias' => a' ← acumular_dia a dia; acumular_dias a' dias'
  end.

Definition extraer_metadata_para_chroma (semana : json) : resultado json :=
  dias ← Py.item semana "dias";
  l ← Py.iter dias;
  a ← acumular_dias acumulado_vacio l;
  semana_id ← Py.item semana "semana_id";
  fecha_inicio ← Py.item semana "fecha_inicio";
  olimpicos ← Py.join_sorted (todos_olimpicos a);
  patrones ← Py.join_sorted (todos_patrones a);
  grupos ← Py.join_sorted (todos_grupos a);
  total ← Py.len dias;
  mret (JObj [ ("semana_id", semana_id);
               ("fecha_inicio", fecha_inicio);
               ("movimientos_olimpicos", JStr olimpicos);
               ("patrones_fuerza", JStr patrones);
               ("grupos_musculares", JStr grupos);
               ("total_dias", JInt total) ]).

End Codec.

(** ** [json.loads]

    The decoder of the standard library as its scanner reads a text: white
    space is space, tab, line feed and carriage return; strings are strict
    (no control character, the eight one-letter escapes and [\uXXXX], a
    surrogate pair giving one character); a number without fraction and
    exponent is an [int]; [NaN], [Infinity] and [-Infinity] are accepted; a
    repeated key keeps its first place and its last value.  The limits of the
    interpreter (recursion depth, digits of an [int]) are not part of it. *)

Module Json.

Definition es_blanco (c : ascii) : bool :=
  let n := N_of_ascii c in ((n =? 32) || (n =? 9) || (n =? 10) || (n =? 13))%N.

Fixpoint saltar_blancos (s : string) : string :=
  match s with
  | String c r => if es_blanco c then saltar_blancos r else s
  | EmptyString => EmptyString
  end.

Definition es_digito (c : ascii) : bool :=
  let n := N_of_ascii c in ((48 <=? n) && (n <=? 57))%N.

Definition hex_val (c : ascii) : option N :=
  let n := N_of_ascii c in
  if ((48 <=? n) && (n <=? 57))%N then Some (n - 48)%N
  else if ((97 <=? n) && (n <=? 102))%N then Some (n - 87)%N
  else if ((65 <=? n) && (n <=? 70))%N then Some (n - 55)%N
  else None.

Definition es_hex (c : ascii) : bool := bool_decide (is_Some (hex_val c)).

Definition hex4 (a b c d : ascii) : option N :=
  x ← hex_val a; y ← hex_val b; z ← hex_val c; w ← hex_val d;
  Some (((x * 16 + y) * 16 + z) * 16 + w)%N.

(** The (generalised) UTF-8 encoding of a code point. *)
Definition utf8 (n : N) : string :=
  (if n <? 128 then Str.de_bytes [n]
   else if n <? 2048 then Str.de_bytes [192 + n / 64; 128 + n mod 64]
   else if n <? 65536 then
     Str.de_bytes [224 + n / 4096; 128 + (n / 64) mod 64; 128 + n mod 64]
   else
     Str.de_bytes [240 + n / 262144; 128 + (n / 4096) mod 64;
                   128 + (n / 64) mod 64; 128 + n mod 64])%N.

Definition es_sustituto_alto (n : N) : bool := ((55296 <=? n) && (n <=? 56319))%N.
Definition es_sustituto_bajo (n : N) : bool := ((56320 <=? n) && (n <=? 57343))%N.

Definition par_sustituto (alto bajo : N) : N :=
  (65536 + (alto - 55296) * 1024 + (bajo - 56320))%N.

(** The character a one-letter escape stands for. *)
Definition escape_simple (c : ascii) : option ascii :=
  (if Ascii.eqb c Str.comilla then Some Str.comilla
   else if Ascii.eqb c "\" then Some "\"
   else if Ascii.eqb c "/" then Some "/"
   else if Ascii.eqb c "b" then Some (ascii_of_N 8)
   else if Ascii.eqb c "f" then Some (ascii_of_N 12)
   else if Ascii.eqb c "n" then Some (ascii_of_N 10)
   else if Ascii.eqb c "r" then Some (ascii_of_N 13)
   else if Ascii.eqb c "t" then Some (ascii_of_N 9)
   else None)%char.

(** The body of a string, read from just after its opening quote: the
    decoded text and what follows the closing quote. *)
Fixpoint cadena (s : string) : resultado (string * string) :=
  match s with
  | EmptyString => Lanza JSONDecodeError
  | String c r =>
      if Ascii.eqb c Str.comilla then Ok ("", r)
      else if Ascii.eqb c "\"%char then
        match r with
        | EmptyString => Lanza JSONDecodeError
        | String e r1 =>
            if Ascii.eqb e "u"%char then
              match r1 with
              | String h1 (String h2 (String h3 (String h4 r2))) =>
                  match hex4 h1 h2 h3 h4 with
                  | None => Lanza JSONDecodeError
                  | Some uni =>
                      match r2 with
                      | String b (String u (String g1 (String g2 (String g3 (String g4 r3))))) =>
                          if es_sustituto_alto uni && Ascii.eqb b "\"%char && Ascii.eqb u "u"%char
                          then
                            match hex4 g1 g2 g3 g4 with
                            | None => Lanza JSONDecodeError
                            | Some uni2 =>
                                if es_sustituto_bajo uni2
                                then '(t, resto) ← cadena r3;
                                     mret (utf8 (par_sustituto uni uni2) +:+ t, resto)
                                else '(t, resto) ← cadena r2;
                                     mret (utf8 uni +:+ t, resto)
                            end
                          else '(t, resto) ← cadena r2; mret (utf8 uni +:+ t, resto)
                      | _ => '(t, resto) ← cadena r2; mret (utf8 uni +:+ t, resto)
                      end
                  end
              | _ => Lanza JSONDecodeError
              end
            else
              match escape_simple e with
              | Some ch => '(t, resto) ← cadena r1; mret (String ch t, resto)
              | None => Lanza JSONDecodeError
              end
        end
      else if (N_of_ascii c <? 32)%N then Lanza JSONDecodeError
      else '(t, resto) ← cadena r; mret (String c t, resto)
  end.

(** The longest run of decimal digits at the head of [s], and the rest. *)
Fixpoint digitos (s : string) : string * string :=
  match s with
  | String c r =>
      if es_digito c then let '(ds, resto) := digitos r in (String c ds, resto)
      else ("", s)
  | EmptyString => ("", "")
  end.

Fixpoint valor_decimal (acc : Z) (ds : string) : Z :=
  match ds with
  | String c r => valor_decimal (10 * acc + Z.of_N (N_of_ascii c - 48)) r
  | EmptyString => acc
  end.

(** An optional fraction: a dot and at least one digit. *)
Definition fraccion (s : string) : string * string :=
  match s with
  | String c r =>
      if Ascii.eqb c "."%char then
        match digitos r with
        | (EmptyString, _) => ("", s)
        | (ds, resto) => (String c ds, resto)
        end
      else ("", s)
  | EmptyString => ("", "")
  end.

(** An optional exponent: [e] or [E], an optional sign, at least one digit. *)
Definition exponente (s : string) : string * string :=
  match s with
  | String e r =>
      if Ascii.eqb e "e"%char || Ascii.eqb e "E"%char then
        let '(signo, r1) :=
          match r with
          | String g r' =>
              if Ascii.eqb g "-"%char || Ascii.eqb g "+"%char
              then (String g "", r') else ("", r)
          | EmptyString => ("", r)
          end in
        match digitos r1 with
        | (EmptyString, _) => ("", s)
        | (ds, resto) => (String e (signo +:+ ds), resto)
        end
      else ("", s)
  | EmptyString => ("", "")
  end.

(** The number pattern of the scanner at the head of [s] (an optional
    minus, then [0] or digits that do not start with [0], an optional
    fraction, an optional exponent): the number read and the rest, if the
    pattern matches. *)
Definition numero (s : string) : option (json * string) :=
  let '(negativo, s1) :=
    match s with
    | String c r => if Ascii.eqb c "-"%char then (true, r) else (false, s)
    | EmptyString => (false, s)
    end in
  match s1 with
  | String c r =>
      if es_digito c then
        let '(entero, r1) :=
          if Ascii.eqb c "0"%char then (String c "", r) else digitos s1 in
        let '(frac, r2) := fraccion r1 in
        let '(expo, r3) := exponente r2 in
        let signo := if negativo then "-" else "" in
        match frac, expo with
        | EmptyString, EmptyString =>
            let n := valor_decimal 0 entero in
            Some (JInt (if negativo then - n else n), r3)
        | _, _ => Some (JFloat (signo +:+ entero +:+ frac +:+ expo), r3)
        end
      else None
  | EmptyString => None
  end.

(** [d[k] = v] *)
Fixpoint dict_set (d : list (string * json)) (k : string) (v : json)
  : list (string * json) :=
  match d with
  | [] => [(k, v)]
  | (k', v') :: d' =>
      if String.eqb k k' then (k, v) :: d' else (k', v') :: dict_set d' k v
  end.

(** [dict(pairs)] *)
Definition dict_de_pares (pares : list (string * json)) : list (string * json) :=
  fold_left (fun d kv => dict_set d kv.1 kv.2) pares [].

(** One value at the head of [s] ([scan_once]).  Each call that goes one
    level down or one item further has read at least one character, so the
    length of the text is fuel enough. *)
Fixpoint valor (fuel : nat) (s : string) {struct fuel} : resultado (json * string) :=
  match fuel with
  | O => Lanza JSONDecodeError
  | S fuel' =>
      match s with
      | EmptyString => Lanza JSONDecodeError
      | String c r =>
          if Ascii.eqb c Str.comilla then
            '(t, resto) ← cadena r; mret (JStr t, resto)
          else if Ascii.eqb c "{"%char then
            let r1 := saltar_blancos r in
            if String.prefix "}" r1 then Ok (JObj [], Str.desde 1 r1)
            else '(pares, resto) ← miembros fuel' r1;
                 mret (JObj (dict_de_pares pares), resto)
          else if Ascii.eqb c "["%char then
            let r1 := saltar_blancos r in
            if String.prefix "]" r1 then Ok (JArr [], Str.desde 1 r1)
            else '(vs, resto) ← elementos fuel' r1; mret (JArr vs, resto)
          else if String.prefix "null" s then Ok (JNull, Str.desde 4 s)
          else if String.prefix "true" s then Ok (JBool true, Str.desde 4 s)
          else if String.prefix "false" s then Ok (JBool false, Str.desde 5 s)
          else
            match numero s with
            | Some (v, resto) => Ok (v, resto)
            | None =>
                if String.prefix "NaN" s then Ok (JFloat "NaN", Str.desde 3 s)
                else if String.prefix "Infinity" s
                then Ok (JFloat "Infinity", Str.desde 8 s)
                else if String.prefix "-Infinity" s
                then Ok (JFloat "-Infinity", Str.desde 9 s)
                else Lanza JSONDecodeError
            end
      end
  end
(** The items of an object, from the quote that opens the first key. *)
with miembros (fuel : nat) (s : string) {struct fuel}
  : resultado (list (string * json) * string) :=
  match fuel with
  | O => Lanza JSONDecodeError
  | S fuel' =>
      match s with
      | EmptyString => Lanza JSONDecodeError
      | String c r =>
          if Ascii.eqb c Str.comilla then
            '(k, r1) ← cadena r;
            let r1 := saltar_blancos r1 in
            if String.prefix ":" r1 then
              '(v, r2) ← valor fuel' (saltar_blancos (Str.desde 1 r1));
              let r2 := saltar_blancos r2 in
              if String.prefix "}" r2 then Ok ([(k, v)], Str.desde 1 r2)
              else if String.prefix "," r2 then
                '(ps, resto) ← miembros fuel' (saltar_blancos (Str.desde 1 r2));
                mret ((k, v) :: ps, resto)
              else Lanza JSONDecodeError
            else Lanza JSONDecodeError
          else Lanza JSONDecodeError
      end
  end
(** The items of an array, from its first value. *)
with elementos (fuel : nat) (s : string) {struct fuel}
  : resultado (list json * string) :=
  match fuel with
  | O => Lanza JSONDecodeError
  | S fuel' =>
      '(v, r1) ← valor fuel' s;
      let r1 := saltar_blancos r1 in
      if String.prefix "]" r1 then Ok ([v], Str.desde 1 r1)
      else if String.prefix "," r1 then
        '(vs, resto) ← elementos fuel' (saltar_blancos (Str.desde 1 r1));
        mret (v :: vs, resto)
      else Lanza JSONDecodeError
  end.

(** [json.loads(s)] *)
Definition loads (s : string) : resultado json :=
  '(v, resto) ← valor (S (String.length s)) (saltar_blancos s);
  match saltar_blancos resto with
  | EmptyString => Ok v
  | _ => Lanza JSONDecodeError
  end.

End Json.

(** ** rag/generator.py: the completion parser

    The three searches and the substitution of [parsear_respuesta_llm], each
    written as the backtracking matcher of [re] runs its pattern (flag
    [DOTALL]: the dot matches every character). *)

Section Parser.

(** The text after the longest run of white-space characters ([\s*]). *)
Definition tras_blancos (s : string) : string := Str.lstrip s.

(** Every text [\s*] can leave behind, the greediest choice first. *)
Fixpoint tras_blancos_opciones (fuel : nat) (s : string) : list string :=
  match fuel with
  | O => [s]
  | S fuel' =>
      match Str.sin_espacio_inicial Str.espacios s with
      | Some s' => tras_blancos_opciones fuel' s' ++ [s]
      | None => [s]
      end
  end.

(** [(.+?)(?=JSON:)] at the head of [s]: the shortest non-empty text that
    the marker [JSON:] follows. *)
Definition hasta_marcador_json (s : string) : option string :=
  match s with
  | EmptyString => None
  | String c r => (fun n => String c (Str.hasta n r)) <$> Str.buscar "JSON:" r
  end.

(** The first of the options for which [f] has an answer. *)
Fixpoint primera {A B} (f : A -> option B) (l : list A) : option B :=
  match l with
  | [] => None
  | x :: l' => match f x with Some y => Some y | None => primera f l' end
  end.

(** The pattern [MENSAJE:\s*(.+?)(?=JSON:)] at the head of [s]: group 1. *)
Definition coincide_mensaje (s : string) : option string :=
  if String.prefix "MENSAJE:" s then
    let r := Str.desde 8 s in
    primera hasta_marcador_json (tras_blancos_opciones (String.length r) r)
  else None.

(** [re.search(patron, s)]: the match at the leftmost position that has
    one. *)
Fixpoint buscar_patron (coincide : string -> option string) (s : string)
  : option string :=
  match coincide s with
  | Some g => Some g
  | None =>
      match s with
      | EmptyString => None
      | String _ r => buscar_patron coincide r
      end
  end.

(** [\}\s*```] at the head of [s] *)
Definition cierra_cerca (s : string) : bool :=
  String.prefix "}" s && String.prefix "```" (tras_blancos (Str.desde 1 s)).

(** The offset of the first closing brace that ends the fenced block. *)
Fixpoint buscar_cierre_cerca (s : string) : option nat :=
  if cierra_cerca s then Some 0%nat
  else match s with
       | EmptyString => None
       | String _ r => S <$> buscar_cierre_cerca r
       end.

(** The pattern [JSON:\s*```(?:json)?\s*(\{.+?\})\s*```] at the head of
    [s]: group 1. *)
Definition coincide_json_cercado (s : string) : option string :=
  if String.prefix "JSON:" s then
    let r1 := tras_blancos (Str.desde 5 s) in
    if String.prefix "```" r1 then
      let r2 := Str.desde 3 r1 in
      let r3 := if String.prefix "json" r2 then Str.desde 4 r2 else r2 in
      let r4 := tras_blancos r3 in
      if String.prefix "{" r4 then
        match Str.desde 1 r4 with
        | String c r5 =>
            (fun n => String "{"%char (String c (Str.hasta n r5 +:+ "}")))
              <$> buscar_cierre_cerca r5
        | EmptyString => None
        end
      else None
    else None
  else None.

(** What group 1 of both patterns for the payload starts with. *)
Definition abre_llave (g : string) : Prop :=
  exists c r, g = String "{"%char (String c r).

(** The offset of the last closing brace of [s]. *)
Fixpoint ultima_llave (s : string) : option nat :=
  match s with
  | EmptyString => None
  | String c r =>
      match ultima_llave r with
      | Some n => Some (S n)
      | None => if Ascii.eqb c "}"%char then Some 0%nat else None
      end
  end.

(** The pattern [JSON:\s*(\{.+\})] at the head of [s]: group 1. *)
Definition coincide_json_suelto (s : string) : option string :=
  if String.prefix "JSON:" s then
    let r1 := tras_blancos (Str.desde 5 s) in
    if String.prefix "{" r1 then
      match Str.desde 1 r1 with
      | String c r2 =>
          (fun n => String "{"%char (String c (Str.hasta n r2 +:+ "}")))
            <$> ultima_llave r2
      | EmptyString => None
      end
    else None
  else None.

(** The look-ahead of the substitution, on the text after a backslash:
    a double quote, a backslash, a slash or one of the letters [bfnrt], or
    [u] and four hexadecimal digits. *)
Definition escape_reconocido (s : string) : bool :=
  match s with
  | String c r =>
      if bool_decide (c ∈ Str.comilla :: ["\"; "/"; "b"; "f"; "n"; "r"; "t"]%char) then true
      else if Ascii.eqb c "u"%char then
        match r with
        | String h1 (String h2 (String h3 (String h4 _))) =>
            Json.es_hex h1 && Json.es_hex h2 && Json.es_hex h3 && Json.es_hex h4
        | _ => false
        end
      else false
  | EmptyString => false
  end.

(** [re.sub] of a backslash that no recognised escape follows by two
    backslashes. *)
Fixpoint reparar_escapes (s : string) : string :=
  match s with
  | EmptyString => EmptyString
  | String c r =>
      if Ascii.eqb c "\"%char && negb (escape_reconocido r)
      then String "\"%char (String "\"%char (reparar_escapes r))
      else String c (reparar_escapes r)
  end.

(** Group 1 of the search for the message, if it matches. *)
Definition extraer_mensaje (respuesta_cruda : string) : option string :=
  buscar_patron coincide_mensaje respuesta_cruda.

(** Group 1 of the search for the payload: the fenced block first, then
    the bare braces. *)
Definition extraer_json (respuesta_cruda : string) : option string :=
  match buscar_patron coincide_json_cercado respuesta_cruda with
  | Some g => Some g
  | None => buscar_patron coincide_json_suelto respuesta_cruda
  end.

Definition parsear_respuesta_llm (respuesta_cruda : string) : resultado (string * json) :=
  match extraer_mensaje respuesta_cruda with
  | None => Lanza (ValueError "No se encontró el campo MENSAJE en la respuesta del LLM")
  | Some grupo_mensaje =>
      let mensaje := Str.strip grupo_mensaje in
      match extraer_json respuesta_cruda with
      | None => Lanza (ValueError "No se encontró el campo JSON en la respuesta del LLM")
      | Some grupo_json =>
          let json_str := Str.strip grupo_json in
          let json_str := reparar_escapes json_str in
          rutina ← Json.loads json_str;
          mret (mensaje, rutina)
      end
  end.

End Parser.

(** ** The collaborators: the vector store and the language model

    Chroma and Groq are libraries outside the repository.  The store is the
    collection the specification describes (one document per id, upsert,
    count, the [n] nearest documents under an optional filter on the
    metadata), with the two refusals the code guards against: the refusal of
    a query for more results than there are documents, which the comment in
    [recuperar_rutinas_similares] names, and the refusal of a metadata value
    that is not a [str], [int], [float] or [bool], which the docstring of
    [extraer_metadata_para_chroma] names.  A completion is whatever text the
    model answers, or a failure. *)

Record documento : Type := {
  doc_id : string;
  doc_texto : string;
  doc_metadata : json;
}.

Inductive prompt_sistema : Type :=
| SYSTEM_PROMPT_GENERACION
| SYSTEM_PROMPT_EDICION.

(** [{"role": ..., "content": ...}] *)
Record mensaje_chat : Type := { role : string; content : string }.

(** The arguments of [chat.completions.create]. *)
Record solicitud : Type := {
  sistema : prompt_sistema;
  mensajes : list mensaje_chat;
  max_tokens : Z;
  temperature : Q;
}.

Inductive evento : Type :=
| EvCount
| EvQuery (n_results : Z)
| EvUpsert (id : json)
| EvCompletar (s : solicitud).

(** What a call of the program reads and changes outside its arguments. *)
Record Mundo : Type := {
  (** the documents of the collection, oldest first *)
  almacen : list documento;
  (** [Some e]: the store cannot be reached, every call to it raises [e].
      The store is within reach or out of reach for the whole of a call of
      the program: a failure that sets in between two calls to the store is
      not part of the model. *)
  fallo_chroma : option string;
  (** the cosine distance between the embeddings of a query and of a text *)
  distancia : string -> string -> Q;
  (** whether a metadata record passes a [where] filter *)
  cumple_filtro : json -> json -> bool;
  (** the answer of the model, or the failure of the call *)
  completar : solicitud -> resultado string;
  (** the calls made so far, latest first *)
  traza : list evento;
}.

Definition registrar (ev : evento) (w : Mundo) : Mundo :=
  {| almacen := almacen w; fallo_chroma := fallo_chroma w;
     distancia := distancia w; cumple_filtro := cumple_filtro w;
     completar := completar w; traza := ev :: traza w |}.

Definition con_almacen (docs : list documento) (w : Mundo) : Mundo :=
  {| almacen := docs; fallo_chroma := fallo_chroma w;
     distancia := distancia w; cumple_filtro := cumple_filtro w;
     completar := completar w; traza := traza w |}.

(** A computation that reads and changes the world and may raise. *)
Definition M (A : Type) : Type := Mundo -> resultado A * Mundo.

#[global] Instance M_ret : MRet M := fun A a w => (Ok a, w).
#[global] Instance M_bind : MBind M :=
  fun A B f m w =>
    match m w with
    | (Ok a, w') => f a w'
    | (Lanza e, w') => (Lanza e, w')
    end.

Definition lanzar {A} (e : excepcion) : M A := fun w => (Lanza e, w).

Definition elevar {A} (r : resultado A) : M A := fun w => (r, w).

(** [try: m except Exception as e: h(e)] *)
Definition capturar {A} (m : M A) (h : excepcion -> M A) : M A :=
  fun w =>
    match m w with
    | (Ok a, w') => (Ok a, w')
    | (Lanza e, w') => h e w'
    end.

Module Chroma.

(** [PersistentClient(path)] and [get_or_create_collection(...)] *)
Definition conectar : M unit :=
  fun w =>
    match fallo_chroma w with
    | Some e => (Lanza (ErrorExterno e), w)
    | None => (Ok (), w)
    end.

(** [coleccion.count()] *)
Definition count : M Z :=
  fun w =>
    match fallo_chroma w with
    | Some e => (Lanza (ErrorExterno e), registrar EvCount w)
    | None => (Ok (Z.of_nat (length (almacen w))), registrar EvCount w)
    end.

Definition mas_cerca (a b : documento * Q) : Prop := Qle_bool a.2 b.2 = true.

#[global] Instance mas_cerca_dec : RelDecision mas_cerca.
Proof. intros a b. unfold mas_cerca. apply _. Defined.

(** The documents by ascending distance to the query. *)
Definition por_distancia (w : Mundo) (query : string) (docs : list documento)
  : list (documento * Q) :=
  merge_sort mas_cerca ((fun d => (d, distancia w query (doc_texto d))) <$> docs).

(** The documents whose metadata pass the [where] filter, if there is
    one. *)
Definition filtrados (w : Mundo) (filtros : option json) : list documento :=
  match filtros with
  | Some f => List.filter (fun d => cumple_filtro w f (doc_metadata d)) (almacen w)
  | None => almacen w
  end.

(** [coleccion.query(query_texts=[query], n_results=n, where=filtros)] *)
Definition query (texto : string) (n : Z) (filtros : option json)
  : M (list (documento * Q)) :=
  fun w =>
    let w' := registrar (EvQuery n) w in
    match fallo_chroma w with
    | Some e => (Lanza (ErrorExterno e), w')
    | None =>
        if (n <=? 0) || (Z.of_nat (length (almacen w)) <? n)
        then (Lanza (ErrorExterno "n_results"), w')
        else (Ok (take (Z.to_nat n) (por_distancia w texto (filtrados w filtros))), w')
    end.

(** The values a metadata record may hold: a string, a number, a boolean,
    or [None]. *)
Definition valor_admitido (v : json) : bool :=
  match v with
  | JStr _ | JInt _ | JFloat _ | JBool _ | JNull => true
  | _ => false
  end.

Definition metadata_admitida (m : json) : bool :=
  match m with
  | JObj c => forallb (fun kv => valor_admitido kv.2) c
  | _ => false
  end.

Definition es_nulo (v : json) : bool :=
  match v with JNull => true | _ => false end.

(** The record the store keeps: a key whose value is [None] is dropped. *)
Definition sin_nulos (m : json) : json :=
  match m with
  | JObj c => JObj (List.filter (fun kv => negb (es_nulo kv.2)) c)
  | _ => m
  end.

(** Replace the document that has the id, or add one at the end. *)
Fixpoint poner (d : documento) (docs : list documento) : list documento :=
  match docs with
  | [] => [d]
  | d' :: docs' =>
      if String.eqb (doc_id d) (doc_id d') then d :: docs' else d' :: poner d docs'
  end.

(** [coleccion.upsert(ids=[id], documents=[texto], metadatas=[metadata])]:
    the id is a string that is not empty, and the record is kept without
    the keys that hold [None]. *)
Definition upsert (id : json) (texto : string) (metadata : json) : M unit :=
  fun w =>
    let w' := registrar (EvUpsert id) w in
    match fallo_chroma w with
    | Some e => (Lanza (ErrorExterno e), w')
    | None =>
        match id with
        | JStr i =>
            if String.eqb i "" then (Lanza (ErrorExterno "ids"), w')
            else if metadata_admitida metadata
            then (Ok (), con_almacen
                           (poner {| doc_id := i; doc_texto := texto;
                                     doc_metadata := sin_nulos metadata |} (almacen w)) w')
            else (Lanza (ErrorExterno "metadata"), w')
        | _ => (Lanza (ErrorExterno "ids"), w')
        end
    end.

End Chroma.

(** [chat.completions.create(...)] and the reading of the content of its
    first choice. *)
Definition chat_completar (s : solicitud) : M string :=
  fun w => (completar w s, registrar (EvCompletar s) w).

(** ** rag/retriever.py *)

Section Retriever.
Context `{Runtime}.

(** The handle is the connection: the documents are read from the world
    at each call. *)
Definition obtener_coleccion : M unit :=
  _ ← Chroma.conectar;
  total ← Chroma.count;
  if total =? 0
  then lanzar (ValueError ("La colección de ChromaDB está vacía. "
                           +:+ "Ejecutá ingest.py primero para cargar las rutinas."))
  else mret ().

(** [if x:] for an optional string *)
Definition texto_presente (x : option string) : option string :=
  match x with
  | Some s => if String.eqb s "" then None else Some s
  | None => None
  end.

(** [if x:] for an optional list *)
Definition lista_presente {A} (x : option (list A)) : option (list A) :=
  match x with
  | Some (a :: l) => Some (a :: l)
  | _ => None
  end.

Definition construir_query
    (objetivo : option string) (evitar_movimientos incluir_movimientos : option (list string))
    (intensidad : option string) : string :=
  let partes := ["rutina de crossfit semanal"] in
  let partes :=
    match texto_presente objetivo with
    | Some o => partes ++ ["enfocada en " +:+ o]
    | None => partes
    end in
  let partes :=
    match lista_presente incluir_movimientos with
    | Some l => partes ++ ["con " +:+ Str.join ", " l]
    | None => partes
    end in
  let partes :=
    match lista_presente evitar_movimientos with
    | Some l => partes ++ ["sin repetir " +:+ Str.join ", " l]
    | None => partes
    end in
  let partes :=
    match texto_presente intensidad with
    | Some i => partes ++ ["de intensidad " +:+ i]
    | None => partes
    end in
  Str.join " " partes.

(** One retrieved routine. *)
Record rutina_recuperada : Type := {
  rr_semana_id : json;
  rr_similitud : Q;
  rr_documento : string;
  rr_metadata : json;
}.

(** [round(x, 3)], on rationals: to the nearest thousandth, a tie to the
    even one. *)
Definition redondear3 (x : Q) : Q :=
  let y := (x * 1000)%Q in
  let f := Qfloor y in
  let resto := (y - inject_Z f)%Q in
  let r := match Qcompare resto (1 # 2) with
           | Lt => f
           | Gt => f + 1
           | Eq => if Z.even f then f else f + 1
           end in
  (inject_Z r / 1000)%Q.

Definition como_recuperada (r : documento * Q) : resultado rutina_recuperada :=
  let meta := doc_metadata r.1 in
  let similitud := redondear3 (1 - r.2)%Q in
  semana_id ← Py.item meta "semana_id";
  mret {| rr_semana_id := semana_id; rr_similitud := similitud;
          rr_documento := doc_texto r.1; rr_metadata := meta |}.

(** [if filtros: params["where"] = filtros] *)
Definition where_de (filtros : option json) : option json :=
  match filtros with
  | Some f => if Py.truthy f then Some f else None
  | None => None
  end.

Definition recuperar_rutinas_similares
    (query : string) (n_resultados : Z) (filtros : option json)
  : M (list rutina_recuperada) :=
  total ← Chroma.count;
  let n_resultados := Z.min n_resultados total in
  resultados ← Chroma.query query n_resultados (where_de filtros);
  elevar (mapM como_recuperada resultados).

Fixpoint repetir (c : string) (n : nat) : string :=
  match n with
  | O => ""
  | S n' => c +:+ repetir c n'
  end.

Definition bloque_contexto (i : nat) (rutina : rutina_recuperada)
  : resultado (list string) :=
  let meta := rr_metadata rutina in
  olimpicos ← Py.get_o meta "movimientos_olimpicos" (JStr "ninguno");
  patrones ← Py.get_o meta "patrones_fuerza" (JStr "ninguno");
  grupos ← Py.get_o meta "grupos_musculares" (JStr "no especificado");
  mret [ "[Rutina " +:+ Str.de_entero (Z.of_nat i) +:+ " - " +:+ Py.str (rr_semana_id rutina)
           +:+ " (similitud: " +:+ str_flotante (rr_similitud rutina) +:+ ")]";
         "Olímpicos usados: " +:+ Py.str olimpicos;
         "Patrones de fuerza: " +:+ Py.str patrones;
         "Grupos musculares: " +:+ Py.str grupos;
         "";
         rr_documento rutina;
         "";
         repetir "-" 50;
         "" ].

Fixpoint bloques_contexto (i : nat) (rutinas : list rutina_recuperada)
  : resultado (list string) :=
  match rutinas with
  | [] => Ok []
  | r :: rs =>
      b ← bloque_contexto i r;
      bs ← bloques_contexto (S i) rs;
      mret (b ++ bs)
  end.

Definition formatear_contexto_para_llm (rutinas : list rutina_recuperada)
  : resultado string :=
  match rutinas with
  | [] => Ok "No se encontraron rutinas de referencia en la base de datos."
  | _ =>
      let lineas :=
        [ "RUTINAS DE REFERENCIA";
          repetir "=" 50;
          "Se recuperaron " +:+ Str.de_entero (Z.of_nat (length rutinas))
            +:+ " rutinas similares para usar como base.";
          "" ] in
      bloques ← bloques_contexto 1 rutinas;
      mret (Str.join nl (lineas ++ bloques))
  end.

Definition recuperar_contexto
    (objetivo : option string) (evitar_movimientos incluir_movimientos : option (list string))
    (intensidad : option string) (n_resultados : Z)
  : M (string * list rutina_recuperada) :=
  _ ← obtener_coleccion;
  let query := construir_query objetivo evitar_movimientos incluir_movimientos intensidad in
  rutinas ← recuperar_rutinas_similares query n_resultados None;
  contexto ← elevar (formatear_contexto_para_llm rutinas);
  mret (contexto, rutinas).

End Retriever.

(** ** rag/generator.py: the two modes *)

Section Generador.
Context `{Runtime}.

Definition generar_rutina
    (pedido_usuario fecha_inicio : string) (historial : list mensaje_chat)
    (n_referencias : Z) : M (string * json) :=
  '(contexto, _) ← recuperar_contexto (Some pedido_usuario) None None None n_referencias;
  let mensajes :=
    historial ++
    [ {| role := "user";
         content :=
           nl +:+ "RUTINAS DE REFERENCIA (usá estas como base para generar la nueva):" +:+ nl
           +:+ contexto +:+ nl +:+ nl
           +:+ "PEDIDO DEL USUARIO:" +:+ nl
           +:+ pedido_usuario +:+ nl +:+ nl
           +:+ "FECHA DE INICIO DE LA SEMANA: " +:+ fecha_inicio +:+ nl +:+ nl
           +:+ "Generá una rutina semanal completa (5 días: Lunes a Viernes) siguiendo" +:+ nl
           +:+ "las instrucciones del sistema. Incorporá variaciones y mejoras respecto" +:+ nl
           +:+ "a las rutinas de referencia según el pedido del usuario." +:+ nl |} ] in
  respuesta_cruda ←
    chat_completar {| sistema := SYSTEM_PROMPT_GENERACION; mensajes := mensajes;
                      max_tokens := 8000; temperature := 7 # 10 |};
  elevar (parsear_respuesta_llm respuesta_cruda).

Definition editar_rutina
    (correccion : string) (rutina_actual : json) (historial : list mensaje_chat)
  : M (string * json) :=
  let mensajes :=
    historial ++
    [ {| role := "user";
         content :=
           nl +:+ "RUTINA ACTUAL (modificá solo lo que se pide):" +:+ nl
           +:+ json_dumps rutina_actual +:+ nl +:+ nl
           +:+ "CORRECCIÓN PEDIDA POR EL USUARIO:" +:+ nl
           +:+ correccion +:+ nl +:+ nl
           +:+ "Aplicá ÚNICAMENTE la corrección pedida y devolvé la rutina completa modificada."
           +:+ nl |} ] in
  respuesta_cruda ←
    chat_completar {| sistema := SYSTEM_PROMPT_EDICION; mensajes := mensajes;
                      max_tokens := 8000; temperature := 3 # 10 |};
  elevar (parsear_respuesta_llm respuesta_cruda).

End Generador.

(** ** rag/agent.py: the conversation orchestrator *)

Section Agente.
Context `{Runtime}.

(** The session state. [rutina_actual] is [JNull] while it is [None]. *)
Record Estado : Type := {
  historial : list mensaje_chat;
  rutina_actual : json;
  aprobada : bool;
  fecha_inicio : string;
  n_ediciones : Z;
}.

(** [date.weekday()] of the date with a proleptic Gregorian ordinal:
    0 on Monday, 6 on Sunday. *)
Definition weekday (ordinal : Z) : Z := (ordinal + 6) mod 7.

(** The ordinal of [datetime.max], 31 December 9999. *)
Definition ordinal_maximo : Z := 3652059.

(** [hoy] is the ordinal of [datetime.today()].  The sum of a [datetime]
    and a [timedelta] raises [OverflowError] when it passes
    [datetime.max]. *)
Definition obtener_proximo_lunes (hoy : Z) : resultado string :=
  let dias_hasta_lunes := (7 - weekday hoy) mod 7 in
  let dias_hasta_lunes := if dias_hasta_lunes =? 0 then 7 else dias_hasta_lunes in
  if hoy + dias_hasta_lunes <=? ordinal_maximo
  then Ok (strftime_ymd (hoy + dias_hasta_lunes))
  else Lanza OverflowError.

Definition crear_estado_inicial (hoy : Z) : resultado Estado :=
  fecha ← obtener_proximo_lunes hoy;
  mret {| historial := [];
          rutina_actual := JNull;
          aprobada := false;
          fecha_inicio := fecha;
          n_ediciones := 0 |}.

Definition guardar_en_chromadb (rutina : json) : M bool :=
  capturar
    (_ ← Chroma.conectar;
     doc_id ← elevar (Py.item rutina "semana_id");
     texto ← elevar (json_a_texto_enriquecido rutina);
     metadata ← elevar (extraer_metadata_para_chroma rutina);
     _ ← Chroma.upsert doc_id texto metadata;
     _ ← Chroma.count;
     mret true)
    (fun _ => mret false).

(** [x is None] *)
Definition es_none (v : json) : bool :=
  match v with JNull => true | _ => false end.

(** The two messages an exchange appends to the history. *)
Definition intercambio (mensaje respuesta : string) : list mensaje_chat :=
  [ {| role := "user"; content := mensaje |};
    {| role := "assistant"; content := respuesta |} ].

Definition respuesta_bienvenida : string :=
  "¡Hola! Soy tu asistente de programación CrossFit. "
  +:+ "Contame qué tipo de semana querés generar. Por ejemplo:" +:+ nl +:+ nl
  +:+ "- *'Quiero una semana con énfasis en snatch y WODs cortos'*" +:+ nl
  +:+ "- *'Generá una semana de intensidad media con trabajo de tren superior'*" +:+ nl
  +:+ "- *'Necesito una semana variada para atletas intermedios'*".

Definition respuesta_no_entendi : string :=
  "No entendí bien tu pedido. Podés:" +:+ nl
  +:+ "- Pedirme un cambio específico en la rutina" +:+ nl
  +:+ "- Escribir **'aprobar'** para guardar la rutina actual" +:+ nl
  +:+ "- Pedirme una rutina completamente nueva".

(** The branch of [procesar_mensaje] for the intent "generar". *)
Definition caso_generar (mensaje : string) (estado : Estado) (w : Mundo)
  : (resultado string * Estado) * Mundo :=
  match generar_rutina mensaje (fecha_inicio estado) (historial estado) 3 w with
  | (Ok (respuesta_llm, rutina), w') =>
      (Ok (respuesta_llm +:+ nl +:+ nl
           +:+ "📋 La rutina está lista. Podés pedirme cambios o escribir "
           +:+ "**'aprobar'** cuando estés conforme para guardarla."),
       {| historial := historial estado ++ intercambio mensaje respuesta_llm;
          rutina_actual := rutina;
          aprobada := false;
          fecha_inicio := fecha_inicio estado;
          n_ediciones := 0 |},
       w')
  | (Lanza e, w') =>
      (Ok ("❌ Hubo un error al generar la rutina: " +:+ Py.str_exc e), estado, w')
  end.

(** The branch for the intent "editar". *)
Definition caso_editar (mensaje : string) (estado : Estado) (w : Mundo)
  : (resultado string * Estado) * Mundo :=
  if es_none (rutina_actual estado) then
    (Ok "Todavía no generé ninguna rutina. Contame qué tipo de semana querés.", estado, w)
  else
    match editar_rutina mensaje (rutina_actual estado) (historial estado) w with
    | (Ok (respuesta_llm, rutina_modificada), w') =>
        let n := n_ediciones estado + 1 in
        (Ok (respuesta_llm +:+ nl +:+ nl
             +:+ "✏️ Edición #" +:+ Str.de_entero n +:+ " aplicada. "
             +:+ "Podés seguir pidiendo cambios o escribir **'aprobar'** para guardar."),
         {| historial := historial estado ++ intercambio mensaje respuesta_llm;
            rutina_actual := rutina_modificada;
            aprobada := aprobada estado;
            fecha_inicio := fecha_inicio estado;
            n_ediciones := n |},
         w')
    | (Lanza e, w') =>
        (Ok ("❌ Hubo un error al editar la rutina: " +:+ Py.str_exc e), estado, w')
    end.

(** The branch for the intent "aprobar". *)
Definition caso_aprobar (mensaje : string) (estado : Estado) (w : Mundo)
  : (resultado string * Estado) * Mundo :=
  if es_none (rutina_actual estado) then
    (Ok "No hay ninguna rutina para aprobar. Contame qué tipo de semana querés.", estado, w)
  else if aprobada estado then
    (Ok "Esta rutina ya fue guardada anteriormente.", estado, w)
  else
    match guardar_en_chromadb (rutina_actual estado) w with
    | (Ok true, w') =>
        let aprobado :=
          {| historial := historial estado;
             rutina_actual := rutina_actual estado;
             aprobada := true;
             fecha_inicio := fecha_inicio estado;
             n_ediciones := n_ediciones estado |} in
        match Py.get_o (rutina_actual estado) "semana_id" (JStr "") with
        | Ok semana_id =>
            (Ok ("✅ **Rutina guardada correctamente** en la base de conocimiento." +:+ nl +:+ nl
                 +:+ "A partir de ahora esta semana va a servir como referencia "
                 +:+ "para generar futuras rutinas. "
                 +:+ "Si querés generar otra semana, contame qué necesitás."),
             {| historial :=
                  historial estado
                  ++ intercambio mensaje
                       ("Rutina " +:+ Py.str semana_id +:+ " guardada como ejemplo futuro.");
                rutina_actual := rutina_actual estado;
                aprobada := true;
                fecha_inicio := fecha_inicio estado;
                n_ediciones := n_ediciones estado |},
             w')
        | Lanza e => (Lanza e, aprobado, w')
        end
    | (Ok false, w') =>
        (Ok "❌ Hubo un error al guardar la rutina. Intentá de nuevo.", estado, w')
    | (Lanza e, w') => (Lanza e, estado, w')
    end.

(** The final [else]: the message was not recognised. *)
Definition caso_no_reconocido (estado : Estado) (w : Mundo)
  : (resultado string * Estado) * Mundo :=
  if es_none (rutina_actual estado)
  then (Ok respuesta_bienvenida, estado, w)
  else (Ok respuesta_no_entendi, estado, w).

(** The dispatch of [procesar_mensaje] on the intent. *)
Definition despachar (intencion mensaje : string) (estado : Estado) (w : Mundo)
  : (resultado string * Estado) * Mundo :=
  if String.eqb intencion "generar" then caso_generar mensaje estado w
  else if String.eqb intencion "editar" then caso_editar mensaje estado w
  else if String.eqb intencion "aprobar" then caso_aprobar mensaje estado w
  else caso_no_reconocido estado w.

(** The reply (or the exception that escapes), the session state as the
    call leaves it, and the world after the call. *)
Definition procesar_mensaje (mensaje : string) (estado : Estado) (w : Mundo)
  : (resultado string * Estado) * Mundo :=
  let tiene_rutina := negb (es_none (rutina_actual estado)) in
  let intencion := detectar_intencion mensaje tiene_rutina in
  despachar intencion mensaje estado w.

End Agente.

(** ** Notions the properties are stated with *)

Section Nociones.
Context `{Runtime}.

(** The session state a call leaves, and its reply. *)
Definition estado_tras (r : (resultado string * Estado) * Mundo) : Estado := r.1.2.
Definition respuesta_de (r : (resultado string * Estado) * Mundo) : resultado string := r.1.1.

Definition tiene_rutina (estado : Estado) : bool := negb (es_none (rutina_actual estado)).

(** The intent [procesar_mensaje] dispatches on. *)
Definition intencion_de (mensaje : string) (estado : Estado) : string :=
  detectar_intencion mensaje (tiene_rutina estado).

(** The downstream call of the branch taken fails: generation or edition
    raises, or persistence reports failure. *)
Definition llamada_fallida (mensaje : string) (estado : Estado) (w : Mundo) : Prop :=
  (intencion_de mensaje estado = "generar" /\
   exists e w', generar_rutina mensaje (fecha_inicio estado) (historial estado) 3 w
                = (Lanza e, w'))
  \/ (intencion_de mensaje estado = "editar" /\
      exists e w', editar_rutina mensaje (rutina_actual estado) (historial estado) w
                   = (Lanza e, w'))
  \/ (intencion_de mensaje estado = "aprobar" /\
      exists w', guardar_en_chromadb (rutina_actual estado) w = (Ok false, w')).

(** [aprobada] implies a routine, and so does a positive [n_ediciones]. *)
Definition invariante (estado : Estado) : Prop :=
  (aprobada estado = true -> rutina_actual estado <> JNull)
  /\ (0 < n_ediciones estado -> rutina_actual estado <> JNull).

(** The states a session goes through: the initial one, then one call of
    [procesar_mensaje] after another, each in whatever world it finds. *)
Inductive alcanzable : Estado -> Prop :=
| alcanzable_inicial (hoy : Z) (estado : Estado) :
    crear_estado_inicial hoy = Ok estado -> alcanzable estado
| alcanzable_paso (mensaje : string) (estado : Estado) (w : Mundo) :
    alcanzable estado ->
    alcanzable (estado_tras (procesar_mensaje mensaje estado w)).

(** Every document of the store carries its [semana_id] in its metadata,
    as every document [guardar_en_chromadb] and [cargar_semana] write
    does. *)
Definition almacen_con_semana_id (w : Mundo) : Prop :=
  Forall (fun d => exists v, Py.item (doc_metadata d) "semana_id" = Ok v) (almacen w).


(** The strings a day lists under a key of its metadata: the items of
    [meta.get(clave, [])]. *)
Definition lista_en_dia (clave : string) (dia : json) (s : string) : Prop :=
  exists meta v l,
    Py.item dia "metadata" = Ok meta
    /\ Py.get_o meta clave (JArr []) = Ok v
    /\ Py.iter v = Ok l
    /\ JStr s ∈ l.

(** The strength pattern of a day, when it has one. *)
Definition patron_en_dia (dia : json) (s : string) : Prop :=
  exists meta,
    Py.item dia "metadata" = Ok meta
    /\ Py.get meta "patron_movimiento_fuerza" = Ok (JStr s)
    /\ s <> "".

(** In lexicographic order, each string once. *)
Definition ordenada_sin_repetir (l : list string) : Prop :=
  StronglySorted String.le l /\ NoDup l.

(** [l] holds the strings that some day gives, and no other. *)
Definition es_union (l : list string) (dias : list json)
    (da : json -> string -> Prop) : Prop :=
  forall s, s ∈ l <-> exists dia, dia ∈ dias /\ da dia s.

(** Two lists of days give the same strings. *)
Definition misma_union (dias dias' : list json) (da : json -> string -> Prop) : Prop :=
  forall s, (exists dia, dia ∈ dias /\ da dia s) <-> (exists dia, dia ∈ dias' /\ da dia s).

(** The flat metadata record with the three lists joined. *)
Definition metadata_plana (semana_id fecha_inicio : json)
    (olimpicos patrones grupos : list string) (total : nat) : json :=
  JObj [ ("semana_id", semana_id);
         ("fecha_inicio", fecha_inicio);
         ("movimientos_olimpicos", JStr (Str.join ", " olimpicos));
         ("patrones_fuerza", JStr (Str.join ", " patrones));
         ("grupos_musculares", JStr (Str.join ", " grupos));
         ("total_dias", JInt (Z.of_nat total)) ].

(** What a set gains from another: the union of the strings. *)
Definition unir_conjunto (s c : Py.conjunto) : Py.conjunto :=
  {| Py.cadenas := Py.cadenas s ∪ Py.cadenas c;
     Py.otros := Py.otros s || Py.otros c |}.

Definition unir_acumulado (a c : acumulado) : acumulado :=
  {| todos_olimpicos := unir_conjunto (todos_olimpicos a) (todos_olimpicos c);
     todos_patrones := unir_conjunto (todos_patrones a) (todos_patrones c);
     todos_grupos := unir_conjunto (todos_grupos a) (todos_grupos c) |}.

(** The key is missing or holds [None]: what [v.get(k)] cannot tell apart. *)
Definition sin_valor (v : json) (k : string) : Prop := Py.get v k = Ok JNull.

(** The key is missing. *)
Definition falta_clave (v : json) (k : string) : Prop :=
  exists c, v = JObj c /\ Py.buscar_clave k c = None.

(** A block of rounds (core, accessories) with no exercise to write: the
    block is absent, or its list of exercises is absent or empty. *)
Definition sin_ejercicios (dia : json) (clave : string) : Prop :=
  sin_valor dia clave
  \/ exists bloque, Py.get dia clave = Ok bloque
                    /\ (sin_valor bloque "ejercicios"
                        \/ Py.get bloque "ejercicios" = Ok (JArr [])).

(** The part of a block of rounds.  With no exercise to write there is no
    part.  Otherwise it is one line: the label, the rounds (a question mark
    when the key is missing) and the exercises, joined. *)
Definition bloque_rondas_serializado
    (dia : json) (clave etiqueta : string) (partes : list string) : Prop :=
  (sin_ejercicios dia clave -> partes = [])
  /\ (forall bloque ejercicios,
        Py.get dia clave = Ok bloque -> Py.truthy bloque = true ->
        Py.get bloque "ejercicios" = Ok ejercicios -> Py.truthy ejercicios = true ->
        exists rondas l textos,
          partes = [etiqueta +:+ " (" +:+ rondas +:+ " rondas): " +:+ Str.join ", " textos]
          /\ (falta_clave bloque "rondas" -> rondas = "?")
          /\ Py.iter ejercicios = Ok l
          /\ mapM texto_ejercicio l = Ok textos).

(** The part of the primary block.  An absent block gives no part.  A
    block that is there gives its line, whatever else it holds, and the line
    of the beginner variant after it when there is one: in the line a
    missing [tipo] and a missing [movimiento] read N/A, and the sets and
    repetitions are left out unless both are there. *)
Definition bloque_principal_serializado (dia : json) (partes : list string) : Prop :=
  (sin_valor dia "bloque_principal" -> partes = [])
  /\ (forall bp,
        Py.get dia "bloque_principal" = Ok bp -> Py.truthy bp = true ->
        exists tipo movimiento sets_reps variante,
          partes = Str.strip (tipo +:+ ": " +:+ movimiento +:+ " " +:+ sets_reps) :: variante
          /\ (falta_clave bp "tipo" -> tipo = "N/A")
          /\ (falta_clave bp "movimiento" -> movimiento = "N/A")
          /\ (sin_valor bp "sets" \/ sin_valor bp "reps" -> sets_reps = "")
          /\ (sin_valor bp "variante_principiante" -> variante = [])
          /\ (forall v, Py.get bp "variante_principiante" = Ok v -> Py.truthy v = true ->
              variante = ["Principiante: " +:+ Py.str v])).

(** The part of the WOD.  An absent WOD gives no part.  A WOD that is
    there gives its header, with the format and, when one is there, the
    duration, the rounds or the time cap (nothing in their place when the
    three are absent), then one line for each exercise (none when the key
    is missing). *)
Definition wod_serializado (dia : json) (partes : list string) : Prop :=
  (sin_valor dia "wod" -> partes = [])
  /\ (forall wod,
        Py.get dia "wod" = Ok wod -> Py.truthy wod = true ->
        exists formato duracion l lineas,
          Py.item wod "formato" = Ok formato
          /\ partes = Str.strip ("WOD " +:+ Py.str formato +:+ " " +:+ duracion +:+ ":")
                      :: lineas
          /\ (sin_valor wod "duracion" -> sin_valor wod "rondas" ->
              sin_valor wod "time_cap" -> duracion = "")
          /\ (falta_clave wod "ejercicios" -> lineas = [])
          /\ Py.get_o wod "ejercicios" (JArr []) ≫= Py.iter = Ok l
          /\ mapM linea_ejercicio_wod l = Ok lineas).

(** The part of the metadata.  Absent metadata give no part.  Metadata
    that are there give the line of the muscle groups (its label alone when
    the key is missing) and the line of the intensity (N/A when the key is
    missing), with the lines of the olympic movements and of the pattern
    only when those are there. *)
Definition metadata_serializada (dia : json) (partes : list string) : Prop :=
  (sin_valor dia "metadata" -> partes = [])
  /\ (forall m,
        Py.get dia "metadata" = Ok m -> Py.truthy m = true ->
        exists musculos olimpicos intensidad patron,
          partes = ["Músculos: " +:+ musculos] ++ olimpicos
                   ++ ["Intensidad: " +:+ intensidad] ++ patron
          /\ (sin_valor m "movimientos_olimpicos" -> olimpicos = [])
          /\ (sin_valor m "patron_movimiento_fuerza" -> patron = [])
          /\ (falta_clave m "intensidad_estimada" -> intensidad = "N/A")
          /\ (falta_clave m "grupos_musculares" -> musculos = "")).

(** What the serialization of a day is made of: the header of the day,
    with N/A for an absent type tag, then the parts of the core, of the
    primary block, of the WOD, of the accessories and of the metadata, in
    that order. *)
Definition dia_serializado (dia : json) (partes : list string) : Prop :=
  exists nombre tipo core bp wod acc meta,
    Py.item dia "dia" = Ok (JStr nombre)
    /\ partes = (nl +:+ str_upper nombre +:+ " - " +:+ tipo)
                :: core ++ bp ++ wod ++ acc ++ meta
    /\ (sin_valor dia "tipo_bloque_principal" -> tipo = "N/A")
    /\ bloque_rondas_serializado dia "core" "Core" core
    /\ bloque_principal_serializado dia bp
    /\ wod_serializado dia wod
    /\ bloque_rondas_serializado dia "accesorios" "Accesorios" acc
    /\ metadata_serializada dia meta.

(** The claim that a missing field leaves no line, for the estimated
    intensity of a week of one day: no part of the text is an intensity
    line. *)
Definition omite_intensidad_ausente : Prop :=
  forall semana dia meta partes,
    Py.item semana "dias" = Ok (JArr [dia]) ->
    Py.get dia "metadata" = Ok meta ->
    falta_clave meta "intensidad_estimada" ->
    partes_semana semana = Ok partes ->
    forall parte, parte ∈ partes -> String.prefix "Intensidad:" parte = false.

End Nociones.





(** ** An instance of the run time for the examples *)

Module Fecha.

Definition dias_antes_de_mes : list Z :=
  [0; 31; 59; 90; 120; 151; 181; 212; 243; 273; 304; 334].

Definition dias_en_mes : list Z :=
  [31; 28; 31; 30; 31; 30; 31; 31; 30; 31; 30; 31].

Definition de_tabla (t : list Z) (mes : Z) : Z :=
  nth (Z.to_nat (mes - 1)) t 0.

(** Year, month and day of a proleptic Gregorian ordinal, the way
    [datetime] computes them. *)
Definition ord2ymd (ordinal : Z) : Z * Z * Z :=
  let n := ordinal - 1 in
  let n400 := n / 146097 in
  let n := n mod 146097 in
  let n100 := n / 36524 in
  let n := n mod 36524 in
  let n4 := n / 1461 in
  let n := n mod 1461 in
  let n1 := n / 365 in
  let n := n mod 365 in
  let anio := n400 * 400 + 1 + n100 * 100 + n4 * 4 + n1 in
  if (n1 =? 4) || (n100 =? 4) then (anio - 1, 12, 31)
  else
    let bisiesto := (n1 =? 3) && (negb (n4 =? 24) || (n100 =? 3)) in
    let mes := (n + 50) / 32 in
    let previos :=
      de_tabla dias_antes_de_mes mes + (if (2 <? mes) && bisiesto then 1 else 0) in
    if n <? previos then
      let mes := mes - 1 in
      let previos :=
        previos - (de_tabla dias_en_mes mes
                   + (if (mes =? 2) && bisiesto then 1 else 0)) in
      (anio, mes, n - previos + 1)
    else (anio, mes, n - previos + 1).

Definition dos_digitos (n : Z) : string :=
  if n <? 10 then "0" +:+ Str.de_entero n else Str.de_entero n.

(** [%Y-%m-%d] for a year of four digits. *)
Definition ymd (ordinal : Z) : string :=
  let '(a, m, d) := ord2ymd ordinal in
  Str.de_entero a +:+ "-" +:+ dos_digitos m +:+ "-" +:+ dos_digitos d.

End Fecha.

(** A run time for text in Basic Latin and Latin-1 Supplement and dates of
    a four-digit year; the examples that use it print no float and no
    container, and catch no exception of the interpreter. *)
Definition runtime_latin1 : Runtime :=
  {| str_lower := Str.lower_latin1;
     str_upper := Str.upper_latin1;
     float_truthy := fun _ => true;
     repr_compuesto := fun _ => "";
     texto_excepcion := fun _ => "";
     str_flotante := fun _ => "";
     json_dumps := fun _ => "";
     strftime_ymd := Fecha.ymd |}.

(** ** Data of the examples *)

Module Ejemplo.

(** A completion in generation mode: a week of one day. *)
Definition completado_generacion : string :=
  Str.con_comillas
    ("MENSAJE: Lista la semana." +:+ nl +:+ nl +:+ "JSON:" +:+ nl
     +:+ "{'semana_id': 'semana_2025_W07', 'fecha_inicio': '2025-02-10', "
     +:+ "'dias': [{'dia': 'Lunes', 'wod': {'formato': 'AMRAP', 'duracion': 12, "
     +:+ "'ejercicios': [{'nombre': 'Burpees', 'reps': '10'}]}, "
     +:+ "'metadata': {'grupos_musculares': ['piernas'], "
     +:+ "'movimientos_olimpicos': ['snatch'], 'intensidad_estimada': 'alta'}}]}" +:+ nl).

(** A completion in edit mode that carries another identifier. *)
Definition completado_edicion : string :=
  Str.con_comillas
    ("MENSAJE: Cambiado." +:+ nl +:+ nl +:+ "JSON:" +:+ nl
     +:+ "{'semana_id': 'semana_2031_W01', 'fecha_inicio': '2025-02-10', 'dias': []}" +:+ nl).

Definition documento_w06 : documento :=
  {| doc_id := "semana_2025_W06";
     doc_texto := "Semana: semana_2025_W06 | Inicio: 2025-02-03";
     doc_metadata := JObj [("semana_id", JStr "semana_2025_W06")] |}.

Definition documento_w05 : documento :=
  {| doc_id := "semana_2025_W05";
     doc_texto := "Semana: semana_2025_W05 | Inicio: 2025-01-27";
     doc_metadata := JObj [("semana_id", JStr "semana_2025_W05")] |}.

(** A store of two documents and a model that answers the two completions
    above. *)
Definition mundo : Mundo :=
  {| almacen := [documento_w05; documento_w06];
     fallo_chroma := None;
     distancia := fun _ d => if String.eqb d (doc_texto documento_w06) then 1 # 4 else 1 # 2;
     cumple_filtro := fun _ _ => true;
     completar := fun s => match sistema s with
                           | SYSTEM_PROMPT_GENERACION => Ok completado_generacion
                           | SYSTEM_PROMPT_EDICION => Ok completado_edicion
                           end;
     traza := [] |}.

(** The same with nothing ingested yet. *)
Definition mundo_vacio : Mundo := con_almacen [] mundo.

(** Tuesday 3 November 2026. *)
Definition hoy : Z := 739923.

(** The state of a session created on that day. *)
Definition estado_inicial : Estado :=
  {| historial := [];
     rutina_actual := JNull;
     aprobada := false;
     fecha_inicio := "2026-11-09";
     n_ediciones := 0 |}.

Definition pedido : string := "Quiero una semana con énfasis en snatch".

Definition correccion : string := "cambiá el WOD del lunes".

(** The session after a first request. *)
Definition tras_generar : (resultado string * Estado) * Mundo :=
  procesar_mensaje (H:=runtime_latin1) pedido estado_inicial mundo.

Definition estado_borrador : Estado := estado_tras tras_generar.

(** Then after a correction. *)
Definition tras_editar : (resultado string * Estado) * Mundo :=
  procesar_mensaje (H:=runtime_latin1) correccion estado_borrador mundo.

(** Two days, one with snatch and one with clean, and the week that lists
    them in each order. *)
Definition dia_con (nombre movimiento : string) : json :=
  JObj [ ("dia", JStr nombre);
         ("metadata",
          JObj [ ("grupos_musculares", JArr [JStr "piernas"; JStr "core"]);
                 ("movimientos_olimpicos", JArr [JStr movimiento; JStr "snatch"]);
                 ("intensidad_estimada", JStr "alta");
                 ("patron_movimiento_fuerza", JStr "sentadilla") ]) ].

Definition semana_con (dias : list json) : json :=
  JObj [ ("semana_id", JStr "semana_2025_W06");
         ("fecha_inicio", JStr "2025-02-03");
         ("dias", JArr dias) ].

Definition semana_snatch_clean : json :=
  semana_con [dia_con "Lunes" "snatch"; dia_con "Martes" "clean"].

Definition semana_clean_snatch : json :=
  semana_con [dia_con "Lunes" "clean"; dia_con "Martes" "snatch"].

(** A day that has no type tag, no movement in its primary block, no
    core, no accessories and no estimated intensity. *)
Definition dia_sin_campos : json :=
  JObj [ ("dia", JStr "Lunes");
         ("fecha", JStr "2025-02-17");
         ("bloque_principal",
          JObj [ ("tipo", JStr "FUERZA"); ("sets", JInt 5); ("reps", JStr "4") ]);
         ("wod",
          JObj [ ("formato", JStr "AMRAP"); ("duracion", JInt 12);
                 ("ejercicios",
                  JArr [ JObj [ ("nombre", JStr "Burpees"); ("reps", JStr "10") ] ]) ]);
         ("metadata", JObj [ ("grupos_musculares", JArr [JStr "piernas"]) ]) ].

(** The week of that day alone. *)
Definition semana_sin_campos : json :=
  JObj [ ("semana_id", JStr "semana_2025_W08");
         ("fecha_inicio", JStr "2025-02-17");
         ("dias", JArr [dia_sin_campos]) ].


(** A payload that is valid as the model wrote it: the backslash before the
    q is the second of an escaped backslash. *)
Definition completado_con_barra_escapada : string :=
  Str.con_comillas
    ("MENSAJE: Lista." +:+ nl +:+ nl +:+ "JSON:" +:+ nl
     +:+ "{'nota': 'C:\\qa'}" +:+ nl).

End Ejemplo.

(** ** scripts/ingest.py and rag/pipeline.py: loading the processed files

    The files the loader reads lie outside the program, like the store.
    [leer] is the text [f.read()] gives for the regular file at a path,
    opened with encoding UTF-8 ([None] when nothing exists at the path);
    [glob_json] is what [Path(PROCESSED_DATA_PATH).glob] yields for the
    pattern of the JSON files, each path as [str(archivo)] ([None] when the
    folder does not exist).  No function of the two modules writes a file,
    so the disk is the same throughout a call. *)

Record Disco : Type := {
  leer : string -> option string;
  glob_json : option (list string);
}.

Section Ingesta.
Context `{Runtime}.
Variable disco : Disco.

(** The client, the collection and the count its last [print] reads. *)
Definition inicializar_chroma : M unit :=
  _ ← Chroma.conectar;
  _ ← Chroma.count;
  mret ().

(** [json.load(f)] is [json.loads(f.read())]; the [print] before the
    return reads [len(semana['dias'])]. *)
Definition cargar_semana (ruta_json : string) : M bool :=
  match leer disco ruta_json with
  | None => mret false
  | Some contenido =>
      semana ← elevar (Json.loads contenido);
      doc_id ← elevar (Py.item semana "semana_id");
      texto ← elevar (json_a_texto_enriquecido semana);
      metadata ← elevar (extraer_metadata_para_chroma semana);
      _ ← Chroma.upsert doc_id texto metadata;
      dias ← elevar (Py.item semana "dias");
      _ ← elevar (Py.len dias);
      mret true
  end.

(** The loop over the sorted paths, with the counter [exitosos]. *)
Fixpoint cargar_archivos (archivos : list string) (exitosos : Z) : M Z :=
  match archivos with
  | [] => mret exitosos
  | archivo :: resto =>
      cargado ← cargar_semana archivo;
      cargar_archivos resto (if cargado : bool then exitosos + 1 else exitosos)
  end.

(** The paths of one folder are ordered as their names are, by code
    point. *)
Definition cargar_todas_las_semanas : M Z :=
  match glob_json disco with
  | None => mret 0
  | Some [] => mret 0
  | Some archivos_json => cargar_archivos (merge_sort String.le archivos_json) 0
  end.

(** rag/pipeline.py.  The [print] of the first branch reads the count
    again. *)
Definition inicializar_si_vacia : M Z :=
  _ ← inicializar_chroma;
  n ← Chroma.count;
  if 0 <? n then
    _ ← Chroma.count;
    mret 0
  else
    total ← cargar_todas_las_semanas;
    mret total.

End Ingesta.

(** ** scripts/parse_routine.py: the answer of the model to a routine in
    free text *)

Section Parseo.

(** The content of the first choice of the completion the model gives for
    a user message (under the system prompt and the parameters of
    [parsear_rutina_con_llm]), or the failure of the call. *)
Variable completar_groq : string -> resultado string.

(** [re.sub] of the pattern [^```(?:json)?\s*] by the empty text: the
    pattern matches at the start of the text only, and every choice of its
    optional parts matches. *)
Definition quitar_cerca_inicial (s : string) : string :=
  if String.prefix "```" s then
    let r := Str.desde 3 s in
    let r := if String.prefix "json" r then Str.desde 4 r else r in
    tras_blancos r
  else s.

(** [re.sub] of the pattern [\s*```$] by the empty text.  The dollar is the
    end of the text or the line feed that ends it; a backquote is no white
    space, so the run of white space of a match is the longest one, and the
    match is at the leftmost offset from which white space, the fence and
    the end follow. *)
Fixpoint quitar_cerca_final (s : string) : string :=
  let r := tras_blancos s in
  if String.eqb r "```" then ""
  else if String.eqb r ("```" +:+ nl) then nl
  else match s with
       | EmptyString => EmptyString
       | String c s' => String c (quitar_cerca_final s')
       end.

Definition parsear_rutina_con_llm (texto_rutina : string) : resultado json :=
  respuesta ← completar_groq ("Convertí esta rutina al formato JSON indicado:"
                              +:+ nl +:+ nl +:+ texto_rutina);
  let contenido := Str.strip respuesta in
  let contenido := quitar_cerca_inicial contenido in
  let contenido := quitar_cerca_final contenido in
  let contenido := Str.strip contenido in
  let contenido := reparar_escapes contenido in
  if String.eqb contenido ""
  then Lanza (ValueError "El modelo devolvió una respuesta vacía")
  else Json.loads contenido.

End Parseo.

(** ** Notions of the further properties *)

Section NocionesSesion.
Context `{Runtime}.

(** The world a call leaves. *)
Definition mundo_tras (r : (resultado string * Estado) * Mundo) : Mundo := r.2.

(** The calls made between two worlds, latest first. *)
Definition llamadas (w w' : Mundo) (evs : list evento) : Prop :=
  traza w' = evs ++ traza w.

Definition es_consulta (ev : evento) : bool :=
  match ev with EvQuery _ => true | _ => false end.

Definition es_escritura (ev : evento) : bool :=
  match ev with EvUpsert _ => true | _ => false end.

Definition es_completado (ev : evento) : bool :=
  match ev with EvCompletar _ => true | _ => false end.

(** A computation that writes nothing to the store: whatever the world
    it runs in, it leaves the documents as they were and makes no call that
    writes. *)
Definition solo_lee {A} (m : M A) : Prop :=
  forall w, almacen (m w).2 = almacen w
            /\ fallo_chroma (m w).2 = fallo_chroma w
            /\ exists evs, llamadas w (m w).2 evs
                           /\ Forall (fun ev => es_escritura ev = false) evs.

(** A history of exchanges: a message of the user, then the answer of the
    assistant, and so on. *)
Fixpoint turnos_alternados (h : list mensaje_chat) : bool :=
  match h with
  | [] => true
  | u :: h1 =>
      match h1 with
      | a :: h2 =>
          String.eqb (role u) "user" && String.eqb (role a) "assistant"
          && turnos_alternados h2
      | [] => false
      end
  end.

(** The document of the store that has an id. *)
Definition documento_de (id : string) (docs : list documento) : option documento :=
  List.find (fun d => String.eqb id (doc_id d)) docs.

(** A routine that cannot be written down for the store: it has no
    [semana_id], or its text or its metadata cannot be built. *)
Definition no_serializable (rutina : json) : Prop :=
  (exists e, Py.item rutina "semana_id" = Lanza e)
  \/ (exists e, json_a_texto_enriquecido rutina = Lanza e)
  \/ (exists e, extraer_metadata_para_chroma rutina = Lanza e).

(** A day that has no key [metadata]. *)
Definition dia_sin_metadata (dia : json) : Prop :=
  exists c, dia = JObj c /\ Py.buscar_clave "metadata" c = None.

End NocionesSesion.

(** A byte that occurs in the encoding of a white-space character. *)
Definition byte_de_blanco (c : ascii) : bool :=
  existsb (fun w => existsb (Ascii.eqb c) (String.list_ascii_of_string w)) Str.espacios.

(** A payload between the fences of a Markdown code block, with the
    language tag of the opening fence. *)
Definition cercado (etiqueta p : string) : string :=
  "```" +:+ etiqueta +:+ nl +:+ p +:+ nl +:+ "```".

(** A JSON object as a text: an opening brace, a body, a closing brace. *)
Definition entre_llaves (cuerpo : string) : string :=
  String "{"%char (cuerpo +:+ "}").

(** A completion in the format the system prompts ask for: the message,
    an empty line, the marker of the payload and the payload on the next
    line. *)
Definition respuesta_en_formato (mensaje carga : string) : string :=
  "MENSAJE: " +:+ mensaje +:+ nl +:+ nl +:+ "JSON:" +:+ nl +:+ carga.

(** ** Data of the further examples *)

Module Muestra.

(** The sample session after the draft is approved. *)
Definition tras_aprobar : (resultado string * Estado) * Mundo :=
  procesar_mensaje (H:=runtime_latin1) "aprobar" Ejemplo.estado_borrador Ejemplo.mundo.

Definition estado_aprobado : Estado := estado_tras tras_aprobar.

(** The routine of the draft. *)
Definition rutina_borrador : json := rutina_actual Ejemplo.estado_borrador.

(** The same routine as a processed file would hold it. *)
Definition texto_semana_07 : string :=
  Str.con_comillas
    ("{'semana_id': 'semana_2025_W07', 'fecha_inicio': '2025-02-10', "
     +:+ "'dias': [{'dia': 'Lunes', 'wod': {'formato': 'AMRAP', 'duracion': 12, "
     +:+ "'ejercicios': [{'nombre': 'Burpees', 'reps': '10'}]}, "
     +:+ "'metadata': {'grupos_musculares': ['piernas'], "
     +:+ "'movimientos_olimpicos': ['snatch'], 'intensidad_estimada': 'alta'}}]}" +:+ nl).

Definition texto_semana_08 : string :=
  Str.con_comillas
    ("{'semana_id': 'semana_2025_W08', 'fecha_inicio': '2025-02-17', 'dias': []}").

(** A folder of two processed weeks. *)
Definition disco : Disco :=
  {| leer := fun ruta =>
       if String.eqb ruta "data/processed/semana_01.json" then Some texto_semana_07
       else if String.eqb ruta "data/processed/semana_02.json" then Some texto_semana_08
       else None;
     glob_json := Some ["data/processed/semana_02.json"; "data/processed/semana_01.json"] |}.

(** The same folder with a file that is cut short. *)
Definition disco_roto : Disco :=
  {| leer := fun ruta =>
       if String.eqb ruta "data/processed/semana_01.json" then Some texto_semana_07
       else if String.eqb ruta "data/processed/semana_02.json" then Some "{"
       else None;
     glob_json := Some ["data/processed/semana_02.json"; "data/processed/semana_01.json"] |}.

(** A week whose only day has no metadata. *)
Definition semana_sin_metadata : json :=
  JObj [ ("semana_id", JStr "semana_2025_W10");
         ("fecha_inicio", JStr "2025-03-03");
         ("dias", JArr [ JObj [ ("dia", JStr "Lunes") ] ]) ].

(** A session whose routine is that week. *)
Definition estado_sin_metadata : Estado :=
  {| historial := [];
     rutina_actual := semana_sin_metadata;
     aprobada := false;
     fecha_inicio := "2025-03-03";
     n_ediciones := 0 |}.

(** A week with no start date. *)
Definition semana_sin_fecha : json :=
  JObj [ ("semana_id", JStr "semana_2025_W12");
         ("fecha_inicio", JNull);
         ("dias", JArr []) ].

(** The world after that week is saved. *)
Definition mundo_sin_fecha : Mundo :=
  (guardar_en_chromadb (H:=runtime_latin1) semana_sin_fecha Ejemplo.mundo).2.

(** The world after the routine of the draft is saved. *)
Definition mundo_guardado : Mundo :=
  (guardar_en_chromadb (H:=runtime_latin1) rutina_borrador Ejemplo.mundo).2.

(** The empty store after the first file of the folder is loaded. *)
Definition mundo_cargado : Mundo :=
  (cargar_semana (H:=runtime_latin1) disco "data/processed/semana_01.json"
     Ejemplo.mundo_vacio).2.

(** The body of a small object, and a model that answers it between the
    fences of a block tagged json, a line feed after the closing fence. *)
Definition cuerpo_objeto : string :=
  Str.con_comillas "'semana_id': 'semana_2025_W11', 'dias': []".

Definition completar_cercado (_ : string) : resultado string :=
  Ok (cercado "json" (entre_llaves cuerpo_objeto) +:+ nl).

(** A model that answers a blank line. *)
Definition completar_en_blanco (_ : string) : resultado string :=
  Ok (" " +:+ nl).

End Muestra.

(** * Properties *)

#[local] Set Warnings "-clear-no-such-hyp".

(** ** Strings *)

Lemma app_vacia (s : string) : "" +:+ s = s.
Proof. reflexivity. Qed.

Lemma app_cons (c : ascii) (s t : string) : String c s +:+ t = String c (s +:+ t).
Proof. reflexivity. Qed.

Create Rewrite HintDb cadenas.
#[global] Hint Rewrite app_vacia app_cons : cadenas.

Ltac simpl_app := autorewrite with cadenas in *.

(** One step of a computation in [resultado], without unfolding anything
    else. *)
Ltac paso_res := cbn [mbind resultado_bind mret resultado_ret fmap resultado_fmap].
Tactic Notation "paso_res" "in" hyp(H) :=
  cbn [mbind resultado_bind mret resultado_ret fmap resultado_fmap] in H.

(** The first call of a computation that succeeded has succeeded: name its
    result and keep its equation. *)
Tactic Notation "caso_res" hyp(H) "as" ident(x) "eqn" ":" ident(E) :=
  match type of H with
  | mbind _ ?m = Ok _ =>
      destruct m as [x|?] eqn:E; paso_res in H; [|discriminate H]
  end.

Lemma prefix_spec (p s : string) :
  String.prefix p s = true <-> exists post, s = p +:+ post.
Proof.
  revert p. induction s as [|d s IH]; intros [|c p]; simpl.
  - split; [by exists "" | done].
  - split; [discriminate | intros [post Hpost]; discriminate].
  - split; [by exists (String d s) | done].
  - destruct (ascii_dec c d) as [->|Hne].
    + rewrite IH. split; intros [post Hpost]; exists post; simpl_app; congruence.
    + split; [discriminate | intros [post Hpost]; simpl_app; congruence].
Qed.

Lemma contiene_spec (p s : string) :
  Str.contiene p s = true <-> exists pre post, s = pre +:+ p +:+ post.
Proof.
  induction s as [|c s IH]; cbn [Str.contiene].
  - rewrite orb_false_r, prefix_spec. split.
    + intros [post Hpost]. by exists "", post.
    + intros [pre [post Hpost]]. destruct pre; [by exists post | done].
  - rewrite orb_true_iff, prefix_spec, IH. split.
    + intros [[post Hpost] | [pre [post Hpost]]].
      * by exists "", post.
      * exists (String c pre), post. simpl_app. by rewrite Hpost.
    + intros [pre [post Hpost]]. destruct pre as [|d pre]; simpl_app.
      * left. by exists post.
      * right. exists pre, post. congruence.
Qed.

Lemma alguna_en_spec (palabras : list string) (texto : string) :
  alguna_en palabras texto = true <->
  exists palabra, palabra ∈ palabras /\ Str.contiene palabra texto = true.
Proof.
  unfold alguna_en. rewrite existsb_exists.
  split; intros [w [Hin Hw]]; exists w; split; auto; by apply list_elem_of_In.
Qed.

(** ** Intent classifier *)

Example ej_intencion :
  detectar_intencion (H:=runtime_latin1) "Perfecto, CAMBIÁ el WOD del miércoles" true = "aprobar"
  /\ detectar_intencion (H:=runtime_latin1) "CAMBIÁ el WOD del miércoles" true = "editar"
  /\ detectar_intencion (H:=runtime_latin1) "Dame otra semana" true = "editar"
  /\ detectar_intencion (H:=runtime_latin1) "CAMBIÁ el WOD del miércoles" false = "generar".
Proof. vm_compute. repeat split. Qed.

(** C5. An utterance whose lower-cased text contains an approval keyword is
    classified "aprobar", whether or not a routine is present and whatever
    else (modification keywords included) the utterance contains. *)
Theorem aprobar_tiene_prioridad `{Runtime}
    (mensaje : string) (tiene_rutina : bool) (palabra pre post : string) :
  palabra ∈ palabras_aprobar ->
  str_lower mensaje = pre +:+ palabra +:+ post ->
  detectar_intencion mensaje tiene_rutina = "aprobar".
Proof.
  intros Hin Hsub. unfold detectar_intencion.
  assert (alguna_en palabras_aprobar (str_lower mensaje) = true) as ->; [|done].
  apply alguna_en_spec. exists palabra. split; [done|].
  apply contiene_spec. by exists pre, post.
Qed.

(** The utterance of the specification: an approval keyword ("perfecto")
    followed by a modification keyword ("cambiá"), with a routine present. *)
Lemma aprobar_tiene_prioridad_witness :
  "perfecto" ∈ palabras_aprobar
  /\ "cambiá" ∈ palabras_editar
  /\ str_lower (Runtime:=runtime_latin1) "perfecto, cambiá el WOD del miércoles"
     = "" +:+ "perfecto" +:+ ", cambiá el wod del miércoles"
  /\ detectar_intencion (H:=runtime_latin1) "perfecto, cambiá el WOD del miércoles" true
     = "aprobar".
Proof.
  assert (H1 : "perfecto" ∈ palabras_aprobar)
    by (apply list_elem_of_In; vm_compute; tauto).
  assert (H2 : "cambiá" ∈ palabras_editar)
    by (apply list_elem_of_In; vm_compute; tauto).
  assert (H3 : str_lower (Runtime:=runtime_latin1) "perfecto, cambiá el WOD del miércoles"
               = "" +:+ "perfecto" +:+ ", cambiá el wod del miércoles")
    by (vm_compute; reflexivity).
  split; [exact H1|]. split; [exact H2|]. split; [exact H3|].
  exact (aprobar_tiene_prioridad (H:=runtime_latin1)
           "perfecto, cambiá el WOD del miércoles" true "perfecto" ""
           ", cambiá el wod del miércoles" H1 H3).
Defined.

Lemma intencion_nunca_otro `{Runtime} (mensaje : string) (tiene_rutina : bool) :
  detectar_intencion mensaje tiene_rutina ∈ ["aprobar"; "editar"; "generar"]
  /\ detectar_intencion mensaje tiene_rutina <> "otro".
Proof.
  unfold detectar_intencion.
  destruct (alguna_en palabras_aprobar (str_lower mensaje)), tiene_rutina,
    (alguna_en palabras_editar (str_lower mensaje)); simpl; split; try discriminate;
    repeat (first [ apply list_elem_of_here | apply list_elem_of_further ]).
Qed.

(** ** Completion parser: the payload is always an object *)

Lemma buscar_patron_some (coincide : string -> option string) (s g : string) :
  buscar_patron coincide s = Some g -> exists s', coincide s' = Some g.
Proof.
  induction s as [|c s IH]; simpl.
  - destruct (coincide "") eqn:E; [intros [= <-]; eauto | discriminate].
  - destruct (coincide (String c s)) eqn:E; [intros [= <-]; eauto | auto].
Qed.

Lemma coincide_json_cercado_llave (s g : string) :
  coincide_json_cercado s = Some g -> abre_llave g.
Proof.
  unfold coincide_json_cercado.
  destruct (String.prefix "JSON:" s); [|discriminate].
  destruct (String.prefix "```" _); [|discriminate]. cbv zeta.
  destruct (String.prefix "{" _); [|discriminate].
  destruct (Str.desde 1 _) as [|c r5]; [discriminate|].
  destruct (buscar_cierre_cerca r5); [|discriminate].
  intros [= <-]. by eexists _, _.
Qed.

Lemma coincide_json_suelto_llave (s g : string) :
  coincide_json_suelto s = Some g -> abre_llave g.
Proof.
  unfold coincide_json_suelto.
  destruct (String.prefix "JSON:" s); [|discriminate]. cbv zeta.
  destruct (String.prefix "{" _); [|discriminate].
  destruct (Str.desde 1 _) as [|c r2]; [discriminate|].
  destruct (ultima_llave r2); [|discriminate].
  intros [= <-]. by eexists _, _.
Qed.

Lemma lstrip_llave (r : string) :
  Str.lstrip (String "{"%char r) = String "{"%char r.
Proof. reflexivity. Qed.

Lemma strip_llave (r : string) :
  Str.strip (String "{"%char r) = String "{"%char (Str.rstrip r).
Proof. reflexivity. Qed.

Lemma reparar_escapes_llave (r : string) :
  reparar_escapes (String "{"%char r) = String "{"%char (reparar_escapes r).
Proof. reflexivity. Qed.

Lemma valor_llave (fuel : nat) (r : string) (v : json) (resto : string) :
  Json.valor fuel (String "{"%char r) = Ok (v, resto) -> exists c, v = JObj c.
Proof.
  destruct fuel as [|fuel]; [discriminate|].
  cbn [Json.valor]. change (Ascii.eqb "{" Str.comilla) with false.
  change (Ascii.eqb "{" "{") with true. cbv iota zeta.
  destruct (String.prefix "}" _).
  - intros [= <- <-]. eauto.
  - destruct (Json.miembros fuel _) as [[ps q]|e]; simpl; [|discriminate].
    intros [= <- <-]. eauto.
Qed.

Lemma loads_llave (r : string) (v : json) :
  Json.loads (String "{"%char r) = Ok v -> exists c, v = JObj c.
Proof.
  unfold Json.loads.
  change (Json.saltar_blancos (String "{" r)) with (String "{"%char r).
  destruct (Json.valor _ _) as [[v' resto]|e] eqn:Ev; simpl; [|discriminate].
  destruct (Json.saltar_blancos resto); [|discriminate].
  intros [= <-]. eapply valor_llave, Ev.
Qed.

(** Whatever the model answers, a completion that parses yields a
    [dict], never [None]. *)
Lemma parsear_respuesta_llm_objeto (cruda mensaje : string) (rutina : json) :
  parsear_respuesta_llm cruda = Ok (mensaje, rutina) -> exists c, rutina = JObj c.
Proof.
  unfold parsear_respuesta_llm, extraer_mensaje, extraer_json.
  destruct (buscar_patron coincide_mensaje cruda); [|discriminate].
  destruct (buscar_patron coincide_json_cercado cruda) as [g|] eqn:E1.
  - apply buscar_patron_some in E1 as [s' Hs'].
    apply coincide_json_cercado_llave in Hs' as (c & r & ->).
    rewrite strip_llave, reparar_escapes_llave.
    destruct (Json.loads _) as [v|e] eqn:Ev; simpl; [|discriminate].
    intros [= _ <-]. eapply loads_llave, Ev.
  - destruct (buscar_patron coincide_json_suelto cruda) as [g|] eqn:E2; [|discriminate].
    apply buscar_patron_some in E2 as [s' Hs'].
    apply coincide_json_suelto_llave in Hs' as (c & r & ->).
    rewrite strip_llave, reparar_escapes_llave.
    destruct (Json.loads _) as [v|e] eqn:Ev; simpl; [|discriminate].
    intros [= _ <-]. eapply loads_llave, Ev.
Qed.

(** ** Orchestrator *)

Section PropiedadesAgente.
Context `{Runtime}.

Lemma intencion_casos (mensaje : string) (tiene : bool) :
  (detectar_intencion mensaje tiene = "aprobar")
  \/ (detectar_intencion mensaje tiene = "editar" /\ tiene = true)
  \/ (detectar_intencion mensaje tiene = "generar" /\ tiene = false).
Proof.
  unfold detectar_intencion.
  destruct (alguna_en palabras_aprobar (str_lower mensaje)); [by left|].
  destruct tiene, (alguna_en palabras_editar (str_lower mensaje)); simpl; auto.
Qed.

Lemma generar_rutina_objeto mensaje fecha hist n w respuesta rutina w' :
  generar_rutina mensaje fecha hist n w = (Ok (respuesta, rutina), w') ->
  exists c, rutina = JObj c.
Proof.
  unfold generar_rutina, mbind, M_bind.
  destruct (recuperar_contexto _ _ _ _ _ w) as [[[ctx rs]|e] w1]; [|discriminate].
  unfold chat_completar, elevar.
  destruct (completar w1 _) as [cruda|e]; [|discriminate].
  intros [= Hp _]. eapply parsear_respuesta_llm_objeto, Hp.
Qed.

Lemma editar_rutina_respuesta correccion rutina_actual hist w respuesta rutina w' :
  editar_rutina correccion rutina_actual hist w = (Ok (respuesta, rutina), w') ->
  exists s cruda, completar w s = Ok cruda
                  /\ parsear_respuesta_llm cruda = Ok (respuesta, rutina).
Proof.
  unfold editar_rutina, mbind, M_bind, chat_completar, elevar.
  destruct (completar w _) as [cruda|e] eqn:Ec; [|discriminate].
  intros [= Hp _]. eauto.
Qed.

Lemma editar_rutina_objeto correccion rutina_actual hist w respuesta rutina w' :
  editar_rutina correccion rutina_actual hist w = (Ok (respuesta, rutina), w') ->
  exists c, rutina = JObj c.
Proof.
  intros (s & cruda & _ & Hp)%editar_rutina_respuesta.
  eapply parsear_respuesta_llm_objeto, Hp.
Qed.

Lemma procesar_mensaje_casos (mensaje : string) (estado : Estado) (w : Mundo) :
  (intencion_de mensaje estado = "aprobar"
   /\ procesar_mensaje mensaje estado w = caso_aprobar mensaje estado w)
  \/ (intencion_de mensaje estado = "editar" /\ tiene_rutina estado = true
      /\ procesar_mensaje mensaje estado w = caso_editar mensaje estado w)
  \/ (intencion_de mensaje estado = "generar" /\ tiene_rutina estado = false
      /\ procesar_mensaje mensaje estado w = caso_generar mensaje estado w).
Proof.
  unfold procesar_mensaje, intencion_de, tiene_rutina, despachar.
  destruct (intencion_casos mensaje (negb (es_none (rutina_actual estado))))
    as [-> | [[-> ->] | [-> ->]]]; auto.
Qed.

End PropiedadesAgente.

Section Sesion.
Context `{Runtime}.

Lemma fallo_estado_igual (mensaje : string) (estado : Estado) (w : Mundo) :
  llamada_fallida mensaje estado w ->
  estado_tras (procesar_mensaje mensaje estado w) = estado.
Proof.
  intros Hf.
  destruct (procesar_mensaje_casos mensaje estado w)
    as [[Hi ->] | [(Hi & Ht & ->) | (Hi & Ht & ->)]];
    destruct Hf as [[Hg Hf] | [[Hg Hf] | [Hg Hf]]];
    rewrite Hi in Hg; try discriminate.
  - destruct Hf as [w' Hf]. unfold caso_aprobar.
    destruct (es_none (rutina_actual estado)); [done|].
    destruct (aprobada estado); [done|]. by rewrite Hf.
  - destruct Hf as (e & w' & Hf). unfold caso_editar.
    destruct (es_none (rutina_actual estado)); [done|]. by rewrite Hf.
  - destruct Hf as (e & w' & Hf). unfold caso_generar. by rewrite Hf.
Qed.

(** C1. When the downstream call of the branch taken fails (generation
    or edition raises, persistence reports failure), [procesar_mensaje]
    leaves [rutina_actual], [aprobada] and [n_ediciones] as they were and
    appends nothing to [historial]. *)
Theorem fallo_no_muta_estado (mensaje : string) (estado : Estado) (w : Mundo) :
  llamada_fallida mensaje estado w ->
  rutina_actual (estado_tras (procesar_mensaje mensaje estado w)) = rutina_actual estado
  /\ aprobada (estado_tras (procesar_mensaje mensaje estado w)) = aprobada estado
  /\ n_ediciones (estado_tras (procesar_mensaje mensaje estado w)) = n_ediciones estado
  /\ length (historial (estado_tras (procesar_mensaje mensaje estado w)))
     = length (historial estado).
Proof. intros Hf. by rewrite (fallo_estado_igual _ _ _ Hf). Qed.

Lemma crear_estado_inicial_forma (hoy : Z) (estado : Estado) :
  crear_estado_inicial hoy = Ok estado ->
  estado = {| historial := []; rutina_actual := JNull; aprobada := false;
              fecha_inicio := fecha_inicio estado; n_ediciones := 0 |}.
Proof.
  unfold crear_estado_inicial. intros Hc.
  caso_res Hc as fecha eqn:Ef. by injection Hc as <-.
Qed.

Lemma invariante_inicial (hoy : Z) (estado : Estado) :
  crear_estado_inicial hoy = Ok estado -> invariante estado.
Proof.
  intros ->%crear_estado_inicial_forma. split; simpl; [discriminate | lia].
Qed.

Lemma invariante_paso (mensaje : string) (estado : Estado) (w : Mundo) :
  invariante estado ->
  invariante (estado_tras (procesar_mensaje mensaje estado w)).
Proof.
  intros Hinv.
  destruct (procesar_mensaje_casos mensaje estado w)
    as [[Hi ->] | [(Hi & Ht & ->) | (Hi & Ht & ->)]].
  - unfold caso_aprobar.
    destruct (es_none (rutina_actual estado)) eqn:En; [exact Hinv|].
    destruct (aprobada estado) eqn:Eap; [exact Hinv|].
    assert (rutina_actual estado <> JNull) as Hr
      by (intros Heq; rewrite Heq in En; discriminate).
    destruct (guardar_en_chromadb _ w) as [[[]|e] w']; [|exact Hinv|exact Hinv].
    destruct (Py.get_o _ _ _); split; simpl; auto.
  - unfold caso_editar. unfold tiene_rutina in Ht.
    destruct (es_none (rutina_actual estado)) eqn:En; [exact Hinv|].
    destruct (editar_rutina _ _ _ w) as [[[resp rut]|e] w'] eqn:Ee; [|exact Hinv].
    apply editar_rutina_objeto in Ee as [c ->].
    split; simpl; intros _; discriminate.
  - unfold caso_generar.
    destruct (generar_rutina _ _ _ _ w) as [[[resp rut]|e] w'] eqn:Eg; [|exact Hinv].
    split; simpl; [discriminate | lia].
Qed.

(** C4. Every state a session reaches from the initial one satisfies the
    invariant ([aprobada] implies a routine, [n_ediciones > 0] implies a
    routine), and one more call of [procesar_mensaje] keeps it. *)
Theorem invariante_sesion (estado : Estado) :
  alcanzable estado ->
  invariante estado
  /\ forall mensaje w, invariante (estado_tras (procesar_mensaje mensaje estado w)).
Proof.
  intros Hal.
  assert (invariante estado) as Hinv.
  { induction Hal as [hoy estado Hc | mensaje estado w _ IH].
    - by apply (invariante_inicial hoy).
    - by apply invariante_paso. }
  split; [done|]. intros mensaje w. by apply invariante_paso.
Qed.

(** C2, as amended. A successful edit stores in [rutina_actual] the
    record parsed from the completion of the model, whole: its
    [semana_id] is the one the completion carries, so it is unchanged
    exactly when the model returned it unchanged. The step adds one to
    [n_ediciones] and leaves [aprobada] and [fecha_inicio] alone. *)
Theorem edicion_adopta_respuesta
    (mensaje : string) (estado : Estado) (w w' : Mundo)
    (respuesta_llm : string) (rutina : json) :
  intencion_de mensaje estado = "editar" ->
  editar_rutina mensaje (rutina_actual estado) (historial estado) w
  = (Ok (respuesta_llm, rutina), w') ->
  rutina_actual (estado_tras (procesar_mensaje mensaje estado w)) = rutina
  /\ (exists s cruda, completar w s = Ok cruda
                      /\ parsear_respuesta_llm cruda = Ok (respuesta_llm, rutina))
  /\ (Py.item (rutina_actual (estado_tras (procesar_mensaje mensaje estado w))) "semana_id"
      = Py.item (rutina_actual estado) "semana_id"
      <-> Py.item rutina "semana_id" = Py.item (rutina_actual estado) "semana_id")
  /\ n_ediciones (estado_tras (procesar_mensaje mensaje estado w)) = n_ediciones estado + 1
  /\ aprobada (estado_tras (procesar_mensaje mensaje estado w)) = aprobada estado
  /\ fecha_inicio (estado_tras (procesar_mensaje mensaje estado w)) = fecha_inicio estado.
Proof.
  intros Hi He.
  destruct (procesar_mensaje_casos mensaje estado w)
    as [[Hi' _] | [(_ & Ht & ->) | (Hi' & _)]];
    try (rewrite Hi in Hi'; discriminate).
  unfold caso_editar. unfold tiene_rutina in Ht.
  destruct (es_none (rutina_actual estado)); [discriminate|].
  rewrite He. simpl. repeat split; try done.
  eapply editar_rutina_respuesta, He.
Qed.

(** C10. The classifier answers "aprobar", "editar" or "generar", never
    "otro": [procesar_mensaje] always runs one of the three branches of
    those intents, and its final [else] is never taken. *)
Theorem rama_no_reconocida_inalcanzable
    (mensaje : string) (hay_rutina : bool) (estado : Estado) (w : Mundo) :
  detectar_intencion mensaje hay_rutina ∈ ["aprobar"; "editar"; "generar"]
  /\ detectar_intencion mensaje hay_rutina <> "otro"
  /\ ((intencion_de mensaje estado = "aprobar"
       /\ procesar_mensaje mensaje estado w = caso_aprobar mensaje estado w)
      \/ (intencion_de mensaje estado = "editar"
          /\ procesar_mensaje mensaje estado w = caso_editar mensaje estado w)
      \/ (intencion_de mensaje estado = "generar"
          /\ procesar_mensaje mensaje estado w = caso_generar mensaje estado w)).
Proof.
  split; [apply intencion_nunca_otro|].
  split; [apply intencion_nunca_otro|].
  destruct (procesar_mensaje_casos mensaje estado w)
    as [[Hi Hp] | [(Hi & _ & Hp) | (Hi & _ & Hp)]]; auto.
Qed.

End Sesion.

(** *** The sample session *)

Example ej_sesion :
  crear_estado_inicial (H:=runtime_latin1) Ejemplo.hoy = Ok Ejemplo.estado_inicial
  /\ respuesta_de Ejemplo.tras_generar
     = Ok ("Lista la semana." +:+ nl +:+ nl
           +:+ "📋 La rutina está lista. Podés pedirme cambios o escribir "
           +:+ "**'aprobar'** cuando estés conforme para guardarla.")
  /\ aprobada Ejemplo.estado_borrador = false
  /\ n_ediciones Ejemplo.estado_borrador = 0
  /\ length (historial Ejemplo.estado_borrador) = 2%nat.
Proof. vm_compute. repeat split. Qed.

(** With nothing ingested, the first request fails in retrieval and the
    session state stays the initial one. *)
Lemma fallo_no_muta_estado_witness :
  llamada_fallida (H:=runtime_latin1) Ejemplo.pedido Ejemplo.estado_inicial Ejemplo.mundo_vacio
  /\ rutina_actual (estado_tras (procesar_mensaje (H:=runtime_latin1) Ejemplo.pedido
                                   Ejemplo.estado_inicial Ejemplo.mundo_vacio))
     = rutina_actual Ejemplo.estado_inicial
  /\ aprobada (estado_tras (procesar_mensaje (H:=runtime_latin1) Ejemplo.pedido
                              Ejemplo.estado_inicial Ejemplo.mundo_vacio))
     = aprobada Ejemplo.estado_inicial
  /\ n_ediciones (estado_tras (procesar_mensaje (H:=runtime_latin1) Ejemplo.pedido
                                 Ejemplo.estado_inicial Ejemplo.mundo_vacio))
     = n_ediciones Ejemplo.estado_inicial
  /\ length (historial (estado_tras (procesar_mensaje (H:=runtime_latin1) Ejemplo.pedido
                                       Ejemplo.estado_inicial Ejemplo.mundo_vacio)))
     = length (historial Ejemplo.estado_inicial).
Proof.
  assert (Hf : llamada_fallida (H:=runtime_latin1) Ejemplo.pedido Ejemplo.estado_inicial
                 Ejemplo.mundo_vacio).
  { left. split; [vm_compute; reflexivity|].
    eexists _, _. vm_compute. reflexivity. }
  split; [exact Hf|].
  exact (fallo_no_muta_estado (H:=runtime_latin1) Ejemplo.pedido Ejemplo.estado_inicial
           Ejemplo.mundo_vacio Hf).
Defined.

Lemma invariante_sesion_witness :
  alcanzable (H:=runtime_latin1) Ejemplo.estado_borrador
  /\ invariante Ejemplo.estado_borrador
  /\ forall mensaje w,
       invariante (estado_tras (procesar_mensaje (H:=runtime_latin1) mensaje
                                  Ejemplo.estado_borrador w)).
Proof.
  assert (Hal : alcanzable (H:=runtime_latin1) Ejemplo.estado_borrador).
  { apply alcanzable_paso, (alcanzable_inicial Ejemplo.hoy). reflexivity. }
  split; [exact Hal|].
  exact (invariante_sesion (H:=runtime_latin1) Ejemplo.estado_borrador Hal).
Defined.

(** C2, counterexample. In the sample session the model answers the
    correction with a record that carries another [semana_id]; the edit
    succeeds and the identifier of [rutina_actual] changes. *)
Lemma edicion_cambia_semana_id :
  intencion_de (H:=runtime_latin1) Ejemplo.correccion Ejemplo.estado_borrador = "editar"
  /\ n_ediciones (estado_tras Ejemplo.tras_editar) = n_ediciones Ejemplo.estado_borrador + 1
  /\ Py.item (rutina_actual Ejemplo.estado_borrador) "semana_id"
     = Ok (JStr "semana_2025_W07")
  /\ Py.item (rutina_actual (estado_tras Ejemplo.tras_editar)) "semana_id"
     = Ok (JStr "semana_2031_W01")
  /\ Py.item (rutina_actual (estado_tras Ejemplo.tras_editar)) "semana_id"
     <> Py.item (rutina_actual Ejemplo.estado_borrador) "semana_id".
Proof.
  split; [vm_compute; reflexivity|].
  split; [vm_compute; reflexivity|].
  split; [vm_compute; reflexivity|].
  split; [vm_compute; reflexivity|].
  vm_compute. discriminate.
Qed.

Lemma edicion_adopta_respuesta_witness :
  intencion_de (H:=runtime_latin1) Ejemplo.correccion Ejemplo.estado_borrador = "editar"
  /\ editar_rutina (H:=runtime_latin1) Ejemplo.correccion
       (rutina_actual Ejemplo.estado_borrador) (historial Ejemplo.estado_borrador)
       Ejemplo.mundo
     = (Ok ("Cambiado.",
            JObj [("semana_id", JStr "semana_2031_W01");
                  ("fecha_inicio", JStr "2025-02-10"); ("dias", JArr [])]),
        Ejemplo.tras_editar.2)
  /\ rutina_actual (estado_tras Ejemplo.tras_editar)
     = JObj [("semana_id", JStr "semana_2031_W01");
             ("fecha_inicio", JStr "2025-02-10"); ("dias", JArr [])]
  /\ n_ediciones (estado_tras Ejemplo.tras_editar) = n_ediciones Ejemplo.estado_borrador + 1.
Proof.
  assert (Hi : intencion_de (H:=runtime_latin1) Ejemplo.correccion Ejemplo.estado_borrador
               = "editar") by (vm_compute; reflexivity).
  assert (He : editar_rutina (H:=runtime_latin1) Ejemplo.correccion
                 (rutina_actual Ejemplo.estado_borrador) (historial Ejemplo.estado_borrador)
                 Ejemplo.mundo
               = (Ok ("Cambiado.",
                      JObj [("semana_id", JStr "semana_2031_W01");
                            ("fecha_inicio", JStr "2025-02-10"); ("dias", JArr [])]),
                  Ejemplo.tras_editar.2)) by (vm_compute; reflexivity).
  split; [exact Hi|]. split; [exact He|].
  pose proof (edicion_adopta_respuesta (H:=runtime_latin1) Ejemplo.correccion
                Ejemplo.estado_borrador Ejemplo.mundo _ _ _ Hi He) as (Hr & _ & _ & Hn & _).
  split; [exact Hr | exact Hn].
Defined.

(** ** Retriever *)

Lemma mapM_resultado_ok {A B} (f : A -> resultado B) (l : list A) :
  Forall (fun x => exists y, f x = Ok y) l ->
  exists l', mapM f l = Ok l' /\ length l' = length l.
Proof.
  induction 1 as [|x l [y Hy] _ [l' [IH Hlen]]]; simpl.
  - by exists [].
  - exists (y :: l'). rewrite Hy. simpl. rewrite IH. simpl. by rewrite Hlen.
Qed.

Lemma mapM_resultado_length {A B} (f : A -> resultado B) (l : list A) (l' : list B) :
  mapM f l = Ok l' -> length l' = length l.
Proof.
  revert l'. induction l as [|x l IH]; simpl; intros l'.
  - by intros [= <-].
  - destruct (f x) as [y|e]; simpl; [|discriminate].
    destruct (mapM f l) as [k|e]; simpl; [|discriminate].
    intros [= <-]. simpl. by rewrite (IH k).
Qed.

Lemma mapM_resultado_Forall2 {A B} (f : A -> resultado B) (l : list A) (l' : list B) :
  mapM f l = Ok l' -> Forall2 (fun x y => f x = Ok y) l l'.
Proof.
  revert l'. induction l as [|x l IH]; simpl; intros l'.
  - intros [= <-]. constructor.
  - destruct (f x) as [y|e] eqn:Ex; simpl; [|discriminate].
    destruct (mapM f l) as [k|e]; simpl; [|discriminate].
    intros [= <-]. constructor; [done | by apply IH].
Qed.

Section PropiedadesRetriever.
Context `{Runtime}.

Lemma por_distancia_length (w : Mundo) (query : string) (docs : list documento) :
  length (Chroma.por_distancia w query docs) = length docs.
Proof.
  unfold Chroma.por_distancia.
  rewrite (Permutation_length (merge_sort_Permutation _ _)).
  apply length_fmap.
Qed.

Lemma por_distancia_Forall (P : documento -> Prop) w query docs :
  Forall P docs -> Forall (fun r => P r.1) (Chroma.por_distancia w query docs).
Proof.
  intros HP. unfold Chroma.por_distancia.
  rewrite (merge_sort_Permutation _ _).
  apply Forall_fmap. by eapply Forall_impl; [exact HP|].
Qed.



Lemma query_ok (w : Mundo) (texto : string) (n : Z) (filtros : option json) :
  fallo_chroma w = None ->
  0 < n <= Z.of_nat (length (almacen w)) ->
  Chroma.query texto n filtros w
  = (Ok (take (Z.to_nat n) (Chroma.por_distancia w texto (Chroma.filtrados w filtros))),
     registrar (EvQuery n) w).
Proof.
  intros Hf Hn. unfold Chroma.query. rewrite Hf.
  assert ((n <=? 0) || (Z.of_nat (length (almacen w)) <? n) = false) as ->; [|done].
  apply orb_false_iff. split; [apply Z.leb_gt | apply Z.ltb_ge]; lia.
Qed.

(** What [recuperar_rutinas_similares] asks of the store: the count, then
    one query for [min(n_resultados, count)] results. *)
Lemma recuperar_rutinas_similares_traza (w : Mundo) (query : string) (k : Z)
    (filtros : option json) :
  fallo_chroma w = None ->
  traza (recuperar_rutinas_similares query k filtros w).2
  = EvQuery (Z.min k (Z.of_nat (length (almacen w)))) :: EvCount :: traza w.
Proof.
  intros Hf. unfold recuperar_rutinas_similares, mbind, M_bind, Chroma.count.
  rewrite Hf. unfold Chroma.query. simpl. rewrite Hf.
  destruct (_ || _); [done|]. unfold elevar. by destruct (mapM _ _).
Qed.



(** C7. With the store reachable and no document in it, retrieval fails
    with the [ValueError] of the empty collection: [obtener_coleccion]
    raises it, so do [recuperar_contexto] and [generar_rutina], and the
    only call made to the store is the count: no query, no completion. *)
Theorem coleccion_vacia_falla
    (w : Mundo) (objetivo : option string) (evitar incluir : option (list string))
    (intensidad : option string) (n : Z)
    (pedido fecha : string) (hist : list mensaje_chat) :
  fallo_chroma w = None ->
  almacen w = [] ->
  obtener_coleccion w
  = (Lanza (ValueError ("La colección de ChromaDB está vacía. "
                        +:+ "Ejecutá ingest.py primero para cargar las rutinas.")),
     registrar EvCount w)
  /\ recuperar_contexto objetivo evitar incluir intensidad n w
     = (Lanza (ValueError ("La colección de ChromaDB está vacía. "
                           +:+ "Ejecutá ingest.py primero para cargar las rutinas.")),
        registrar EvCount w)
  /\ generar_rutina pedido fecha hist n w
     = (Lanza (ValueError ("La colección de ChromaDB está vacía. "
                           +:+ "Ejecutá ingest.py primero para cargar las rutinas.")),
        registrar EvCount w)
  /\ traza (registrar EvCount w) = EvCount :: traza w.
Proof.
  intros Hf Hv.
  assert (obtener_coleccion w
          = (Lanza (ValueError ("La colección de ChromaDB está vacía. "
                                +:+ "Ejecutá ingest.py primero para cargar las rutinas.")),
             registrar EvCount w)) as Ho.
  { unfold obtener_coleccion, mbind, M_bind, Chroma.conectar, Chroma.count.
    rewrite Hf. cbn [fallo_chroma registrar]. rewrite Hf, Hv. reflexivity. }
  split; [exact Ho|].
  assert (recuperar_contexto objetivo evitar incluir intensidad n w
          = (Lanza (ValueError ("La colección de ChromaDB está vacía. "
                                +:+ "Ejecutá ingest.py primero para cargar las rutinas.")),
             registrar EvCount w)) as Hr.
  { unfold recuperar_contexto, mbind, M_bind. by rewrite Ho. }
  split; [exact Hr|].
  split; [|done].
  unfold generar_rutina, mbind, M_bind.
  unfold recuperar_contexto, mbind, M_bind. by rewrite Ho.
Qed.

End PropiedadesRetriever.

(** Ten candidates asked of a collection of two documents: the two come
    back, the nearest first. *)
Example ej_consulta :
  (fun rutinas : list rutina_recuperada => rr_semana_id <$> rutinas) <$>
    (recuperar_rutinas_similares (H:=runtime_latin1) "rutina de crossfit semanal" 10 None
       Ejemplo.mundo).1
  = Ok [JStr "semana_2025_W06"; JStr "semana_2025_W05"]
  /\ (recuperar_rutinas_similares (H:=runtime_latin1) "rutina de crossfit semanal" 1 None
        Ejemplo.mundo).1
     = Ok [ {| rr_semana_id := JStr "semana_2025_W06"; rr_similitud := 750 # 1000;
               rr_documento := doc_texto Ejemplo.documento_w06;
               rr_metadata := doc_metadata Ejemplo.documento_w06 |} ].
Proof. vm_compute. split; reflexivity. Qed.



Lemma coleccion_vacia_falla_witness :
  fallo_chroma Ejemplo.mundo_vacio = None
  /\ almacen Ejemplo.mundo_vacio = []
  /\ (generar_rutina (H:=runtime_latin1) Ejemplo.pedido "2026-11-09" [] 3
        Ejemplo.mundo_vacio).1
     = Lanza (ValueError ("La colección de ChromaDB está vacía. "
                          +:+ "Ejecutá ingest.py primero para cargar las rutinas."))
  /\ traza (generar_rutina (H:=runtime_latin1) Ejemplo.pedido "2026-11-09" [] 3
              Ejemplo.mundo_vacio).2 = [EvCount].
Proof.
  assert (H1 : fallo_chroma Ejemplo.mundo_vacio = None) by reflexivity.
  assert (H2 : almacen Ejemplo.mundo_vacio = []) by reflexivity.
  split; [exact H1|]. split; [exact H2|].
  destruct (coleccion_vacia_falla (H:=runtime_latin1) Ejemplo.mundo_vacio
              None None None None 3 Ejemplo.pedido "2026-11-09" [] H1 H2)
    as (_ & _ & Hg & Ht).
  rewrite Hg. split; [reflexivity | exact Ht].
Defined.

(** ** Routine codec: the flat metadata *)

Section PropiedadesMetadata.
Context `{Runtime}.

Lemma conjunto_eq (s c : Py.conjunto) :
  Py.cadenas s = Py.cadenas c -> Py.otros s = Py.otros c -> s = c.
Proof. destruct s, c; simpl; by intros -> ->. Qed.

Lemma unir_conjunto_assoc (a b c : Py.conjunto) :
  unir_conjunto (unir_conjunto a b) c = unir_conjunto a (unir_conjunto b c).
Proof.
  apply conjunto_eq; cbn [unir_conjunto Py.cadenas Py.otros];
    [set_solver | by rewrite orb_assoc].
Qed.

Lemma unir_conjunto_swap (a b c : Py.conjunto) :
  unir_conjunto (unir_conjunto a b) c = unir_conjunto (unir_conjunto a c) b.
Proof.
  apply conjunto_eq; cbn [unir_conjunto Py.cadenas Py.otros];
    [set_solver | by destruct (Py.otros a), (Py.otros b), (Py.otros c)].
Qed.

Lemma unir_conjunto_vacio (a : Py.conjunto) : unir_conjunto a Py.set_vacio = a.
Proof.
  apply conjunto_eq; cbn [unir_conjunto Py.set_vacio Py.cadenas Py.otros];
    [set_solver | by rewrite orb_false_r].
Qed.

Lemma set_add_unir (s : Py.conjunto) (x : json) :
  Py.set_add s x = unir_conjunto s <$> Py.set_add Py.set_vacio x.
Proof.
  destruct x; cbn [Py.set_add fmap resultado_fmap];
    lazymatch goal with
    | |- Lanza _ = Lanza _ => reflexivity
    | |- Ok _ = Ok _ =>
        f_equal; apply conjunto_eq;
        cbn [unir_conjunto Py.set_vacio Py.cadenas Py.otros];
        [set_solver | by rewrite ?orb_true_r, ?orb_false_r]
    end.
Qed.

Lemma set_add_todos_unir (s : Py.conjunto) (l : list json) :
  Py.set_add_todos s l = unir_conjunto s <$> Py.set_add_todos Py.set_vacio l.
Proof.
  revert s. induction l as [|x l IH]; intros s; simpl.
  - by rewrite unir_conjunto_vacio.
  - rewrite (set_add_unir s x).
    destruct (Py.set_add Py.set_vacio x) as [c|e]; simpl; [|done].
    rewrite (IH (unir_conjunto s c)), (IH c).
    destruct (Py.set_add_todos Py.set_vacio l) as [t|e]; simpl; [|done].
    by rewrite unir_conjunto_assoc.
Qed.

Lemma set_update_unir (s : Py.conjunto) (v : json) :
  Py.set_update s v = unir_conjunto s <$> Py.set_update Py.set_vacio v.
Proof.
  unfold Py.set_update. destruct (Py.iter v) as [l|e]; simpl; [|done].
  apply set_add_todos_unir.
Qed.

(** A day adds to the three sets what it would add to empty ones. *)
Lemma acumular_dia_unir (a : acumulado) (dia : json) :
  acumular_dia a dia = unir_acumulado a <$> acumular_dia acumulado_vacio dia.
Proof.
  unfold acumular_dia.
  destruct (Py.item dia "metadata") as [meta|e]; simpl; [|done].
  destruct (Py.get_o meta "movimientos_olimpicos" (JArr [])) as [mo|e]; simpl; [|done].
  rewrite (set_update_unir (todos_olimpicos a)).
  destruct (Py.set_update Py.set_vacio mo) as [o|e]; simpl; [|done].
  destruct (Py.get_o meta "grupos_musculares" (JArr [])) as [gm|e]; simpl; [|done].
  rewrite (set_update_unir (todos_grupos a)).
  destruct (Py.set_update Py.set_vacio gm) as [g|e]; simpl; [|done].
  destruct (Py.get meta "patron_movimiento_fuerza") as [pm|e]; simpl; [|done].
  destruct (Py.truthy pm); simpl.
  - destruct (Py.item meta "patron_movimiento_fuerza") as [x|e]; simpl; [|done].
    rewrite (set_add_unir (todos_patrones a)).
    by destruct (Py.set_add Py.set_vacio x) as [p|e].
  - unfold unir_acumulado. simpl. by rewrite unir_conjunto_vacio.
Qed.

Lemma unir_acumulado_swap (a b c : acumulado) :
  unir_acumulado (unir_acumulado a b) c = unir_acumulado (unir_acumulado a c) b.
Proof.
  unfold unir_acumulado; cbn [todos_olimpicos todos_patrones todos_grupos].
  f_equal; apply unir_conjunto_swap.
Qed.

(** The order of the days does not matter to the sets. *)
Lemma acumular_dias_permutacion (a r : acumulado) (dias dias' : list json) :
  dias ≡ₚ dias' ->
  acumular_dias a dias = Ok r -> acumular_dias a dias' = Ok r.
Proof.
  intros Hp. revert a r.
  induction Hp as [|x l l' _ IH|x y l|l l' l'' _ IH1 _ IH2]; intros a r; simpl.
  - done.
  - destruct (acumular_dia a x) as [a'|e]; simpl; [apply IH|done].
  - rewrite (acumular_dia_unir a y), (acumular_dia_unir a x).
    destruct (acumular_dia acumulado_vacio y) as [cy|ey] eqn:Ey;
      destruct (acumular_dia acumulado_vacio x) as [cx|ex] eqn:Ex;
      cbn [mbind resultado_bind fmap resultado_fmap]; try done.
    + rewrite (acumular_dia_unir (unir_acumulado a cy) x),
        (acumular_dia_unir (unir_acumulado a cx) y), Ex, Ey.
      cbn [mbind resultado_bind fmap resultado_fmap].
      by rewrite (unir_acumulado_swap a cx cy).
    + rewrite (acumular_dia_unir (unir_acumulado a cy) x), Ex. done.
  - intros Hr. by apply IH2, IH1.
Qed.

Lemma set_add_cadenas (s s' : Py.conjunto) (x : json) :
  Py.set_add s x = Ok s' ->
  forall t, t ∈ Py.cadenas s' <-> t ∈ Py.cadenas s \/ x = JStr t.
Proof.
  destruct x; cbn [Py.set_add]; try discriminate; intros [= <-] t;
    cbn [Py.cadenas];
    try (split; [by left | intros [?|?]; [done | discriminate]]).
  rewrite elem_of_union, elem_of_singleton.
  split; [intros [->|?]; auto | intros [?|[= ->]]; auto].
Qed.

Lemma set_add_todos_cadenas (s s' : Py.conjunto) (l : list json) :
  Py.set_add_todos s l = Ok s' ->
  forall t, t ∈ Py.cadenas s' <-> t ∈ Py.cadenas s \/ JStr t ∈ l.
Proof.
  revert s. induction l as [|x l IH]; intros s; cbn [Py.set_add_todos].
  - intros [= <-] t. rewrite elem_of_nil. tauto.
  - destruct (Py.set_add s x) as [s1|e] eqn:Ex; cbn [mbind resultado_bind];
      [|discriminate].
    intros Hl t.
    rewrite (IH _ Hl t), (set_add_cadenas _ _ _ Ex t), elem_of_cons.
    split; [intros [[?| ->]|?]; auto | intros [?|[ <- |?]]; auto].
Qed.

Lemma set_update_cadenas (s s' : Py.conjunto) (v : json) :
  Py.set_update s v = Ok s' ->
  forall t, t ∈ Py.cadenas s' <->
            t ∈ Py.cadenas s \/ exists l, Py.iter v = Ok l /\ JStr t ∈ l.
Proof.
  unfold Py.set_update. destruct (Py.iter v) as [l|e]; cbn [mbind resultado_bind];
    [|discriminate].
  intros Hl t. rewrite (set_add_todos_cadenas _ _ _ Hl t).
  split; [intros [?|?]; eauto | intros [?|(l' & [= <-] & ?)]; auto].
Qed.

Lemma get_truthy_item (meta pm : json) (k : string) :
  Py.get meta k = Ok pm -> Py.truthy pm = true -> Py.item meta k = Ok pm.
Proof.
  unfold Py.get, Py.get_o, Py.item. destruct meta; try discriminate.
  destruct (Py.buscar_clave k campos); cbn [default from_option id];
    intros [= <-]; [done|discriminate].
Qed.

Lemma truthy_cadena (t : string) : Py.truthy (JStr t) = true <-> t <> "".
Proof.
  cbn [Py.truthy]. destruct (String.eqb_spec t ""); cbn [negb]; split; done.
Qed.

Lemma acumular_dia_cadenas (a a' : acumulado) (dia : json) :
  acumular_dia a dia = Ok a' ->
  (forall t, t ∈ Py.cadenas (todos_olimpicos a') <->
             t ∈ Py.cadenas (todos_olimpicos a)
             \/ lista_en_dia "movimientos_olimpicos" dia t)
  /\ (forall t, t ∈ Py.cadenas (todos_patrones a') <->
                t ∈ Py.cadenas (todos_patrones a) \/ patron_en_dia dia t)
  /\ (forall t, t ∈ Py.cadenas (todos_grupos a') <->
                t ∈ Py.cadenas (todos_grupos a)
                \/ lista_en_dia "grupos_musculares" dia t).
Proof.
  unfold acumular_dia, lista_en_dia, patron_en_dia.
  destruct (Py.item dia "metadata") as [meta|e] eqn:Emeta; cbn [mbind resultado_bind];
    [|discriminate].
  destruct (Py.get_o meta "movimientos_olimpicos" (JArr [])) as [mo|e] eqn:Emo;
    cbn [mbind resultado_bind]; [|discriminate].
  destruct (Py.set_update (todos_olimpicos a) mo) as [o|e] eqn:Eo;
    cbn [mbind resultado_bind]; [|discriminate].
  destruct (Py.get_o meta "grupos_musculares" (JArr [])) as [gm|e] eqn:Egm;
    cbn [mbind resultado_bind]; [|discriminate].
  destruct (Py.set_update (todos_grupos a) gm) as [g|e] eqn:Eg;
    cbn [mbind resultado_bind]; [|discriminate].
  destruct (Py.get meta "patron_movimiento_fuerza") as [pm|e] eqn:Epm;
    cbn [mbind resultado_bind]; [|discriminate].
  intros Hp.
  assert (exists p, a' = {| todos_olimpicos := o; todos_patrones := p; todos_grupos := g |}
                    /\ forall t, t ∈ Py.cadenas p <->
                                 t ∈ Py.cadenas (todos_patrones a)
                                 \/ (pm = JStr t /\ t <> "")) as (p & -> & Hpat).
  { destruct (Py.truthy pm) eqn:Et; cbn [mbind resultado_bind mret resultado_ret] in Hp.
    - rewrite (get_truthy_item _ _ _ Epm Et) in Hp. cbn [mbind resultado_bind] in Hp.
      destruct (Py.set_add (todos_patrones a) pm) as [p|e] eqn:Ea;
        cbn [mbind resultado_bind mret resultado_ret] in Hp; [|discriminate].
      injection Hp as <-. exists p. split; [done|]. intros t.
      rewrite (set_add_cadenas _ _ _ Ea t).
      split; [intros [?| ->]; [by left | right] | intros [?|[ -> _]]; auto].
      split; [done|]. by apply truthy_cadena.
    - injection Hp as <-. exists (todos_patrones a). split; [done|]. intros t.
      split; [by left | intros [?|[-> Hne]]; [done|]].
      apply truthy_cadena in Hne. congruence. }
  cbn [todos_olimpicos todos_patrones todos_grupos]. split; [|split].
  - intros t. rewrite (set_update_cadenas _ _ _ Eo t).
    split; (intros [?|Hx]; [by left | right]).
    + destruct Hx as (l & Hl & Hin). by exists meta, mo, l.
    + destruct Hx as (meta' & v & l & [= <-] & Hv & Hl & Hin).
      rewrite Hv in *. simplify_eq. eauto.
  - intros t. rewrite (Hpat t).
    split; (intros [?|Hx]; [by left | right]).
    + destruct Hx as [-> Hne]. by exists meta.
    + destruct Hx as (meta' & [= <-] & Hv & Hne). rewrite Hv in Epm.
      by injection Epm as <-.
  - intros t. rewrite (set_update_cadenas _ _ _ Eg t).
    split; (intros [?|Hx]; [by left | right]).
    + destruct Hx as (l & Hl & Hin). by exists meta, gm, l.
    + destruct Hx as (meta' & v & l & [= <-] & Hv & Hl & Hin).
      rewrite Hv in *. simplify_eq. eauto.
Qed.

Lemma acumular_dias_cadenas (a r : acumulado) (dias : list json) :
  acumular_dias a dias = Ok r ->
  (forall t, t ∈ Py.cadenas (todos_olimpicos r) <->
             t ∈ Py.cadenas (todos_olimpicos a)
             \/ exists dia, dia ∈ dias /\ lista_en_dia "movimientos_olimpicos" dia t)
  /\ (forall t, t ∈ Py.cadenas (todos_patrones r) <->
                t ∈ Py.cadenas (todos_patrones a)
                \/ exists dia, dia ∈ dias /\ patron_en_dia dia t)
  /\ (forall t, t ∈ Py.cadenas (todos_grupos r) <->
                t ∈ Py.cadenas (todos_grupos a)
                \/ exists dia, dia ∈ dias /\ lista_en_dia "grupos_musculares" dia t).
Proof.
  revert a. induction dias as [|dia dias IH]; intros a; simpl.
  - intros [= <-]. repeat split; auto; intros [?|(d & Hd & _)]; auto;
      by apply elem_of_nil in Hd.
  - destruct (acumular_dia a dia) as [a1|e] eqn:Ed; simpl; [|discriminate].
    intros Hr. destruct (IH _ Hr) as (Ho & Hp & Hg).
    destruct (acumular_dia_cadenas _ _ _ Ed) as (Ho1 & Hp1 & Hg1).
    split; [|split]; intros t;
      [rewrite (Ho t), (Ho1 t) | rewrite (Hp t), (Hp1 t) | rewrite (Hg t), (Hg1 t)];
      (split;
       [ intros [[?|?]|(d & Hd & ?)];
         [ by left | right; exists dia; split; [apply list_elem_of_here | done]
         | right; exists d; split; [by apply list_elem_of_further | done] ]
       | intros [?|(d & Hd & ?)]; [by left; left|];
         apply elem_of_cons in Hd as [->|Hd]; [by left; right | right; eauto] ]).
Qed.

Lemma sorted_ordenada (s : gset string) :
  ordenada_sin_repetir (Py.sorted s) /\ forall t, t ∈ Py.sorted s <-> t ∈ s.
Proof.
  unfold Py.sorted. split; [split|].
  - apply StronglySorted_merge_sort; apply _.
  - rewrite merge_sort_Permutation. apply NoDup_elements.
  - intros t. rewrite merge_sort_Permutation. apply elem_of_elements.
Qed.

Lemma ordenada_unica (l l' : list string) :
  ordenada_sin_repetir l -> ordenada_sin_repetir l' ->
  (forall t, t ∈ l <-> t ∈ l') -> l = l'.
Proof.
  intros [Hs Hn] [Hs' Hn'] Heq.
  apply (StronglySorted_unique String.le); [exact Hs | exact Hs' |].
  by apply NoDup_Permutation.
Qed.

Lemma join_sorted_ok (s : Py.conjunto) (t : string) :
  Py.join_sorted s = Ok t -> t = Str.join ", " (Py.sorted (Py.cadenas s)).
Proof. unfold Py.join_sorted. destruct (Py.otros s); [discriminate|]. by intros [= <-]. Qed.

End PropiedadesMetadata.

Section TeoremaMetadata.
Context `{Runtime}.

(** What [extraer_metadata_para_chroma] returns, when it returns. *)
Lemma extraer_metadata_forma (semana meta : json) :
  extraer_metadata_para_chroma semana = Ok meta ->
  exists v dias a semana_id fecha,
    Py.item semana "dias" = Ok v
    /\ Py.iter v = Ok dias
    /\ acumular_dias acumulado_vacio dias = Ok a
    /\ Py.item semana "semana_id" = Ok semana_id
    /\ Py.item semana "fecha_inicio" = Ok fecha
    /\ Py.otros (todos_olimpicos a) = false
    /\ Py.otros (todos_patrones a) = false
    /\ Py.otros (todos_grupos a) = false
    /\ meta = metadata_plana semana_id fecha
                (Py.sorted (Py.cadenas (todos_olimpicos a)))
                (Py.sorted (Py.cadenas (todos_patrones a)))
                (Py.sorted (Py.cadenas (todos_grupos a)))
                (length dias).
Proof.
  unfold extraer_metadata_para_chroma, Py.len.
  destruct (Py.item semana "dias") as [v|e] eqn:Hv; paso_res; [|discriminate].
  destruct (Py.iter v) as [dias|e] eqn:Hd; paso_res; [|discriminate].
  destruct (acumular_dias acumulado_vacio dias) as [a|e] eqn:Ha; paso_res; [|discriminate].
  destruct (Py.item semana "semana_id") as [sid|e] eqn:Hs; paso_res; [|discriminate].
  destruct (Py.item semana "fecha_inicio") as [fi|e] eqn:Hf; paso_res; [|discriminate].
  unfold Py.join_sorted.
  destruct (Py.otros (todos_olimpicos a)) eqn:Ho; paso_res; [discriminate|].
  destruct (Py.otros (todos_patrones a)) eqn:Hp; paso_res; [discriminate|].
  destruct (Py.otros (todos_grupos a)) eqn:Hg; paso_res; [discriminate|].
  intros [= <-]. exists v, dias, a, sid, fi. by repeat split.
Qed.

Lemma extraer_metadata_de_forma (semana v : json) (dias : list json) (a : acumulado)
    (semana_id fecha : json) :
  Py.item semana "dias" = Ok v ->
  Py.iter v = Ok dias ->
  acumular_dias acumulado_vacio dias = Ok a ->
  Py.item semana "semana_id" = Ok semana_id ->
  Py.item semana "fecha_inicio" = Ok fecha ->
  Py.otros (todos_olimpicos a) = false ->
  Py.otros (todos_patrones a) = false ->
  Py.otros (todos_grupos a) = false ->
  extraer_metadata_para_chroma semana
  = Ok (metadata_plana semana_id fecha
          (Py.sorted (Py.cadenas (todos_olimpicos a)))
          (Py.sorted (Py.cadenas (todos_patrones a)))
          (Py.sorted (Py.cadenas (todos_grupos a)))
          (length dias)).
Proof.
  intros Hv Hd Ha Hs Hf Ho Hp Hg.
  unfold extraer_metadata_para_chroma, Py.len, Py.join_sorted.
  rewrite Hv. paso_res. rewrite Hd. paso_res. rewrite Ha. paso_res.
  rewrite Hs. paso_res. rewrite Hf. paso_res. rewrite Ho, Hp, Hg. reflexivity.
Qed.

Lemma union_en_vacio (a : acumulado) (dias : list json) :
  acumular_dias acumulado_vacio dias = Ok a ->
  es_union (Py.sorted (Py.cadenas (todos_olimpicos a))) dias
    (lista_en_dia "movimientos_olimpicos")
  /\ es_union (Py.sorted (Py.cadenas (todos_patrones a))) dias patron_en_dia
  /\ es_union (Py.sorted (Py.cadenas (todos_grupos a))) dias
       (lista_en_dia "grupos_musculares").
Proof.
  intros (Ho & Hp & Hg)%acumular_dias_cadenas.
  unfold es_union.
  split; [|split]; intros t; rewrite (proj2 (sorted_ordenada _) t);
    [rewrite (Ho t) | rewrite (Hp t) | rewrite (Hg t)];
    (split; [intros [Hx|?]; [by apply elem_of_empty in Hx | done] | by right]).
Qed.

(** C8. The three joined fields of the flat metadata are the
    comma-space-joined, lexicographically sorted, duplicate-free unions of
    what the days list (olympic movements, strength patterns, muscle
    groups). The record does not depend on the order of the days, nor on
    which day lists which string: two weeks with the same identifier, start
    date and number of days whose days give the same three unions have the
    same record. *)
Theorem metadata_union_ordenada (semana meta : json) :
  extraer_metadata_para_chroma semana = Ok meta ->
  exists v dias semana_id fecha olimpicos patrones grupos,
    Py.item semana "dias" = Ok v
    /\ Py.iter v = Ok dias
    /\ Py.item semana "semana_id" = Ok semana_id
    /\ Py.item semana "fecha_inicio" = Ok fecha
    /\ meta = metadata_plana semana_id fecha olimpicos patrones grupos (length dias)
    /\ ordenada_sin_repetir olimpicos
    /\ es_union olimpicos dias (lista_en_dia "movimientos_olimpicos")
    /\ ordenada_sin_repetir patrones
    /\ es_union patrones dias patron_en_dia
    /\ ordenada_sin_repetir grupos
    /\ es_union grupos dias (lista_en_dia "grupos_musculares")
    /\ (forall semana' dias',
          Py.item semana' "dias" = Ok (JArr dias') ->
          dias' ≡ₚ dias ->
          Py.item semana' "semana_id" = Ok semana_id ->
          Py.item semana' "fecha_inicio" = Ok fecha ->
          extraer_metadata_para_chroma semana' = Ok meta)
    /\ (forall semana' v' dias' meta',
          extraer_metadata_para_chroma semana' = Ok meta' ->
          Py.item semana' "dias" = Ok v' ->
          Py.iter v' = Ok dias' ->
          Py.item semana' "semana_id" = Ok semana_id ->
          Py.item semana' "fecha_inicio" = Ok fecha ->
          length dias' = length dias ->
          misma_union dias dias' (lista_en_dia "movimientos_olimpicos") ->
          misma_union dias dias' patron_en_dia ->
          misma_union dias dias' (lista_en_dia "grupos_musculares") ->
          meta' = meta).
Proof.
  intros (v & dias & a & sid & fi & Hv & Hd & Ha & Hs & Hf & Ho & Hp & Hg & ->)
    %extraer_metadata_forma.
  destruct (union_en_vacio _ _ Ha) as (Uo & Up & Ug).
  exists v, dias, sid, fi, (Py.sorted (Py.cadenas (todos_olimpicos a))),
    (Py.sorted (Py.cadenas (todos_patrones a))),
    (Py.sorted (Py.cadenas (todos_grupos a))).
  repeat (split; [first [done | apply sorted_ordenada] |]).
  split.
  - intros semana' dias' Hv' Hperm Hs' Hf'.
    rewrite (extraer_metadata_de_forma semana' (JArr dias') dias' a sid fi); try done.
    + by rewrite (Permutation_length Hperm).
    + eapply acumular_dias_permutacion; [symmetry; exact Hperm | exact Ha].
  - intros semana' v' dias' meta' Hm' Hv' Hd' Hs' Hf' Hlen Mo Mp Mg.
    apply extraer_metadata_forma in Hm'
      as (v2 & dias2 & a2 & sid2 & fi2 & Hv2 & Hd2 & Ha2 & Hs2 & Hf2 & _ & _ & _ & ->).
    rewrite Hv' in Hv2. injection Hv2 as <-.
    rewrite Hd' in Hd2. injection Hd2 as <-.
    rewrite Hs' in Hs2. injection Hs2 as <-.
    rewrite Hf' in Hf2. injection Hf2 as <-.
    destruct (union_en_vacio _ _ Ha2) as (Uo2 & Up2 & Ug2).
    rewrite Hlen. unfold metadata_plana.
    rewrite (ordenada_unica (Py.sorted (Py.cadenas (todos_olimpicos a2)))
               (Py.sorted (Py.cadenas (todos_olimpicos a))));
      [| apply sorted_ordenada | apply sorted_ordenada
       | intros t; rewrite (Uo2 t), (Uo t); symmetry; apply Mo].
    rewrite (ordenada_unica (Py.sorted (Py.cadenas (todos_patrones a2)))
               (Py.sorted (Py.cadenas (todos_patrones a))));
      [| apply sorted_ordenada | apply sorted_ordenada
       | intros t; rewrite (Up2 t), (Up t); symmetry; apply Mp].
    rewrite (ordenada_unica (Py.sorted (Py.cadenas (todos_grupos a2)))
               (Py.sorted (Py.cadenas (todos_grupos a))));
      [| apply sorted_ordenada | apply sorted_ordenada
       | intros t; rewrite (Ug2 t), (Ug t); symmetry; apply Mg].
    reflexivity.
Qed.

End TeoremaMetadata.

(** Snatch and clean on two days, in either order: "clean, snatch". *)
Example ej_metadata :
  extraer_metadata_para_chroma (H:=runtime_latin1) Ejemplo.semana_snatch_clean
  = Ok (metadata_plana (JStr "semana_2025_W06") (JStr "2025-02-03")
          ["clean"; "snatch"] ["sentadilla"] ["core"; "piernas"] 2)
  /\ extraer_metadata_para_chroma (H:=runtime_latin1) Ejemplo.semana_clean_snatch
     = extraer_metadata_para_chroma (H:=runtime_latin1) Ejemplo.semana_snatch_clean
  /\ Py.item (metadata_plana (JStr "semana_2025_W06") (JStr "2025-02-03")
                ["clean"; "snatch"] ["sentadilla"] ["core"; "piernas"] 2)
       "movimientos_olimpicos"
     = Ok (JStr "clean, snatch").
Proof. vm_compute. repeat split. Qed.

Lemma metadata_union_ordenada_witness :
  extraer_metadata_para_chroma (H:=runtime_latin1) Ejemplo.semana_snatch_clean
  = Ok (metadata_plana (JStr "semana_2025_W06") (JStr "2025-02-03")
          ["clean"; "snatch"] ["sentadilla"] ["core"; "piernas"] 2)
  /\ extraer_metadata_para_chroma (H:=runtime_latin1)
       (Ejemplo.semana_con [Ejemplo.dia_con "Martes" "clean"; Ejemplo.dia_con "Lunes" "snatch"])
     = Ok (metadata_plana (JStr "semana_2025_W06") (JStr "2025-02-03")
             ["clean"; "snatch"] ["sentadilla"] ["core"; "piernas"] 2).
Proof.
  assert (He : extraer_metadata_para_chroma (H:=runtime_latin1) Ejemplo.semana_snatch_clean
               = Ok (metadata_plana (JStr "semana_2025_W06") (JStr "2025-02-03")
                       ["clean"; "snatch"] ["sentadilla"] ["core"; "piernas"] 2))
    by (vm_compute; reflexivity).
  split; [exact He|].
  destruct (metadata_union_ordenada (H:=runtime_latin1) _ _ He)
    as (v & dias & sid & fi & ol & pa & gr & Hv & Hd & Hsid & Hfi & _ & _ & _ & _ & _ & _ & _
        & Hperm & _).
  change (Ok (JArr [Ejemplo.dia_con "Lunes" "snatch"; Ejemplo.dia_con "Martes" "clean"])
          = Ok v) in Hv.
  injection Hv as <-.
  change (Ok [Ejemplo.dia_con "Lunes" "snatch"; Ejemplo.dia_con "Martes" "clean"]
          = Ok dias) in Hd.
  injection Hd as <-.
  apply (Hperm _ [Ejemplo.dia_con "Martes" "clean"; Ejemplo.dia_con "Lunes" "snatch"]);
    [reflexivity | apply Permutation_swap | exact Hsid | exact Hfi].
Defined.

(** ** Routine codec: the enriched text *)

Section PropiedadesTexto.
Context `{Runtime}.

Lemma get_o_falta (v d : json) (k : string) :
  falta_clave v k -> Py.get_o v k d = Ok d.
Proof. intros (c & -> & Hk). unfold Py.get_o. by rewrite Hk. Qed.

Lemma encabezado_forma (dia : json) (encabezado : string) :
  encabezado_dia dia = Ok encabezado ->
  exists nombre tipo,
    Py.item dia "dia" = Ok (JStr nombre)
    /\ encabezado = nl +:+ str_upper nombre +:+ " - " +:+ tipo
    /\ (sin_valor dia "tipo_bloque_principal" -> tipo = "N/A").
Proof.
  unfold encabezado_dia, sin_valor. intros He.
  caso_res He as n eqn:En.
  caso_res He as mayusculas eqn:Eu.
  caso_res He as t eqn:Et.
  injection He as <-.
  destruct n; try discriminate Eu. injection Eu as <-.
  eexists _, _. split; [done|]. split; [done|].
  intros [= ->]. reflexivity.
Qed.

Lemma bloque_rondas_forma (clave etiqueta : string) (dia : json) (partes : list string) :
  partes_bloque_rondas clave etiqueta dia = Ok partes ->
  bloque_rondas_serializado dia clave etiqueta partes.
Proof.
  unfold partes_bloque_rondas. intros Hp.
  caso_res Hp as bloque eqn:Eb.
  split.
  - intros [Hs | (b & Hb & Hej)].
    + unfold sin_valor in Hs. rewrite Eb in Hs. injection Hs as ->.
      cbn [Py.truthy] in Hp. by injection Hp as <-.
    + rewrite Eb in Hb. injection Hb as <-.
      destruct (Py.truthy bloque); [|by injection Hp as <-].
      unfold sin_valor in Hej.
      destruct Hej as [Hej | Hej]; rewrite Hej in Hp; paso_res in Hp;
        cbn [Py.truthy] in Hp; by injection Hp as <-.
  - intros b ejercicios Hb Ht Hej Hte. rewrite Eb in Hb. injection Hb as <-.
    rewrite Ht, Hej in Hp. paso_res in Hp.
    rewrite Hte in Hp.
    caso_res Hp as ejs eqn:Ei.
    caso_res Hp as l eqn:El.
    caso_res Hp as textos eqn:Em.
    caso_res Hp as rondas eqn:Er.
    injection Hp as <-.
    assert (ejs = ejercicios) as ->.
    { unfold Py.get, Py.get_o in Hej. unfold Py.item in Ei.
      destruct bloque as [| | | | | |c]; try discriminate Ei.
      destruct (Py.buscar_clave "ejercicios" c); [|discriminate Ei].
      cbn [default from_option id] in Hej. congruence. }
    exists (Py.str rondas), l, textos. split; [done|]. split; [|done].
    intros Hf. rewrite (get_o_falta _ _ _ Hf) in Er. by injection Er as <-.
Qed.

Lemma bloque_principal_forma (dia : json) (partes : list string) :
  partes_bloque_principal dia = Ok partes ->
  bloque_principal_serializado dia partes.
Proof.
  unfold partes_bloque_principal. intros Hp.
  caso_res Hp as b eqn:Eb.
  split.
  - intros Hs. unfold sin_valor in Hs. rewrite Eb in Hs. injection Hs as ->.
    cbn [Py.truthy] in Hp. by injection Hp as <-.
  - intros bp Hb Ht. rewrite Eb in Hb. injection Hb as <-. rewrite Ht in Hp.
    caso_res Hp as sets eqn:Es.
    caso_res Hp as ambos eqn:Ea.
    caso_res Hp as sets_reps eqn:Esr.
    caso_res Hp as tipo eqn:Eti.
    caso_res Hp as mov eqn:Em.
    caso_res Hp as vp eqn:Ev.
    assert (exists variante,
               partes = Str.strip (Py.str tipo +:+ ": " +:+ Py.str mov +:+ " " +:+ sets_reps)
                        :: variante
               /\ (Py.truthy vp = false -> variante = [])
               /\ (Py.truthy vp = true -> variante = ["Principiante: " +:+ Py.str vp]))
      as (variante & -> & Hno & Hsi).
    { destruct (Py.truthy vp) eqn:Etv.
      - caso_res Hp as v eqn:Eiv. injection Hp as <-.
        assert (v = vp) as ->.
        { unfold Py.get, Py.get_o in Ev. unfold Py.item in Eiv.
          destruct b as [| | | | | |c]; try discriminate Eiv.
          destruct (Py.buscar_clave "variante_principiante" c); [|discriminate Eiv].
          cbn [default from_option id] in Ev. congruence. }
        eexists. split; [done|]. split; [discriminate|done].
      - injection Hp as <-. eexists. split; [done|]. split; [done|discriminate]. }
    exists (Py.str tipo), (Py.str mov), sets_reps, variante.
    split; [done|].
    split. { intros Hf. rewrite (get_o_falta _ _ _ Hf) in Eti. by injection Eti as <-. }
    split. { intros Hf. rewrite (get_o_falta _ _ _ Hf) in Em. by injection Em as <-. }
    split.
    { unfold sin_valor. intros Hsr.
      assert (Py.truthy ambos = false) as Hta.
      { destruct Hsr as [Hs | Hr].
        - rewrite ?Es in Hs. injection Hs as ->. cbn [Py.truthy] in Ea.
          paso_res in Ea. by injection Ea as <-.
        - destruct (Py.truthy sets) eqn:Ets.
          + rewrite Hr in Ea. by injection Ea as <-.
          + paso_res in Ea. injection Ea as <-. exact Ets. }
      rewrite Hta in Esr. paso_res in Esr. by injection Esr as <-. }
    split.
    { unfold sin_valor. intros Hs. rewrite ?Ev in Hs. injection Hs as ->. by apply Hno. }
    intros v Hv. rewrite ?Ev in Hv. injection Hv as <-. exact Hsi.
Qed.

Lemma wod_forma (dia : json) (partes : list string) :
  partes_wod dia = Ok partes ->
  wod_serializado dia partes.
Proof.
  unfold partes_wod. intros Hp.
  caso_res Hp as w0 eqn:Ew0.
  split.
  - intros Hs. unfold sin_valor in Hs. rewrite Ew0 in Hs. injection Hs as ->.
    cbn [Py.truthy] in Hp. by injection Hp as <-.
  - intros wod Hw Ht. rewrite Ew0 in Hw. injection Hw as <-. rewrite Ht in Hp.
    caso_res Hp as duracion eqn:Ed.
    caso_res Hp as formato eqn:Ef.
    caso_res Hp as ejs eqn:Ee.
    caso_res Hp as l eqn:El.
    caso_res Hp as lineas eqn:Em.
    injection Hp as <-.
    exists formato, duracion, l, lineas.
    split; [done|]. split; [done|].
    split.
    { unfold sin_valor. intros Hd Hr Htc. unfold duracion_wod in Ed.
      rewrite ?Hd, ?Hr, ?Htc in Ed. paso_res in Ed. cbn [Py.truthy] in Ed.
      rewrite ?Hr in Ed. paso_res in Ed. cbn [Py.truthy] in Ed.
      rewrite ?Htc in Ed. paso_res in Ed. cbn [Py.truthy] in Ed.
      by injection Ed as <-. }
    split.
    { intros Hfa. rewrite ?(get_o_falta _ _ _ Hfa) in Ee. injection Ee as <-.
      injection El as <-. by injection Em as <-. }
    split; [|done].
    rewrite ?Ee. paso_res. exact El.
Qed.

Lemma metadata_forma (dia : json) (partes : list string) :
  partes_metadata dia = Ok partes ->
  metadata_serializada dia partes.
Proof.
  unfold partes_metadata. intros Hp.
  caso_res Hp as m0 eqn:Em0.
  split.
  - intros Hs. unfold sin_valor in Hs. rewrite Em0 in Hs. injection Hs as ->.
    cbn [Py.truthy] in Hp. by injection Hp as <-.
  - intros m Hm Ht. rewrite Em0 in Hm. injection Hm as <-. rewrite Ht in Hp.
    caso_res Hp as gm eqn:Eg.
    caso_res Hp as musculos eqn:Ej.
    caso_res Hp as mo eqn:Eo.
    caso_res Hp as olimpicos eqn:Eol.
    caso_res Hp as int eqn:Ei.
    caso_res Hp as pm eqn:Epm.
    caso_res Hp as patron eqn:Epa.
    injection Hp as <-.
    exists musculos, olimpicos, (Py.str int), patron.
    split; [done|]. unfold sin_valor. repeat split.
    + intros Hs. rewrite ?Eo in Hs. injection Hs as ->.
      cbn [Py.truthy] in Eol. by injection Eol as <-.
    + intros Hs. rewrite ?Epm in Hs. injection Hs as ->.
      cbn [Py.truthy] in Epa. by injection Epa as <-.
    + intros Hf. rewrite (get_o_falta _ _ _ Hf) in Ei. by injection Ei as <-.
    + intros Hf. rewrite (get_o_falta _ _ _ Hf) in Eg. injection Eg as <-.
      by injection Ej as <-.
Qed.

Lemma partes_dia_serializado (dia : json) (partes : list string) :
  partes_dia dia = Ok partes -> dia_serializado dia partes.
Proof.
  unfold partes_dia. intros Hp.
  caso_res Hp as enc eqn:Ee.
  caso_res Hp as core eqn:Ec.
  caso_res Hp as bp eqn:Eb.
  caso_res Hp as wod eqn:Ew.
  caso_res Hp as acc eqn:Ea.
  caso_res Hp as meta eqn:Em.
  injection Hp as <-.
  destruct (encabezado_forma _ _ Ee) as (nombre & tipo & Hn & -> & Htipo).
  exists nombre, tipo, core, bp, wod, acc, meta.
  split; [done|]. split; [done|]. split; [done|].
  split. { by apply bloque_rondas_forma. }
  split. { by apply bloque_principal_forma. }
  split. { by apply wod_forma. }
  split. { by apply bloque_rondas_forma. }
  by apply metadata_forma.
Qed.

(** C3, as amended. The enriched text is the header of the week followed,
    day by day, by the header of the day and the parts of the blocks that
    are there, in the order core, primary block, WOD, accessories,
    metadata.  An absent core, primary block, WOD, accessories block or
    metadata gives no part; neither does a core or an accessories block
    whose list of exercises is absent or empty; neither do an absent
    beginner variant, absent olympic movements or an absent pattern; the
    header of a WOD holds nothing for a duration, rounds and time cap that
    are all absent, and a WOD with no key for its exercises has no line of
    exercise.  What is missing inside a line that is written is not left
    out: the header of the day reads N/A for an absent type tag, the line
    of the primary block reads N/A for a missing [tipo] and for a missing
    [movimiento] (and leaves out the sets and repetitions unless both are
    there), the line of a core or accessories block reads a question mark
    for missing rounds, the metadata read N/A for a missing intensity, and
    missing muscle groups leave the label of their line empty. *)
Theorem texto_campos_ausentes (semana : json) (texto : string) :
  json_a_texto_enriquecido semana = Ok texto ->
  exists semana_id fecha v dias por_dia,
    Py.item semana "semana_id" = Ok semana_id
    /\ Py.item semana "fecha_inicio" = Ok fecha
    /\ Py.item semana "dias" = Ok v
    /\ Py.iter v = Ok dias
    /\ texto = Str.join nl (("Semana: " +:+ Py.str semana_id +:+ " | Inicio: "
                             +:+ Py.str fecha) :: concat por_dia)
    /\ Forall2 dia_serializado dias por_dia.
Proof.
  unfold json_a_texto_enriquecido.
  destruct (partes_semana semana) as [partes|e] eqn:Hp; paso_res; [|discriminate].
  intros [= <-]. unfold partes_semana in Hp.
  caso_res Hp as sid eqn:Es.
  caso_res Hp as fi eqn:Ef.
  caso_res Hp as v eqn:Ev.
  caso_res Hp as dias eqn:Ed.
  caso_res Hp as por_dia eqn:Em.
  injection Hp as <-.
  exists sid, fi, v, dias, por_dia.
  repeat (split; [done|]).
  eapply Forall2_impl; [apply mapM_resultado_Forall2, Em|].
  intros dia partes. apply partes_dia_serializado.
Qed.

End PropiedadesTexto.

(** C3, counterexample. A day with no type tag, a primary block with no
    movement and metadata with no estimated intensity: the text holds the
    placeholder N/A for each of the three, so a missing intensity does not
    leave its line out. *)
Lemma texto_con_marcadores :
  partes_semana (H:=runtime_latin1) Ejemplo.semana_sin_campos
  = Ok [ "Semana: semana_2025_W08 | Inicio: 2025-02-17";
         nl +:+ "LUNES - N/A";
         "FUERZA: N/A 5x4";
         "WOD AMRAP 12':";
         "- Burpees 10";
         "Músculos: piernas";
         "Intensidad: N/A" ]
  /\ ~ omite_intensidad_ausente (H:=runtime_latin1).
Proof.
  assert (Hp : partes_semana (H:=runtime_latin1) Ejemplo.semana_sin_campos
               = Ok [ "Semana: semana_2025_W08 | Inicio: 2025-02-17";
                      nl +:+ "LUNES - N/A";
                      "FUERZA: N/A 5x4";
                      "WOD AMRAP 12':";
                      "- Burpees 10";
                      "Músculos: piernas";
                      "Intensidad: N/A" ]) by (vm_compute; reflexivity).
  split; [exact Hp|].
  intros Hc.
  specialize (Hc Ejemplo.semana_sin_campos _ _ _ eq_refl eq_refl
                (ex_intro _ _ (conj eq_refl eq_refl)) Hp "Intensidad: N/A").
  assert ("Intensidad: N/A" ∈ [ "Semana: semana_2025_W08 | Inicio: 2025-02-17";
                                nl +:+ "LUNES - N/A";
                                "FUERZA: N/A 5x4";
                                "WOD AMRAP 12':";
                                "- Burpees 10";
                                "Músculos: piernas";
                                "Intensidad: N/A" ]) as Hin
    by (apply list_elem_of_In; vm_compute; tauto).
  specialize (Hc Hin). vm_compute in Hc. discriminate.
Qed.

Lemma texto_campos_ausentes_witness :
  json_a_texto_enriquecido (H:=runtime_latin1) Ejemplo.semana_sin_campos
  = Ok (Str.join nl [ "Semana: semana_2025_W08 | Inicio: 2025-02-17";
                      nl +:+ "LUNES - N/A";
                      "FUERZA: N/A 5x4";
                      "WOD AMRAP 12':";
                      "- Burpees 10";
                      "Músculos: piernas";
                      "Intensidad: N/A" ])
  /\ exists dia partes,
       Py.item Ejemplo.semana_sin_campos "dias" = Ok (JArr [dia])
       /\ dia_serializado (H:=runtime_latin1) dia partes.
Proof.
  assert (Ht : json_a_texto_enriquecido (H:=runtime_latin1) Ejemplo.semana_sin_campos
               = Ok (Str.join nl [ "Semana: semana_2025_W08 | Inicio: 2025-02-17";
                                   nl +:+ "LUNES - N/A";
                                   "FUERZA: N/A 5x4";
                                   "WOD AMRAP 12':";
                                   "- Burpees 10";
                                   "Músculos: piernas";
                                   "Intensidad: N/A" ])) by (vm_compute; reflexivity).
  split; [exact Ht|].
  destruct (texto_campos_ausentes (H:=runtime_latin1) _ _ Ht)
    as (sid & fi & v & dias & por_dia & _ & _ & Hv & Hd & _ & Hf).
  change (Ok (JArr [Ejemplo.dia_sin_campos]) = Ok v) in Hv. injection Hv as <-.
  change (Ok [Ejemplo.dia_sin_campos] = Ok dias) in Hd. injection Hd as <-.
  apply Forall2_cons_inv_l in Hf as (partes & k & Hdia & _ & _).
  exists Ejemplo.dia_sin_campos, partes. split; [reflexivity | exact Hdia].
Defined.

(** ** Completion parser: the repair of escapes *)








Lemma app_vacia_r (s : string) : s +:+ "" = s.
Proof. induction s as [|c s IH]; [done|]. by rewrite app_cons, IH. Qed.












(** The substitution looks one character ahead and never behind: where
    the model escaped a backslash itself and a letter that is no escape
    follows, the second backslash of the pair is doubled as well, and a
    payload that was valid no longer parses. *)
Example ej_barra_escapada :
  extraer_json Ejemplo.completado_con_barra_escapada
  = Some (Str.con_comillas "{'nota': 'C:\\qa'}")
  /\ Json.loads (Str.con_comillas "{'nota': 'C:\\qa'}")
     = Ok (JObj [("nota", JStr "C:\qa")])
  /\ reparar_escapes (Str.con_comillas "{'nota': 'C:\\qa'}")
     = Str.con_comillas "{'nota': 'C:\\\qa'}"
  /\ parsear_respuesta_llm Ejemplo.completado_con_barra_escapada
     = Lanza JSONDecodeError.
Proof. vm_compute. repeat split. Qed.

(** * Further properties of the code *)

(** ** Persistence of an approved routine *)

Section PropiedadesGuardado.
Context `{Runtime}.

(** The two ways [guardar_en_chromadb] ends. *)
Lemma guardar_en_chromadb_casos (rutina : json) (w : Mundo) :
  (exists w', guardar_en_chromadb rutina w = (Ok false, w')
              /\ almacen w' = almacen w
              /\ fallo_chroma w' = fallo_chroma w
              /\ exists evs, llamadas w w' evs /\ Forall (fun ev => es_consulta ev = false) evs)
  \/ (exists id texto metadata,
        fallo_chroma w = None
        /\ Py.item rutina "semana_id" = Ok (JStr id)
        /\ json_a_texto_enriquecido rutina = Ok texto
        /\ extraer_metadata_para_chroma rutina = Ok metadata
        /\ (String.eqb id "" = false /\ Chroma.metadata_admitida metadata = true)
        /\ guardar_en_chromadb rutina w
           = (Ok true,
              registrar EvCount
                (con_almacen
                   (Chroma.poner {| doc_id := id; doc_texto := texto;
                                    doc_metadata := Chroma.sin_nulos metadata |} (almacen w))
                   (registrar (EvUpsert (JStr id)) w)))).
Proof.
  unfold guardar_en_chromadb, capturar, mbind, M_bind, Chroma.conectar, elevar.
  destruct (fallo_chroma w) as [e|] eqn:Hf.
  { left. exists w. repeat split; try done. exists []. split; [done|constructor]. }
  destruct (Py.item rutina "semana_id") as [doc|e] eqn:Hid.
  2:{ left. exists w. repeat split; try done. exists []. split; [done|constructor]. }
  destruct (json_a_texto_enriquecido rutina) as [texto|e] eqn:Ht.
  2:{ left. exists w. repeat split; try done. exists []. split; [done|constructor]. }
  destruct (extraer_metadata_para_chroma rutina) as [metadata|e] eqn:Hm.
  2:{ left. exists w. repeat split; try done. exists []. split; [done|constructor]. }
  unfold Chroma.upsert. rewrite Hf.
  assert (forall x, (exists w', (Ok false, registrar (EvUpsert x) w) = (Ok false, w')
              /\ almacen w' = almacen w
              /\ fallo_chroma w' = None
              /\ exists evs, llamadas w w' evs /\ Forall (fun ev => es_consulta ev = false) evs))
    as Hfalla.
  { intros x. exists (registrar (EvUpsert x) w). repeat split; try done.
    exists [EvUpsert x]. split; [done|]. by repeat constructor. }
  destruct doc as [| | | |id| |]; try (left; apply Hfalla).
  destruct (String.eqb id "") eqn:Hv; [left; apply Hfalla|].
  destruct (Chroma.metadata_admitida metadata) eqn:Ha; [|left; apply Hfalla].
  right. exists id, texto, metadata. repeat split; try done.
  unfold Chroma.count. cbn [fallo_chroma con_almacen registrar]. by rewrite Hf.
Qed.

Lemma documento_de_poner (d : documento) (docs : list documento) :
  documento_de (doc_id d) (Chroma.poner d docs) = Some d.
Proof.
  unfold documento_de. induction docs as [|d' docs IH]; cbn [Chroma.poner].
  - cbn [List.find]. by rewrite String.eqb_refl.
  - destruct (String.eqb (doc_id d) (doc_id d')) eqn:E; cbn [List.find].
    + by rewrite String.eqb_refl.
    + by rewrite E.
Qed.

Lemma documento_de_poner_otro (otro : string) (d : documento) (docs : list documento) :
  otro <> doc_id d ->
  documento_de otro (Chroma.poner d docs) = documento_de otro docs.
Proof.
  intros Hne. unfold documento_de.
  assert (String.eqb otro (doc_id d) = false) as Hno by by apply String.eqb_neq.
  induction docs as [|d' docs IH]; cbn [Chroma.poner].
  - cbn [List.find]. by rewrite Hno.
  - destruct (String.eqb (doc_id d) (doc_id d')) eqn:E; cbn [List.find].
    + apply String.eqb_eq in E. rewrite <- E. by rewrite Hno.
    + by rewrite IH.
Qed.

Lemma length_poner (d : documento) (docs : list documento) :
  length (Chroma.poner d docs)
  = match documento_de (doc_id d) docs with
    | Some _ => length docs
    | None => S (length docs)
    end.
Proof.
  unfold documento_de. induction docs as [|d' docs IH]; cbn [Chroma.poner List.find]; [done|].
  destruct (String.eqb (doc_id d) (doc_id d')) eqn:E; [done|].
  cbn [length]. rewrite IH. by destruct (List.find _ docs).
Qed.

Lemma poner_poner (d d' : documento) (docs : list documento) :
  doc_id d = doc_id d' ->
  Chroma.poner d' (Chroma.poner d docs) = Chroma.poner d' docs.
Proof.
  intros Hid. induction docs as [|d0 docs IH]; cbn [Chroma.poner].
  - by rewrite Hid, String.eqb_refl.
  - rewrite Hid.
    destruct (String.eqb (doc_id d') (doc_id d0)) eqn:E; cbn [Chroma.poner].
    + by rewrite Hid, String.eqb_refl.
    + by rewrite E, IH.
Qed.

Lemma poner_no_vacio (d : documento) (docs : list documento) :
  (0 < length (Chroma.poner d docs))%nat.
Proof. destruct docs as [|d' docs]; cbn [Chroma.poner]; [simpl; lia|]. destruct (String.eqb _ _); simpl; lia. Qed.

Lemma obtener_coleccion_ok (w : Mundo) :
  fallo_chroma w = None -> (0 < length (almacen w))%nat ->
  obtener_coleccion w = (Ok (), registrar EvCount w).
Proof.
  intros Hf Hl. unfold obtener_coleccion, mbind, M_bind, Chroma.conectar, Chroma.count.
  rewrite Hf. cbn [fallo_chroma registrar]. rewrite Hf.
  assert ((Z.of_nat (length (almacen w)) =? 0) = false) as -> by (apply Z.eqb_neq; lia).
  reflexivity.
Qed.

(** X1. [guardar_en_chromadb] never raises: it answers [True] or
    [False].  When the store cannot be reached, or the routine has no
    [semana_id], or its text or its metadata cannot be built, the answer is
    [False] and the world is as it was: no call was made to the
    collection. *)
Theorem guardar_no_lanza (rutina : json) (w : Mundo) :
  exists (guardado : bool) (w' : Mundo),
    guardar_en_chromadb rutina w = (Ok guardado, w')
    /\ (fallo_chroma w <> None \/ no_serializable rutina -> guardado = false /\ w' = w).
Proof.
  unfold guardar_en_chromadb, capturar, mbind, M_bind, Chroma.conectar, elevar.
  destruct (fallo_chroma w) as [e|] eqn:Hf.
  { by exists false, w. }
  destruct (Py.item rutina "semana_id") as [doc|e] eqn:Hid.
  2:{ by exists false, w. }
  destruct (json_a_texto_enriquecido rutina) as [texto|e] eqn:Ht.
  2:{ by exists false, w. }
  destruct (extraer_metadata_para_chroma rutina) as [metadata|e] eqn:Hm.
  2:{ by exists false, w. }
  assert (~ (None <> (None : option string) \/ no_serializable rutina)) as Hno.
  { intros [Hn | [[e He] | [[e He] | [e He]]]]; [done| | |]; congruence. }
  destruct (Chroma.upsert doc texto metadata w) as [[[]|e] w1].
  - destruct (Chroma.count w1) as [[n|e] w2]; eexists _, _; (split; [reflexivity|]);
      intros Hsi; by destruct Hno.
  - eexists _, _. split; [reflexivity|]. intros Hsi. by destruct Hno.
Qed.

Lemma sin_nulos_metadata_plana (id : string) (fecha : json)
    (olimpicos patrones grupos : list string) (total : nat) :
  Py.item (Chroma.sin_nulos (metadata_plana (JStr id) fecha olimpicos patrones grupos total))
    "semana_id" = Ok (JStr id)
  /\ (fecha = JNull ->
      falta_clave (Chroma.sin_nulos
                     (metadata_plana (JStr id) fecha olimpicos patrones grupos total))
        "fecha_inicio")
  /\ (fecha <> JNull ->
      Py.item (Chroma.sin_nulos
                 (metadata_plana (JStr id) fecha olimpicos patrones grupos total))
        "fecha_inicio" = Ok fecha).
Proof.
  unfold metadata_plana, Chroma.sin_nulos.
  cbn [List.filter snd Chroma.es_nulo negb].
  split; [reflexivity|]. split.
  - intros ->. cbn [Chroma.es_nulo negb]. eexists. split; [reflexivity|reflexivity].
  - intros Hf. destruct fecha; try done; reflexivity.
Qed.

(** X2. A save that succeeds writes one document.  The identifier of the
    routine is a string that is not empty; the store then holds under it
    the enriched text of the routine and its flat metadata without the keys
    that hold [None]: the record keeps [semana_id], and keeps
    [fecha_inicio] unless the routine has [None] there.  The document of
    every other id is the one that was there; the count grows by one when
    the id is new and stays when the id was taken; and the collection can be
    opened for retrieval. *)
Theorem guardado_recuperable (rutina : json) (w w' : Mundo) :
  guardar_en_chromadb rutina w = (Ok true, w') ->
  exists id texto metadata,
    Py.item rutina "semana_id" = Ok (JStr id)
    /\ id <> ""
    /\ json_a_texto_enriquecido rutina = Ok texto
    /\ extraer_metadata_para_chroma rutina = Ok metadata
    /\ documento_de id (almacen w')
       = Some {| doc_id := id; doc_texto := texto;
                 doc_metadata := Chroma.sin_nulos metadata |}
    /\ Py.item (Chroma.sin_nulos metadata) "semana_id" = Ok (JStr id)
    /\ (Py.item rutina "fecha_inicio" = Ok JNull ->
        falta_clave (Chroma.sin_nulos metadata) "fecha_inicio")
    /\ (forall fecha, Py.item rutina "fecha_inicio" = Ok fecha -> fecha <> JNull ->
        Py.item (Chroma.sin_nulos metadata) "fecha_inicio" = Ok fecha)
    /\ (forall otro, otro <> id ->
        documento_de otro (almacen w') = documento_de otro (almacen w))
    /\ length (almacen w')
       = match documento_de id (almacen w) with
         | Some _ => length (almacen w)
         | None => S (length (almacen w))
         end
    /\ (obtener_coleccion w').1 = Ok ().
Proof.
  intros Hg.
  destruct (guardar_en_chromadb_casos rutina w)
    as [(w1 & Hg1 & _) | (id & texto & metadata & Hf & Hid & Ht & Hm & [Hv _] & Hg1)];
    rewrite Hg1 in Hg; [discriminate|].
  injection Hg as <-. exists id, texto, metadata.
  split; [done|]. split; [by apply String.eqb_neq|]. split; [done|]. split; [done|].
  cbn [almacen registrar con_almacen].
  split; [apply (documento_de_poner {| doc_id := id |})|].
  destruct (extraer_metadata_forma _ _ Hm)
    as (v & dias & a & sid & fi & _ & _ & _ & Hs & Hfi & _ & _ & _ & ->).
  rewrite Hid in Hs. injection Hs as <-.
  destruct (sin_nulos_metadata_plana id fi
              (Py.sorted (Py.cadenas (todos_olimpicos a)))
              (Py.sorted (Py.cadenas (todos_patrones a)))
              (Py.sorted (Py.cadenas (todos_grupos a))) (length dias))
    as (Hsid & Hnula & Hfecha).
  split; [exact Hsid|].
  split. { intros Hn. rewrite Hfi in Hn. injection Hn as ->. by apply Hnula. }
  split. { intros fecha Hn Hne. rewrite Hfi in Hn. injection Hn as <-. by apply Hfecha. }
  split; [intros otro Hne; by apply documento_de_poner_otro|].
  split; [apply (length_poner {| doc_id := id |})|].
  rewrite obtener_coleccion_ok; [done|done|]. apply poner_no_vacio.
Qed.

(** X3. Saving is idempotent: a routine that was saved can be saved again,
    and the second save leaves the documents of the store as the first
    left them. *)
Theorem guardado_idempotente (rutina : json) (w w1 : Mundo) :
  guardar_en_chromadb rutina w = (Ok true, w1) ->
  exists w2, guardar_en_chromadb rutina w1 = (Ok true, w2)
             /\ almacen w2 = almacen w1.
Proof.
  intros Hg.
  destruct (guardar_en_chromadb_casos rutina w)
    as [(w0 & Hg0 & _) | (id & texto & metadata & Hf & Hid & Ht & Hm & Ha & Hg0)];
    rewrite Hg0 in Hg; [discriminate|].
  injection Hg as <-.
  destruct (guardar_en_chromadb_casos rutina
              (registrar EvCount
                 (con_almacen
                    (Chroma.poner {| doc_id := id; doc_texto := texto;
                                     doc_metadata := Chroma.sin_nulos metadata |} (almacen w))
                    (registrar (EvUpsert (JStr id)) w))))
    as [(w2 & Hg2 & _) | (id' & texto' & metadata' & _ & Hid' & Ht' & Hm' & _ & ->)].
  - exfalso. revert Hg2.
    unfold guardar_en_chromadb, capturar, mbind, M_bind, Chroma.conectar, elevar.
    cbn [fallo_chroma registrar con_almacen]. rewrite Hf, Hid, Ht, Hm.
    unfold Chroma.upsert. cbn [fallo_chroma registrar con_almacen].
    rewrite Hf, (proj1 Ha), (proj2 Ha).
    unfold Chroma.count. cbn [fallo_chroma registrar con_almacen]. rewrite Hf.
    discriminate.
  - eexists. split; [reflexivity|].
    rewrite Hid in Hid'. injection Hid' as <-.
    rewrite Ht in Ht'. injection Ht' as <-.
    rewrite Hm in Hm'. injection Hm' as <-.
    cbn [almacen registrar con_almacen]. by apply poner_poner.
Qed.

End PropiedadesGuardado.

(** ** A day without metadata *)

Section PropiedadesSinMetadata.
Context `{Runtime}.

Lemma acumular_dia_sin_metadata (a : acumulado) (dia : json) :
  dia_sin_metadata dia -> acumular_dia a dia = Lanza (KeyError "metadata").
Proof.
  intros (c & -> & Hc). unfold acumular_dia, Py.item. by rewrite Hc.
Qed.

Lemma acumular_dias_sin_metadata (a : acumulado) (dias : list json) (dia : json) :
  dia ∈ dias -> dia_sin_metadata dia -> exists e, acumular_dias a dias = Lanza e.
Proof.
  intros Hin Hd. revert a.
  induction dias as [|d dias IH]; intros a; [by apply elem_of_nil in Hin|].
  cbn [acumular_dias]. apply elem_of_cons in Hin as [<-|Hin].
  - rewrite acumular_dia_sin_metadata by done. paso_res. eauto.
  - destruct (acumular_dia a d) as [a'|e]; paso_res; [by apply IH | eauto].
Qed.

Lemma extraer_metadata_sin_metadata (semana : json) (dias : list json) (dia : json) :
  Py.item semana "dias" = Ok (JArr dias) -> dia ∈ dias -> dia_sin_metadata dia ->
  exists e, extraer_metadata_para_chroma semana = Lanza e.
Proof.
  intros Hd Hin Hs. unfold extraer_metadata_para_chroma. rewrite Hd. paso_res.
  cbn [Py.iter]. paso_res.
  destruct (acumular_dias_sin_metadata acumulado_vacio dias dia Hin Hs) as [e ->].
  paso_res. eauto.
Qed.

(** X4. A routine one of whose days has no key [metadata] cannot be saved:
    the extraction of the metadata raises, [guardar_en_chromadb] answers
    [False] and writes nothing, and an approval of that routine is answered
    with the message of the failed save, the session state staying as it
    was. *)
Theorem dia_sin_metadata_no_se_guarda
    (mensaje : string) (estado : Estado) (w : Mundo) (dias : list json) (dia : json) :
  Py.item (rutina_actual estado) "dias" = Ok (JArr dias) ->
  dia ∈ dias ->
  dia_sin_metadata dia ->
  intencion_de mensaje estado = "aprobar" ->
  aprobada estado = false ->
  (exists e, extraer_metadata_para_chroma (rutina_actual estado) = Lanza e)
  /\ (exists w', guardar_en_chromadb (rutina_actual estado) w = (Ok false, w')
                 /\ almacen w' = almacen w)
  /\ respuesta_de (procesar_mensaje mensaje estado w)
     = Ok "❌ Hubo un error al guardar la rutina. Intentá de nuevo."
  /\ estado_tras (procesar_mensaje mensaje estado w) = estado
  /\ almacen (mundo_tras (procesar_mensaje mensaje estado w)) = almacen w.
Proof.
  intros Hd Hin Hs Hi Hap.
  destruct (extraer_metadata_sin_metadata _ _ _ Hd Hin Hs) as [e He].
  split; [eauto|].
  destruct (guardar_en_chromadb_casos (rutina_actual estado) w)
    as [(w' & Hg & Ha & _) | (id & texto & metadata & _ & _ & _ & Hm & _)];
    [|rewrite He in Hm; discriminate].
  split; [eauto|].
  destruct (procesar_mensaje_casos mensaje estado w)
    as [[_ ->] | [(Hi' & _) | (Hi' & _)]];
    try (rewrite Hi in Hi'; discriminate).
  unfold caso_aprobar, respuesta_de, estado_tras, mundo_tras.
  destruct (rutina_actual estado) eqn:Hr; try discriminate.
  cbn [es_none]. rewrite Hap, Hg. done.
Qed.

End PropiedadesSinMetadata.

(** ** Retrieval and generation only read the store *)

Section PropiedadesLectura.
Context `{Runtime}.

Lemma solo_lee_ret {A} (a : A) : solo_lee (mret a : M A).
Proof. intros w. repeat split. exists []. split; [done|constructor]. Qed.

Lemma solo_lee_elevar {A} (r : resultado A) : solo_lee (elevar r).
Proof. intros w. repeat split. exists []. split; [done|constructor]. Qed.

Lemma solo_lee_lanzar {A} (e : excepcion) : solo_lee (lanzar e : M A).
Proof. intros w. repeat split. exists []. split; [done|constructor]. Qed.

Lemma solo_lee_bind {A B} (m : M A) (f : A -> M B) :
  solo_lee m -> (forall a, solo_lee (f a)) -> solo_lee (m ≫= f).
Proof.
  intros Hm Hf w. unfold mbind, M_bind.
  destruct (Hm w) as (Ha & Hc & evs & Hev & Hes).
  destruct (m w) as [[a|e] w1]; cbn [snd] in *.
  - destruct (Hf a w1) as (Ha' & Hc' & evs' & Hev' & Hes').
    split; [congruence|]. split; [congruence|].
    exists (evs' ++ evs). split.
    + unfold llamadas in *. rewrite Hev', Hev. by rewrite app_assoc.
    + by apply Forall_app.
  - split; [done|]. split; [done|]. eauto.
Qed.

Lemma solo_lee_conectar : solo_lee Chroma.conectar.
Proof.
  intros w. unfold Chroma.conectar. destruct (fallo_chroma w) eqn:Hf;
    (split; [done|]; split; [done|]; exists []; split; [done|constructor]).
Qed.

Lemma solo_lee_count : solo_lee Chroma.count.
Proof.
  intros w. unfold Chroma.count. destruct (fallo_chroma w) eqn:Hf;
    (split; [done|]; split; [done|]; exists [EvCount]; split; [done|by repeat constructor]).
Qed.

Lemma solo_lee_query (texto : string) (n : Z) (filtros : option json) :
  solo_lee (Chroma.query texto n filtros).
Proof.
  intros w. unfold Chroma.query. destruct (fallo_chroma w) eqn:Hf; [|destruct (_ || _)];
    (split; [done|]; split; [done|]; exists [EvQuery n]; split; [done|by repeat constructor]).
Qed.

Lemma solo_lee_completar (s : solicitud) : solo_lee (chat_completar s).
Proof.
  intros w. unfold chat_completar.
  split; [done|]. split; [done|].
  exists [EvCompletar s]. split; [done|by repeat constructor].
Qed.

Lemma solo_lee_obtener_coleccion : solo_lee obtener_coleccion.
Proof.
  unfold obtener_coleccion.
  apply solo_lee_bind; [apply solo_lee_conectar|]. intros _.
  apply solo_lee_bind; [apply solo_lee_count|]. intros total.
  destruct (total =? 0); [apply solo_lee_lanzar | apply solo_lee_ret].
Qed.

Lemma solo_lee_similares (query : string) (n : Z) (filtros : option json) :
  solo_lee (recuperar_rutinas_similares query n filtros).
Proof.
  unfold recuperar_rutinas_similares.
  apply solo_lee_bind; [apply solo_lee_count|]. intros total.
  apply solo_lee_bind; [apply solo_lee_query|]. intros resultados.
  apply solo_lee_elevar.
Qed.

Lemma solo_lee_recuperar_contexto
    (objetivo : option string) (evitar incluir : option (list string))
    (intensidad : option string) (n : Z) :
  solo_lee (recuperar_contexto objetivo evitar incluir intensidad n).
Proof.
  unfold recuperar_contexto.
  apply solo_lee_bind; [apply solo_lee_obtener_coleccion|]. intros _.
  apply solo_lee_bind; [apply solo_lee_similares|]. intros rutinas.
  apply solo_lee_bind; [apply solo_lee_elevar|]. intros contexto.
  apply solo_lee_ret.
Qed.

Lemma solo_lee_generar_rutina
    (pedido fecha : string) (hist : list mensaje_chat) (n : Z) :
  solo_lee (generar_rutina pedido fecha hist n).
Proof.
  unfold generar_rutina.
  apply solo_lee_bind; [apply solo_lee_recuperar_contexto|]. intros [contexto rutinas].
  apply solo_lee_bind; [apply solo_lee_completar|]. intros cruda.
  apply solo_lee_elevar.
Qed.

Lemma solo_lee_editar_rutina
    (correccion : string) (rutina : json) (hist : list mensaje_chat) :
  solo_lee (editar_rutina correccion rutina hist).
Proof.
  unfold editar_rutina.
  apply solo_lee_bind; [apply solo_lee_completar|]. intros cruda.
  apply solo_lee_elevar.
Qed.

(** X5. Retrieval, generation and edition read the store and never write
    to it: whatever the world, the request and the answer of the model,
    [recuperar_contexto], [generar_rutina] and [editar_rutina] leave the
    documents of the collection as they were, and none of the calls they
    make is an upsert. *)
Theorem generacion_solo_lee
    (objetivo : option string) (evitar incluir : option (list string))
    (intensidad : option string) (n : Z)
    (pedido fecha correccion : string) (rutina : json) (hist : list mensaje_chat) :
  solo_lee (recuperar_contexto objetivo evitar incluir intensidad n)
  /\ solo_lee (generar_rutina pedido fecha hist n)
  /\ solo_lee (editar_rutina correccion rutina hist).
Proof.
  split; [apply solo_lee_recuperar_contexto|].
  split; [apply solo_lee_generar_rutina | apply solo_lee_editar_rutina].
Qed.

End PropiedadesLectura.

(** ** The session, step after step *)

Section PropiedadesSesion.
Context `{Runtime}.

Lemma alcanzable_invariante (estado : Estado) : alcanzable estado -> invariante estado.
Proof.
  induction 1 as [hoy estado Hc | mensaje estado w _ IH];
    [by apply (invariante_inicial hoy) | by apply invariante_paso].
Qed.

(** What one call does to the session and to the world, branch by
    branch. *)
Lemma procesar_mensaje_pasos (mensaje : string) (estado : Estado) (w : Mundo) :
  (* nothing changes in the session *)
  (estado_tras (procesar_mensaje mensaje estado w) = estado
   /\ almacen (mundo_tras (procesar_mensaje mensaje estado w)) = almacen w
   /\ exists evs, llamadas w (mundo_tras (procesar_mensaje mensaje estado w)) evs
                  /\ (tiene_rutina estado = true -> Forall (fun ev => es_consulta ev = false) evs)
                  /\ (aprobada estado = true -> tiene_rutina estado = true ->
                      evs = [] \/ exists s, evs = [EvCompletar s]))
  (* a routine is generated *)
  \/ (tiene_rutina estado = false
      /\ exists respuesta_llm c,
           estado_tras (procesar_mensaje mensaje estado w)
           = {| historial := historial estado ++ intercambio mensaje respuesta_llm;
                rutina_actual := JObj c;
                aprobada := false;
                fecha_inicio := fecha_inicio estado;
                n_ediciones := 0 |})
  (* the routine is edited *)
  \/ (tiene_rutina estado = true
      /\ almacen (mundo_tras (procesar_mensaje mensaje estado w)) = almacen w
      /\ (exists s, llamadas w (mundo_tras (procesar_mensaje mensaje estado w)) [EvCompletar s])
      /\ exists respuesta_llm c,
           estado_tras (procesar_mensaje mensaje estado w)
           = {| historial := historial estado ++ intercambio mensaje respuesta_llm;
                rutina_actual := JObj c;
                aprobada := aprobada estado;
                fecha_inicio := fecha_inicio estado;
                n_ediciones := n_ediciones estado + 1 |})
  (* the routine is approved *)
  \/ (tiene_rutina estado = true
      /\ aprobada estado = false
      /\ (exists w1, guardar_en_chromadb (rutina_actual estado) w = (Ok true, w1)
                     /\ mundo_tras (procesar_mensaje mensaje estado w) = w1)
      /\ (exists id, llamadas w (mundo_tras (procesar_mensaje mensaje estado w))
                       [EvCount; EvUpsert id])
      /\ exists respuesta_guardado respuesta,
           respuesta_de (procesar_mensaje mensaje estado w) = Ok respuesta
           /\ estado_tras (procesar_mensaje mensaje estado w)
              = {| historial := historial estado ++ intercambio mensaje respuesta_guardado;
                   rutina_actual := rutina_actual estado;
                   aprobada := true;
                   fecha_inicio := fecha_inicio estado;
                   n_ediciones := n_ediciones estado |}).
Proof.
  destruct (procesar_mensaje_casos mensaje estado w)
    as [[Hi ->] | [(Hi & Ht & ->) | (Hi & Ht & ->)]].
  - (* aprobar *)
    unfold caso_aprobar, tiene_rutina, estado_tras, mundo_tras, respuesta_de.
    destruct (es_none (rutina_actual estado)) eqn:Hn.
    { left. cbn [fst snd]. split; [done|]. split; [done|].
      exists []. split; [done|]. split; [intros _; constructor | by left]. }
    destruct (aprobada estado) eqn:Hap.
    { left. cbn [fst snd]. split; [done|]. split; [done|].
      exists []. split; [done|]. split; [intros _; constructor | by left]. }
    destruct (guardar_en_chromadb_casos (rutina_actual estado) w)
      as [(w' & Hg & Ha & _ & evs & Hev & Hq)
         | (id & texto & metadata & Hf & Hid & _ & _ & _ & Hg)]; rewrite Hg.
    { left. cbn [fst snd]. split; [done|]. split; [done|].
      exists evs. split; [done|]. split; [done | discriminate]. }
    right. right. right.
    destruct (rutina_actual estado) eqn:Hr; try discriminate.
    cbn [Py.get_o negb fst snd].
    split; [done|]. split; [done|].
    split; [eexists; split; reflexivity|].
    split; [by exists (JStr id)|]. eauto.
  - (* editar *)
    unfold caso_editar, estado_tras, mundo_tras.
    destruct (es_none (rutina_actual estado)) eqn:Hn;
      [unfold tiene_rutina in Ht; rewrite Hn in Ht; discriminate|].
    destruct (editar_rutina mensaje (rutina_actual estado) (historial estado) w)
      as [[[respuesta_llm rutina]|e] w'] eqn:He.
    + right. right. left. cbn [fst snd].
      destruct (editar_rutina_objeto _ _ _ _ _ _ _ He) as [c ->].
      revert He. unfold editar_rutina, mbind, M_bind, chat_completar, elevar.
      destruct (completar w _); [|discriminate]. intros [= _ <-].
      split; [done|]. split; [done|]. split; [by eexists|]. eauto.
    + left. cbn [fst snd]. split; [done|].
      revert He. unfold editar_rutina, mbind, M_bind, chat_completar, elevar.
      destruct (completar w _) as [cruda|e'].
      * intros [= _ <-]. split; [done|]. eexists [_]. split; [done|].
        split; [intros _; by repeat constructor | intros _ _; right; eauto].
      * intros [= _ <-]. split; [done|]. eexists [_]. split; [done|].
        split; [intros _; by repeat constructor | intros _ _; right; eauto].
  - (* generar *)
    unfold caso_generar, estado_tras, mundo_tras.
    destruct (generar_rutina mensaje (fecha_inicio estado) (historial estado) 3 w)
      as [[[respuesta_llm rutina]|e] w'] eqn:Hg.
    + right. left. cbn [fst snd]. split; [done|].
      destruct (generar_rutina_objeto _ _ _ _ _ _ _ _ Hg) as [c ->]. eauto.
    + left. cbn [fst snd]. split; [done|].
      destruct (solo_lee_generar_rutina mensaje (fecha_inicio estado) (historial estado) 3 w)
        as (Ha & _ & evs & Hev & _).
      rewrite Hg in Ha, Hev. cbn [snd] in Ha, Hev.
      split; [done|]. exists evs. split; [done|].
      split; [intros Ht' | intros _ Ht']; rewrite Ht in Ht'; discriminate.
Qed.

(** X6. [procesar_mensaje] always answers: whatever the message, the
    session state and the world (the store out of reach, the model failing
    or answering anything), no exception escapes the call. *)
Theorem procesar_mensaje_responde (mensaje : string) (estado : Estado) (w : Mundo) :
  exists respuesta, respuesta_de (procesar_mensaje mensaje estado w) = Ok respuesta.
Proof.
  destruct (procesar_mensaje_casos mensaje estado w)
    as [[Hi ->] | [(Hi & Ht & ->) | (Hi & Ht & ->)]]; unfold respuesta_de.
  - unfold caso_aprobar.
    destruct (es_none (rutina_actual estado)); [by eexists|].
    destruct (aprobada estado); [by eexists|].
    destruct (guardar_en_chromadb_casos (rutina_actual estado) w)
      as [(w' & -> & _) | (id & texto & metadata & _ & Hid & _ & _ & _ & ->)];
      [by eexists|].
    destruct (rutina_actual estado); try discriminate.
    cbn [Py.get_o]. by eexists.
  - unfold caso_editar.
    destruct (es_none (rutina_actual estado)); [by eexists|].
    destruct (editar_rutina _ _ _ w) as [[[r1 r2]|e] w']; by eexists.
  - unfold caso_generar.
    destruct (generar_rutina _ _ _ _ w) as [[[r1 r2]|e] w']; by eexists.
Qed.

(** X7. The states of a session are well formed: [rutina_actual] is
    [None] or a [dict], never another value; [n_ediciones] is not negative;
    and as long as no routine is present the history is empty, nothing is
    approved and no edit is counted. *)
Theorem estado_bien_formado (estado : Estado) :
  alcanzable estado ->
  (rutina_actual estado = JNull \/ exists c, rutina_actual estado = JObj c)
  /\ 0 <= n_ediciones estado
  /\ (rutina_actual estado = JNull ->
      historial estado = [] /\ aprobada estado = false /\ n_ediciones estado = 0).
Proof.
  induction 1 as [hoy estado Hc | mensaje estado w _ (IHr & IHn & IHv)].
  - rewrite (crear_estado_inicial_forma _ _ Hc).
    cbn. split; [by left|]. split; [lia|]. done.
  - destruct (procesar_mensaje_pasos mensaje estado w)
      as [(-> & _) | [(_ & r & c & ->) | [(_ & _ & _ & r & c & ->)
         | (Ht & _ & _ & _ & r & r' & _ & ->)]]]; cbn [rutina_actual n_ediciones historial aprobada].
    + done.
    + split; [eauto|]. split; [lia|]. discriminate.
    + split; [eauto|]. split; [lia|]. discriminate.
    + split; [done|]. split; [done|]. intros Hn.
      unfold tiene_rutina in Ht. rewrite Hn in Ht. discriminate.
Qed.

(** X8. An approval is final.  From a state of a session in which the
    routine is approved, every call leaves [aprobada] set and the documents
    of the store as they were; the only call it can make is one completion,
    for an edit.  So what is edited after the approval is never saved. *)
Theorem aprobacion_definitiva (mensaje : string) (estado : Estado) (w : Mundo) :
  alcanzable estado ->
  aprobada estado = true ->
  aprobada (estado_tras (procesar_mensaje mensaje estado w)) = true
  /\ almacen (mundo_tras (procesar_mensaje mensaje estado w)) = almacen w
  /\ exists evs,
       llamadas w (mundo_tras (procesar_mensaje mensaje estado w)) evs
       /\ (evs = [] \/ exists s, evs = [EvCompletar s]).
Proof.
  intros Hal Hap.
  assert (tiene_rutina estado = true) as Ht.
  { destruct (alcanzable_invariante estado Hal) as [Hinv _].
    specialize (Hinv Hap). unfold tiene_rutina.
    by destruct (rutina_actual estado). }
  destruct (procesar_mensaje_pasos mensaje estado w)
    as [(-> & Ha & evs & Hev & _ & Hevs) | [(Ht' & _) | [(_ & Ha & [s Hev] & r & c & ->)
       | (_ & Hap' & _)]]].
  - split; [done|]. split; [done|]. exists evs. split; [done|]. by apply Hevs.
  - rewrite Ht in Ht'. discriminate.
  - cbn [aprobada]. split; [done|]. split; [done|].
    exists [EvCompletar s]. split; [done|]. right. eauto.
  - rewrite Hap in Hap'. discriminate.
Qed.

(** X9. Once a routine is present it stays, and the session never
    generates another: the routine is present after every later call, the
    start date of the session is kept, and no call queries the store. *)
Theorem rutina_presente_no_se_regenera (mensaje : string) (estado : Estado) (w : Mundo) :
  tiene_rutina estado = true ->
  tiene_rutina (estado_tras (procesar_mensaje mensaje estado w)) = true
  /\ intencion_de mensaje estado <> "generar"
  /\ fecha_inicio (estado_tras (procesar_mensaje mensaje estado w)) = fecha_inicio estado
  /\ exists evs,
       llamadas w (mundo_tras (procesar_mensaje mensaje estado w)) evs
       /\ Forall (fun ev => es_consulta ev = false) evs.
Proof.
  intros Ht.
  assert (intencion_de mensaje estado <> "generar") as Hi.
  { destruct (procesar_mensaje_casos mensaje estado w)
      as [[-> _] | [(-> & _) | (_ & Ht' & _)]]; try discriminate.
    rewrite Ht in Ht'. discriminate. }
  destruct (procesar_mensaje_pasos mensaje estado w)
    as [(-> & _ & evs & Hev & Hq & _) | [(Ht' & _) | [(_ & _ & [s Hev] & r & c & ->)
       | (_ & _ & _ & [id Hev] & r & r' & _ & ->)]]].
  - split; [done|]. split; [done|]. split; [done|]. exists evs. split; [done|]. by apply Hq.
  - rewrite Ht in Ht'. discriminate.
  - split; [done|]. split; [done|]. split; [done|].
    exists [EvCompletar s]. split; [done|]. by repeat constructor.
  - split; [exact Ht|]. split; [done|]. split; [done|].
    exists [EvCount; EvUpsert id]. split; [done|]. by repeat constructor.
Qed.

Lemma turnos_alternados_app (h : list mensaje_chat) (mensaje respuesta : string) :
  turnos_alternados h = true ->
  turnos_alternados (h ++ intercambio mensaje respuesta) = true.
Proof.
  remember (length h) as n eqn:Hn. revert h Hn.
  induction n as [n IH] using lt_wf_ind. intros h Hn.
  destruct h as [|u [|a h]]; [done | discriminate |].
  cbn [turnos_alternados app]. intros Hh.
  apply andb_true_iff in Hh as [Hh1 Hh2]. rewrite Hh1. cbn [andb].
  apply (IH (length h)); [subst n; simpl; lia | done | done].
Qed.

(** X10. The history of a session is a sequence of exchanges: a message
    of the user, the answer of the assistant, and so on; one call appends
    nothing to it or one exchange that starts with the message of the
    call. *)
Theorem historial_alternado (estado : Estado) :
  alcanzable estado ->
  turnos_alternados (historial estado) = true
  /\ forall mensaje w,
       historial (estado_tras (procesar_mensaje mensaje estado w)) = historial estado
       \/ exists respuesta,
            historial (estado_tras (procesar_mensaje mensaje estado w))
            = historial estado ++ intercambio mensaje respuesta.
Proof.
  assert (forall mensaje estado w,
            historial (estado_tras (procesar_mensaje mensaje estado w)) = historial estado
            \/ exists respuesta,
                 historial (estado_tras (procesar_mensaje mensaje estado w))
                 = historial estado ++ intercambio mensaje respuesta) as Hpaso.
  { intros mensaje est w.
    destruct (procesar_mensaje_pasos mensaje est w)
      as [(-> & _) | [(_ & r & c & ->) | [(_ & _ & _ & r & c & ->)
         | (_ & _ & _ & _ & r & r' & _ & ->)]]]; cbn [historial]; eauto. }
  intros Hal. split; [|intros; apply Hpaso].
  induction Hal as [hoy estado Hc | mensaje estado w _ IH];
    [by rewrite (crear_estado_inicial_forma _ _ Hc)|].
  destruct (Hpaso mensaje estado w) as [-> | [r ->]]; [done|].
  by apply turnos_alternados_app.
Qed.

(** X11. With the store reachable and no document in it, a request for a
    routine is answered with the error of the empty collection, word for
    word; the session state stays as it was, the only call made is the count
    of the store, and the model is not asked. *)
Theorem respuesta_coleccion_vacia (mensaje : string) (estado : Estado) (w : Mundo) :
  intencion_de mensaje estado = "generar" ->
  fallo_chroma w = None ->
  almacen w = [] ->
  procesar_mensaje mensaje estado w
  = (Ok ("❌ Hubo un error al generar la rutina: "
         +:+ "La colección de ChromaDB está vacía. "
         +:+ "Ejecutá ingest.py primero para cargar las rutinas."),
     estado, registrar EvCount w).
Proof.
  intros Hi Hf Hv.
  destruct (procesar_mensaje_casos mensaje estado w)
    as [[Hi' _] | [(Hi' & _) | (_ & _ & ->)]];
    try (rewrite Hi in Hi'; discriminate).
  unfold caso_generar, generar_rutina, recuperar_contexto, obtener_coleccion,
    mbind, M_bind, Chroma.conectar, Chroma.count.
  rewrite Hf. cbn [fallo_chroma registrar]. rewrite Hf, Hv. reflexivity.
Qed.

End PropiedadesSesion.

(** ** The next Monday *)

Section PropiedadesFecha.
Context `{Runtime}.

(** X12. The start date of a new session is the first Monday strictly after
    today: between one and seven days ahead, a Monday, with no Monday in
    between; when today is a Monday it is the Monday of next week.  When
    that Monday lies past the last day a [datetime] can hold, which is so
    from Monday 27 December 9999 on, the call raises [OverflowError] and no
    session state is created. *)
Theorem proximo_lunes_es_lunes (hoy : Z) :
  exists dias,
    1 <= dias <= 7
    /\ weekday (hoy + dias) = 0
    /\ (forall d, 1 <= d < dias -> weekday (hoy + d) <> 0)
    /\ (weekday hoy = 0 -> dias = 7)
    /\ obtener_proximo_lunes hoy
       = (if hoy + dias <=? ordinal_maximo
          then Ok (strftime_ymd (hoy + dias)) else Lanza OverflowError)
    /\ fecha_inicio <$> crear_estado_inicial hoy = obtener_proximo_lunes hoy
    /\ (obtener_proximo_lunes hoy = Lanza OverflowError <-> ordinal_maximo - 4 <= hoy).
Proof.
  unfold crear_estado_inicial, obtener_proximo_lunes, weekday.
  set (r := (7 - (hoy + 6) mod 7) mod 7).
  assert (0 <= r < 7) as Hr by (apply Z.mod_pos_bound; lia).
  assert (((hoy + 6) mod 7 = 0 /\ r = 0) \/ (0 < (hoy + 6) mod 7 /\ r = 7 - (hoy + 6) mod 7))
    as Hcasos.
  { subst r. pose proof (Z.mod_pos_bound (hoy + 6) 7 ltac:(lia)).
    destruct (Z.eq_dec ((hoy + 6) mod 7) 0) as [E|E].
    - left. rewrite E. done.
    - right. split; [lia|]. apply Z.mod_small. lia. }
  pose proof (Z.mod_pos_bound (hoy + 6) 7 ltac:(lia)) as Hb.
  clearbody r.
  exists (if r =? 0 then 7 else r).
  destruct (r =? 0) eqn:Er; [apply Z.eqb_eq in Er | apply Z.eqb_neq in Er].
  - destruct Hcasos as [[Hm _] | [Hm Hr']]; [|lia].
    split; [lia|].
    split. { revert Hm. clear. intros. Z.div_mod_to_equations. lia. }
    split. { intros d Hd. revert Hm. clear -Hd. intros. Z.div_mod_to_equations. lia. }
    split; [done|].
    split; [done|].
    split. { by destruct (hoy + 7 <=? ordinal_maximo). }
    unfold ordinal_maximo.
    destruct (hoy + 7 <=? 3652059) eqn:El;
      [apply Z.leb_le in El | apply Z.leb_gt in El].
    + split; [discriminate|]. intros Hh. exfalso. revert Hm. clear -El Hh. intros.
      Z.div_mod_to_equations. lia.
    + split; [|done]. intros _. revert Hm. clear -El. intros.
      Z.div_mod_to_equations. lia.
  - destruct Hcasos as [[_ Hr'] | [Hm Hr']]; [lia|].
    split; [lia|].
    split. { rewrite Hr'. revert Hm. clear. intros. Z.div_mod_to_equations. lia. }
    split. { intros d Hd. rewrite Hr' in Hd. revert Hm. clear -Hd. intros.
             Z.div_mod_to_equations. lia. }
    split; [lia|].
    split; [done|].
    split. { by destruct (hoy + r <=? ordinal_maximo). }
    unfold ordinal_maximo.
    destruct (hoy + r <=? 3652059) eqn:El;
      [apply Z.leb_le in El | apply Z.leb_gt in El].
    + split; [discriminate|]. intros Hh. exfalso. rewrite Hr' in El.
      revert Hm. clear -El Hh. intros. Z.div_mod_to_equations. lia.
    + split; [|done]. intros _. rewrite Hr' in El. revert Hm. clear -El. intros.
      Z.div_mod_to_equations. lia.
Qed.

End PropiedadesFecha.

(** ** The context of a generation *)

Section PropiedadesContexto.
Context `{Runtime}.

Lemma bloques_contexto_ok (i : nat) (rutinas : list rutina_recuperada) :
  Forall (fun r => exists c, rr_metadata r = JObj c) rutinas ->
  exists bloques, bloques_contexto i rutinas = Ok bloques.
Proof.
  intros Hr. revert i. induction Hr as [|r rs [c Hc] _ IH]; intros i.
  - by exists [].
  - cbn [bloques_contexto]. unfold bloque_contexto. rewrite Hc. cbn [Py.get_o]. paso_res.
    destruct (IH (S i)) as [bs ->]. paso_res. eauto.
Qed.

Lemma formatear_contexto_ok (rutinas : list rutina_recuperada) :
  Forall (fun r => exists c, rr_metadata r = JObj c) rutinas ->
  rutinas <> [] ->
  exists contexto,
    formatear_contexto_para_llm rutinas = Ok contexto
    /\ String.prefix ("RUTINAS DE REFERENCIA" +:+ nl) contexto = true.
Proof.
  intros Hr Hne. unfold formatear_contexto_para_llm.
  destruct rutinas as [|r rs]; [done|].
  destruct (bloques_contexto_ok 1 (r :: rs) Hr) as [bs ->]. paso_res.
  eexists. split; [reflexivity|].
  cbn [app Str.join]. unfold nl. autorewrite with cadenas. reflexivity.
Qed.

Lemma como_recuperada_ok (r : documento * Q) (rr : rutina_recuperada) :
  como_recuperada r = Ok rr ->
  rr_documento rr = doc_texto r.1
  /\ rr_metadata rr = doc_metadata r.1
  /\ Py.item (doc_metadata r.1) "semana_id" = Ok (rr_semana_id rr)
  /\ exists c, rr_metadata rr = JObj c.
Proof.
  unfold como_recuperada.
  destruct (Py.item (doc_metadata r.1) "semana_id") as [v|e] eqn:Hv; paso_res; [|discriminate].
  intros [= <-]. cbn. split; [done|]. split; [done|]. split; [done|].
  unfold Py.item in Hv. destruct (doc_metadata r.1); try discriminate. eauto.
Qed.

(** X13. With the store reachable, not empty and every document carrying
    its [semana_id], [recuperar_contexto] succeeds for every positive number
    of results asked: it counts twice and queries once, for
    [min(n, count)] results, returns exactly that many routines, each the
    text and the metadata of a document of the store, and the context it
    formats for them starts with the heading of the reference routines. *)
Theorem contexto_recuperado
    (w : Mundo) (objetivo : option string) (evitar incluir : option (list string))
    (intensidad : option string) (n : Z) :
  fallo_chroma w = None ->
  almacen_con_semana_id w ->
  (0 < length (almacen w))%nat ->
  0 < n ->
  exists contexto rutinas,
    recuperar_contexto objetivo evitar incluir intensidad n w
    = (Ok (contexto, rutinas),
       registrar (EvQuery (Z.min n (Z.of_nat (length (almacen w)))))
         (registrar EvCount (registrar EvCount w)))
    /\ Z.of_nat (length rutinas) = Z.min n (Z.of_nat (length (almacen w)))
    /\ formatear_contexto_para_llm rutinas = Ok contexto
    /\ String.prefix ("RUTINAS DE REFERENCIA" +:+ nl) contexto = true
    /\ Forall (fun r => exists d, d ∈ almacen w
                                  /\ rr_documento r = doc_texto d
                                  /\ rr_metadata r = doc_metadata d
                                  /\ Py.item (doc_metadata d) "semana_id"
                                     = Ok (rr_semana_id r)) rutinas.
Proof.
  intros Hf Hsid Hpos Hn.
  unfold recuperar_contexto, mbind at 1, M_bind at 1.
  rewrite obtener_coleccion_ok by done.
  unfold recuperar_rutinas_similares, mbind, M_bind, Chroma.count.
  cbn [fallo_chroma registrar almacen]. rewrite Hf.
  rewrite query_ok; [| exact Hf | cbn [almacen registrar]; lia].
  set (k := Z.min n (Z.of_nat (length (almacen w)))).
  set (w2 := registrar EvCount (registrar EvCount w)).
  set (resultados := take (Z.to_nat k)
                       (Chroma.por_distancia w2 _ (Chroma.filtrados w2 (where_de None)))).
  assert (Forall (fun r : documento * Q => r.1 ∈ almacen w /\
                    exists v, Py.item (doc_metadata r.1) "semana_id" = Ok v) resultados)
    as Hres.
  { apply Forall_take.
    apply (por_distancia_Forall
             (fun d => d ∈ almacen w /\ exists v, Py.item (doc_metadata d) "semana_id" = Ok v)).
    cbn [where_de Chroma.filtrados almacen w2 registrar].
    apply Forall_forall. intros d Hd. split; [done|].
    unfold almacen_con_semana_id in Hsid. rewrite Forall_forall in Hsid. by apply Hsid. }
  destruct (mapM_resultado_ok como_recuperada resultados) as (rutinas & Hm & Hlen).
  { eapply Forall_impl; [exact Hres|]. intros [d q] [_ [v Hv]].
    unfold como_recuperada. cbn [fst snd] in *. rewrite Hv. paso_res. eauto. }
  assert (Z.of_nat (length rutinas) = k) as Hk.
  { rewrite Hlen. unfold resultados. rewrite length_take, por_distancia_length.
    cbn [where_de Chroma.filtrados almacen w2 registrar]. lia. }
  assert (Forall (fun r => exists d, d ∈ almacen w
                                     /\ rr_documento r = doc_texto d
                                     /\ rr_metadata r = doc_metadata d
                                     /\ Py.item (doc_metadata d) "semana_id"
                                        = Ok (rr_semana_id r)) rutinas) as Hrut.
  { apply mapM_resultado_Forall2 in Hm.
    clear Hlen Hk. induction Hm as [|r rr rs rrs Hr _ IH]; [constructor|].
    apply Forall_cons in Hres as [[Hin _] Hres]. constructor; [|by apply IH].
    apply como_recuperada_ok in Hr as (H1 & H2 & H3 & _). eauto. }
  destruct (formatear_contexto_ok rutinas) as (contexto & Hc & Hp).
  { eapply Forall_impl; [exact Hrut|]. intros r (d & _ & _ & Hm' & Hi).
    rewrite Hm'. unfold Py.item in Hi. destruct (doc_metadata d); try discriminate. eauto. }
  { intros ->. cbn in Hk. lia. }
  exists contexto, rutinas. unfold elevar. cbn [fst snd]. rewrite Hm, Hc.
  split; [reflexivity|]. done.
Qed.

End PropiedadesContexto.

(** ** Loading the processed files *)

Section PropiedadesIngesta.
Context `{Runtime}.
Variable disco : Disco.

Lemma extraer_metadata_dias (semana meta : json) :
  extraer_metadata_para_chroma semana = Ok meta ->
  exists dias n, Py.item semana "dias" = Ok dias /\ Py.len dias = Ok n.
Proof.
  intros (v & dias & _ & _ & _ & Hv & Hd & _)%extraer_metadata_forma.
  exists v, (Z.of_nat (length dias)). split; [done|]. unfold Py.len. by rewrite Hd.
Qed.

(** The two ways [cargar_semana] ends for a file that holds a JSON text,
    beside what [guardar_en_chromadb] does with the value of that text. *)
Lemma cargar_semana_casos (ruta contenido : string) (semana : json) (w : Mundo) :
  leer disco ruta = Some contenido ->
  Json.loads contenido = Ok semana ->
  (exists e w' w'',
     cargar_semana disco ruta w = (Lanza e, w')
     /\ almacen w' = almacen w
     /\ fallo_chroma w' = fallo_chroma w
     /\ guardar_en_chromadb semana w = (Ok false, w'')
     /\ almacen w'' = almacen w)
  \/ (exists id texto metadata,
        fallo_chroma w = None
        /\ Py.item semana "semana_id" = Ok (JStr id)
        /\ json_a_texto_enriquecido semana = Ok texto
        /\ extraer_metadata_para_chroma semana = Ok metadata
        /\ (String.eqb id "" = false /\ Chroma.metadata_admitida metadata = true)
        /\ cargar_semana disco ruta w
           = (Ok true,
              con_almacen
                (Chroma.poner {| doc_id := id; doc_texto := texto;
                                 doc_metadata := Chroma.sin_nulos metadata |} (almacen w))
                (registrar (EvUpsert (JStr id)) w))
        /\ guardar_en_chromadb semana w
           = (Ok true,
              registrar EvCount
                (con_almacen
                   (Chroma.poner {| doc_id := id; doc_texto := texto;
                                    doc_metadata := Chroma.sin_nulos metadata |} (almacen w))
                   (registrar (EvUpsert (JStr id)) w)))).
Proof.
  intros Hl Hj.
  unfold cargar_semana, guardar_en_chromadb, capturar. rewrite Hl.
  unfold mbind, M_bind, Chroma.conectar, elevar. rewrite Hj.
  destruct (Py.item semana "semana_id") as [doc|e] eqn:Hid.
  2:{ left. exists e, w. destruct (fallo_chroma w); by eexists. }
  destruct (json_a_texto_enriquecido semana) as [texto|e] eqn:Ht.
  2:{ left. exists e, w. destruct (fallo_chroma w); by eexists. }
  destruct (extraer_metadata_para_chroma semana) as [metadata|e] eqn:Hm.
  2:{ left. exists e, w. destruct (fallo_chroma w); by eexists. }
  unfold Chroma.upsert.
  destruct (fallo_chroma w) as [e|] eqn:Hf; rewrite ?Hf.
  { left. by eexists _, _, _. }
  destruct doc as [| | | |id| |]; try (left; by eexists _, _, _).
  destruct (String.eqb id "") eqn:Hv; [left; by eexists _, _, _|].
  destruct (Chroma.metadata_admitida metadata) eqn:Ha; [|left; by eexists _, _, _].
  right. exists id, texto, metadata.
  destruct (extraer_metadata_dias _ _ Hm) as (dias & n & -> & ->).
  unfold Chroma.count. cbn [fallo_chroma con_almacen registrar]. rewrite Hf.
  by repeat split.
Qed.

(** X14. A processed file and an approval store a routine alike.  For a
    file that holds the JSON text of a routine, [cargar_semana] succeeds
    exactly when [guardar_en_chromadb] saves the routine, and both leave the
    same documents in the store; where the save answers [False],
    [cargar_semana] raises instead of answering [False]. *)
Theorem carga_y_guardado_coinciden (ruta contenido : string) (semana : json) (w : Mundo) :
  leer disco ruta = Some contenido ->
  Json.loads contenido = Ok semana ->
  ((cargar_semana disco ruta w).1 = Ok true <-> (guardar_en_chromadb semana w).1 = Ok true)
  /\ almacen (cargar_semana disco ruta w).2 = almacen (guardar_en_chromadb semana w).2
  /\ ((guardar_en_chromadb semana w).1 = Ok false ->
      exists e, (cargar_semana disco ruta w).1 = Lanza e).
Proof.
  intros Hl Hj.
  destruct (cargar_semana_casos ruta contenido semana w Hl Hj)
    as [(e & w' & w'' & -> & Ha & _ & -> & Ha')
       | (id & texto & metadata & _ & _ & _ & _ & _ & -> & ->)]; cbn [fst snd].
  - split; [split; discriminate|]. split; [congruence | eauto].
  - split; [done|]. split; [done | discriminate].
Qed.

(** X15. Loading a file is idempotent: a file that was loaded can be loaded
    again, and the second load leaves the documents of the store as the
    first left them. *)
Theorem carga_idempotente (ruta : string) (w w1 : Mundo) :
  cargar_semana disco ruta w = (Ok true, w1) ->
  exists w2, cargar_semana disco ruta w1 = (Ok true, w2)
             /\ almacen w2 = almacen w1.
Proof.
  intros Hc.
  destruct (leer disco ruta) as [contenido|] eqn:Hl;
    [|unfold cargar_semana in Hc; rewrite Hl in Hc; discriminate].
  destruct (Json.loads contenido) as [semana|e] eqn:Hj;
    [|unfold cargar_semana, mbind, M_bind, elevar in Hc; rewrite Hl, Hj in Hc; discriminate].
  destruct (cargar_semana_casos ruta contenido semana w Hl Hj)
    as [(e & w' & w'' & Hc' & _)
       | (id & texto & metadata & Hf & Hid & Ht & Hm & Ha & Hc' & _)];
    rewrite Hc' in Hc; [discriminate|].
  injection Hc as <-.
  destruct (cargar_semana_casos ruta contenido semana
              (con_almacen
                 (Chroma.poner {| doc_id := id; doc_texto := texto;
                                  doc_metadata := Chroma.sin_nulos metadata |} (almacen w))
                 (registrar (EvUpsert (JStr id)) w)) Hl Hj)
    as [(e & w' & w'' & _ & _ & _ & Hg & _)
       | (id' & texto' & metadata' & _ & Hid' & Ht' & Hm' & _ & -> & _)].
  - exfalso. revert Hg.
    unfold guardar_en_chromadb, capturar, mbind, M_bind, Chroma.conectar, elevar.
    cbn [fallo_chroma registrar con_almacen]. rewrite Hf, Hid, Ht, Hm.
    unfold Chroma.upsert. cbn [fallo_chroma registrar con_almacen].
    rewrite Hf, (proj1 Ha), (proj2 Ha).
    unfold Chroma.count. cbn [fallo_chroma registrar con_almacen]. rewrite Hf.
    discriminate.
  - eexists. split; [reflexivity|].
    rewrite Hid in Hid'. injection Hid' as <-.
    rewrite Ht in Ht'. injection Ht' as <-.
    rewrite Hm in Hm'. injection Hm' as <-.
    cbn [almacen registrar con_almacen]. by apply poner_poner.
Qed.

(** What a load does to the world, whatever the file. *)
Lemma cargar_semana_efecto (ruta : string) (w : Mundo) :
  fallo_chroma (cargar_semana disco ruta w).2 = fallo_chroma w
  /\ (((cargar_semana disco ruta w).1 <> Ok true
       /\ almacen (cargar_semana disco ruta w).2 = almacen w)
      \/ ((cargar_semana disco ruta w).1 = Ok true
          /\ exists d, almacen (cargar_semana disco ruta w).2
                       = Chroma.poner d (almacen w))).
Proof.
  destruct (leer disco ruta) as [contenido|] eqn:Hl.
  2:{ unfold cargar_semana. rewrite Hl. cbn. split; [done|]. left. by split. }
  destruct (Json.loads contenido) as [semana|e] eqn:Hj.
  2:{ unfold cargar_semana, mbind, M_bind, elevar. rewrite Hl, Hj. cbn.
      split; [done|]. left. by split. }
  destruct (cargar_semana_casos ruta contenido semana w Hl Hj)
    as [(e & w' & w'' & -> & Ha & Hf & _)
       | (id & texto & metadata & _ & _ & _ & _ & _ & -> & _)]; cbn [fst snd].
  - split; [done|]. left. by split.
  - split; [done|]. right. split; [done|]. cbn [almacen con_almacen]. eauto.
Qed.

Lemma cargar_archivos_efecto (archivos : list string) (k n : Z) (w w' : Mundo) :
  cargar_archivos disco archivos k w = (Ok n, w') ->
  k <= n <= k + Z.of_nat (length archivos)
  /\ fallo_chroma w' = fallo_chroma w
  /\ (length (almacen w) <= length (almacen w'))%nat
  /\ Z.of_nat (length (almacen w')) <= Z.of_nat (length (almacen w)) + (n - k)
  /\ (k < n -> (0 < length (almacen w'))%nat).
Proof.
  revert k w. induction archivos as [|archivo resto IH]; intros k w.
  - cbn. intros [= <- <-]. repeat split; lia.
  - cbn [cargar_archivos]. unfold mbind at 1, M_bind at 1.
    destruct (cargar_semana_efecto archivo w) as [Hf Hcaso].
    destruct (cargar_semana disco archivo w) as [[cargado|e] w1]; [|discriminate].
    cbn [fst snd] in Hf, Hcaso. intros Hr.
    apply IH in Hr as (Hn & Hf' & Hl1 & Hl2 & Hpos).
    destruct Hcaso as [[Hno Ha] | [[= ->] [d Ha]]].
    + destruct cargado; [done|]. rewrite Ha in *. cbn [length].
      split; [lia|]. split; [congruence|]. split; [lia|]. split; [lia|]. done.
    + rewrite Ha in *. pose proof (length_poner d (almacen w)) as Hp.
      pose proof (poner_no_vacio d (almacen w)) as Hp'.
      destruct (documento_de (doc_id d) (almacen w)); cbn [length].
      all: split; [lia|]; split; [congruence|]; split; [lia|]; split; [lia|].
      all: intros _; lia.
Qed.

Lemma cargar_archivos_invalido (archivos : list string) (malo contenido : string)
    (e : excepcion) (k : Z) (w : Mundo) :
  malo ∈ archivos ->
  leer disco malo = Some contenido ->
  Json.loads contenido = Lanza e ->
  exists e' w', cargar_archivos disco archivos k w = (Lanza e', w').
Proof.
  intros Hin Hl Hj. revert k w.
  induction archivos as [|archivo resto IH]; intros k w; [by apply elem_of_nil in Hin|].
  cbn [cargar_archivos]. unfold mbind at 1, M_bind at 1.
  apply elem_of_cons in Hin as [<-|Hin].
  - unfold cargar_semana, mbind, M_bind, elevar. rewrite Hl, Hj. eauto.
  - destruct (cargar_semana disco archivo w) as [[cargado|e'] w1]; [by apply IH | eauto].
Qed.

(** X16. One file that is not valid JSON stops the bulk load: when the
    folder lists a file whose text [json.load] rejects,
    [cargar_todas_las_semanas] does not return a count, it raises. *)
Theorem archivo_invalido_detiene_la_carga
    (archivos : list string) (malo contenido : string) (e : excepcion) (w : Mundo) :
  glob_json disco = Some archivos ->
  malo ∈ archivos ->
  leer disco malo = Some contenido ->
  Json.loads contenido = Lanza e ->
  exists e' w', cargar_todas_las_semanas disco w = (Lanza e', w').
Proof.
  intros Hg Hin Hl Hj. unfold cargar_todas_las_semanas. rewrite Hg.
  destruct archivos as [|a archivos]; [by apply elem_of_nil in Hin|].
  eapply cargar_archivos_invalido; [|exact Hl|exact Hj].
  by rewrite merge_sort_Permutation.
Qed.

Lemma cargar_todas_efecto (n : Z) (w w' : Mundo) :
  cargar_todas_las_semanas disco w = (Ok n, w') ->
  0 <= n <= Z.of_nat (length (default [] (glob_json disco)))
  /\ fallo_chroma w' = fallo_chroma w
  /\ (length (almacen w) <= length (almacen w'))%nat
  /\ Z.of_nat (length (almacen w')) <= Z.of_nat (length (almacen w)) + n
  /\ (0 < n -> (0 < length (almacen w'))%nat).
Proof.
  unfold cargar_todas_las_semanas.
  destruct (glob_json disco) as [[|a archivos]|] eqn:Hg; cbn [from_option id].
  - intros [= <- <-]. cbn. repeat split; lia.
  - intros Hr. apply cargar_archivos_efecto in Hr as (Hn & Hf & Hl1 & Hl2 & Hpos).
    rewrite (Permutation_length (merge_sort_Permutation _ _)) in Hn.
    split; [lia|]. split; [done|]. split; [done|]. split; [lia|]. done.
  - intros [= <- <-]. cbn. repeat split; lia.
Qed.

(** X17. The count the bulk load returns: not negative, at most the number
    of files the folder lists; the store loses no document and gains at
    most one per file counted; and when at least one file was counted the
    store is not empty afterwards. *)
Theorem carga_total_acotada (n : Z) (w w' : Mundo) :
  cargar_todas_las_semanas disco w = (Ok n, w') ->
  0 <= n <= Z.of_nat (length (default [] (glob_json disco)))
  /\ fallo_chroma w' = fallo_chroma w
  /\ (length (almacen w) <= length (almacen w'))%nat
  /\ Z.of_nat (length (almacen w')) <= Z.of_nat (length (almacen w)) + n
  /\ (0 < n -> (0 < length (almacen w'))%nat).
Proof. apply cargar_todas_efecto. Qed.

(** X18. The automatic initialisation.  When it returns, the store was
    reachable; a store that had documents is left as it was and the answer
    is 0; an answer above 0 means that the store was empty, that it now
    holds documents and that the collection can be opened for retrieval. *)
Theorem inicializacion_si_vacia (n : Z) (w w' : Mundo) :
  inicializar_si_vacia disco w = (Ok n, w') ->
  fallo_chroma w = None
  /\ 0 <= n
  /\ ((0 < length (almacen w))%nat -> n = 0 /\ almacen w' = almacen w)
  /\ (0 < n -> almacen w = [] /\ (obtener_coleccion w').1 = Ok ()).
Proof.
  unfold inicializar_si_vacia, inicializar_chroma, mbind, M_bind, mret, M_ret,
    Chroma.conectar, Chroma.count.
  destruct (fallo_chroma w) as [e|] eqn:Hf; [discriminate|].
  cbn [fallo_chroma registrar almacen]. rewrite ?Hf.
  cbn [fallo_chroma registrar almacen]. rewrite ?Hf.
  destruct (0 <? Z.of_nat (length (almacen w))) eqn:Hpos.
  - cbn [fallo_chroma registrar almacen]. rewrite ?Hf. intros [= <- <-].
    split; [done|]. split; [lia|]. split; [done|]. lia.
  - apply Z.ltb_ge in Hpos.
    destruct (cargar_todas_las_semanas disco _) as [[total|e] w1] eqn:Hc; [|discriminate].
    intros [= <- <-].
    apply cargar_todas_efecto in Hc as (Hn & Hf' & _ & _ & Hne).
    cbn [fallo_chroma registrar almacen] in *.
    split; [done|]. split; [lia|]. split; [lia|]. intros Htotal.
    split; [destruct (almacen w); [done | cbn in Hpos; lia]|].
    rewrite obtener_coleccion_ok; [done | congruence | by apply Hne].
Qed.

End PropiedadesIngesta.

(** ** The classifier and the completion parser *)

Section PropiedadesClasificador.
Context `{Runtime}.

(** X19. The modification keywords decide nothing: the intent is "aprobar"
    when an approval keyword occurs in the lower-cased message, and
    otherwise "editar" or "generar" according to the presence of a routine
    alone. *)
Theorem palabras_editar_no_deciden (mensaje : string) (tiene_rutina : bool) :
  detectar_intencion mensaje tiene_rutina
  = if alguna_en palabras_aprobar (str_lower mensaje) then "aprobar"
    else if tiene_rutina then "editar" else "generar".
Proof.
  unfold detectar_intencion.
  destruct (alguna_en palabras_aprobar (str_lower mensaje)); [done|].
  by destruct tiene_rutina, (alguna_en palabras_editar (str_lower mensaje)).
Qed.

End PropiedadesClasificador.

Lemma buscar_patron_sufijo (coincide : string -> option string) (s g : string) :
  buscar_patron coincide s = Some g ->
  exists pre s', s = pre +:+ s' /\ coincide s' = Some g.
Proof.
  induction s as [|c s IH]; cbn [buscar_patron].
  - destruct (coincide "") eqn:E; [|discriminate]. intros [= <-]. by exists "", "".
  - destruct (coincide (String c s)) eqn:E.
    + intros [= <-]. by exists "", (String c s).
    + intros (pre & s' & -> & Hs')%IH. by exists (String c pre), s'.
Qed.

Lemma primera_some {A B} (f : A -> option B) (l : list A) (y : B) :
  primera f l = Some y -> exists x, x ∈ l /\ f x = Some y.
Proof.
  induction l as [|x l IH]; cbn [primera]; [discriminate|].
  destruct (f x) eqn:E.
  - intros [= <-]. exists x. split; [apply list_elem_of_here | done].
  - intros (x' & Hin & Hx')%IH. exists x'. split; [by apply list_elem_of_further | done].
Qed.

Lemma desde_sufijo (n : nat) (s : string) : exists pre, s = pre +:+ Str.desde n s.
Proof.
  revert s. induction n as [|n IH]; intros s; [by exists ""|].
  destruct s as [|c s]; cbn [Str.desde]; [by exists ""|].
  destruct (IH s) as [pre Hpre]. exists (String c pre). simpl_app. by rewrite <- Hpre.
Qed.

Lemma app_asociativa (a b c : string) : (a +:+ b) +:+ c = a +:+ b +:+ c.
Proof. induction a as [|x a IH]; simpl_app; [done | by rewrite IH]. Qed.

Lemma tras_blancos_opciones_sufijo (fuel : nat) (s x : string) :
  x ∈ tras_blancos_opciones fuel s -> exists pre, s = pre +:+ x.
Proof.
  revert s. induction fuel as [|fuel IH]; intros s; cbn [tras_blancos_opciones].
  - intros ->%list_elem_of_singleton. by exists "".
  - unfold Str.sin_espacio_inicial.
    destruct (List.find _ Str.espacios) as [w|]; cbn [fmap option_fmap option_map].
    + intros [Hin | ->%list_elem_of_singleton]%elem_of_app; [|by exists ""].
      apply IH in Hin as [pre Hpre].
      destruct (desde_sufijo (String.length w) s) as [pre' Hpre'].
      exists (pre' +:+ pre). rewrite app_asociativa, <- Hpre. exact Hpre'.
    + intros ->%list_elem_of_singleton. by exists "".
Qed.

Lemma buscar_contiene (p s : string) (n : nat) :
  Str.buscar p s = Some n -> Str.contiene p s = true.
Proof.
  revert n. induction s as [|c s IH]; intros n; cbn [Str.buscar Str.contiene].
  - destruct (String.prefix p ""); [done | discriminate].
  - destruct (String.prefix p (String c s)); [done|]. cbn [orb].
    destruct (Str.buscar p s) as [m|]; [|discriminate]. intros _. by apply (IH m).
Qed.

Lemma contiene_sufijo (p pre s : string) :
  Str.contiene p s = true -> Str.contiene p (pre +:+ s) = true.
Proof.
  intros (a & b & ->)%contiene_spec. apply contiene_spec.
  exists (pre +:+ a), b. by rewrite app_asociativa.
Qed.

Lemma extraer_mensaje_marcadores (cruda g : string) :
  extraer_mensaje cruda = Some g ->
  Str.contiene "MENSAJE:" cruda = true /\ Str.contiene "JSON:" cruda = true.
Proof.
  unfold extraer_mensaje. intros (pre & s' & -> & Hc)%buscar_patron_sufijo.
  unfold coincide_mensaje in Hc.
  destruct (String.prefix "MENSAJE:" s') eqn:Hp; [|discriminate].
  split.
  - apply contiene_sufijo. apply prefix_spec in Hp as [post ->].
    apply contiene_spec. by exists "", post.
  - apply contiene_sufijo.
    apply primera_some in Hc as (x & Hin & Hx).
    apply tras_blancos_opciones_sufijo in Hin as [pre1 Hpre1].
    destruct (desde_sufijo 8 s') as [pre2 Hpre2].
    rewrite Hpre2, Hpre1, <- app_asociativa. apply contiene_sufijo.
    unfold hasta_marcador_json in Hx. destruct x as [|c r]; [discriminate|].
    destruct (Str.buscar "JSON:" r) as [n|] eqn:Hb; [|discriminate].
    apply (contiene_sufijo _ (String c "")). by apply buscar_contiene in Hb.
Qed.

(** X20. A completion that lacks one of the two markers is refused with
    the error of the missing message: not only when the text [MENSAJE:] is
    absent, also when [MENSAJE:] is there and the text [JSON:] is not. *)
Theorem respuesta_sin_marcadores (cruda : string) :
  Str.contiene "MENSAJE:" cruda = false \/ Str.contiene "JSON:" cruda = false ->
  parsear_respuesta_llm cruda
  = Lanza (ValueError "No se encontró el campo MENSAJE en la respuesta del LLM").
Proof.
  intros Hno. unfold parsear_respuesta_llm.
  destruct (extraer_mensaje cruda) as [g|] eqn:Hg; [|done].
  apply extraer_mensaje_marcadores in Hg as [H1 H2].
  destruct Hno as [Hno|Hno]; congruence.
Qed.

(** X21. What [parsear_respuesta_llm] returns.  When it returns, the
    completion holds both markers and the routine is a [dict]: a payload
    that is a list, a number, a string or [null] never comes out. *)
Theorem parseo_devuelve_objeto (cruda mensaje : string) (rutina : json) :
  parsear_respuesta_llm cruda = Ok (mensaje, rutina) ->
  Str.contiene "MENSAJE:" cruda = true
  /\ Str.contiene "JSON:" cruda = true
  /\ exists campos, rutina = JObj campos.
Proof.
  intros Hp.
  split; [|split]; [| |by eapply parsear_respuesta_llm_objeto].
  all: unfold parsear_respuesta_llm in Hp.
  all: destruct (extraer_mensaje cruda) as [g|] eqn:Hg; [|discriminate].
  all: by apply extraer_mensaje_marcadores in Hg as [H1 H2].
Qed.

(** ** The search query *)

Lemma prefix_app (p s : string) : String.prefix p (p +:+ s) = true.
Proof. apply prefix_spec. by exists s. Qed.

(** X22. The text of the query always starts with the base phrase, and an
    argument that is absent, an empty text or an empty list adds nothing to
    it: with no argument present the query is the base phrase alone. *)
Theorem construir_query_base
    (objetivo : option string) (evitar incluir : option (list string))
    (intensidad : option string) :
  String.prefix "rutina de crossfit semanal"
    (construir_query objetivo evitar incluir intensidad) = true
  /\ (texto_presente objetivo = None -> lista_presente evitar = None ->
      lista_presente incluir = None -> texto_presente intensidad = None ->
      construir_query objetivo evitar incluir intensidad = "rutina de crossfit semanal").
Proof.
  unfold construir_query. split.
  - destruct (texto_presente objetivo), (lista_presente incluir),
      (lista_presente evitar), (texto_presente intensidad);
      cbn [app Str.join]; first [apply prefix_app | by apply prefix_spec; exists ""].
  - by intros -> -> -> ->.
Qed.

(** ** White space at the ends of a text *)

Lemma longitud_app (a b : string) :
  String.length (a +:+ b) = (String.length a + String.length b)%nat.
Proof. induction a as [|c a IH]; simpl_app; [done|]. cbn [String.length]. by rewrite IH. Qed.

Lemma desde_app (w s : string) : Str.desde (String.length w) (w +:+ s) = s.
Proof. induction w as [|c w IH]; simpl_app; [done|]. exact IH. Qed.

Lemma blanco_sin_byte (w : string) (c : ascii) :
  w ∈ Str.espacios -> byte_de_blanco c = false ->
  Forall (fun x => x <> c) (String.list_ascii_of_string w).
Proof.
  intros Hw Hc. apply Forall_forall. intros x Hx ->.
  unfold byte_de_blanco in Hc.
  assert (existsb (fun w => existsb (Ascii.eqb c) (String.list_ascii_of_string w))
            Str.espacios = true) as Hc'; [|congruence].
  apply existsb_exists. exists w. split; [by apply list_elem_of_In|].
  apply existsb_exists. exists c. split; [by apply list_elem_of_In|].
  apply Ascii.eqb_refl.
Qed.

(** A white-space character at the head of a text that holds a byte of no
    white space lies before that byte. *)
Lemma prefijo_antes_del_byte (w a b : string) (c : ascii) :
  Forall (fun x => x <> c) (String.list_ascii_of_string w) ->
  String.prefix w (a +:+ String c b) = true ->
  exists a', a = w +:+ a'.
Proof.
  revert a. induction w as [|x w IH]; intros a Hw Hp; [by exists a|].
  cbn [String.list_ascii_of_string] in Hw. apply Forall_cons in Hw as [Hx Hw].
  destruct a as [|y a]; simpl_app; cbn [String.prefix] in Hp.
  - destruct (ascii_dec x c); [done | discriminate].
  - destruct (ascii_dec x y) as [->|]; [|discriminate].
    destruct (IH a Hw Hp) as [a' ->]. by exists a'.
Qed.

Lemma lstrip_con_byte (c : ascii) (fuel : nat) (a b : string) :
  byte_de_blanco c = false ->
  exists a', Str.lstrip_con Str.espacios fuel (a +:+ String c b) = a' +:+ String c b
             /\ (String.length a' <= String.length a)%nat.
Proof.
  intros Hc. revert a. induction fuel as [|fuel IH]; intros a; cbn [Str.lstrip_con].
  - by exists a.
  - unfold Str.sin_espacio_inicial.
    destruct (List.find _ Str.espacios) as [w|] eqn:Hw;
      cbn [fmap option_fmap option_map]; [|by exists a].
    apply find_some in Hw as [Hin Hp].
    destruct (prefijo_antes_del_byte w a b c) as [a1 ->]; [|done|].
    { apply blanco_sin_byte; [by apply list_elem_of_In | done]. }
    rewrite app_asociativa, desde_app.
    destruct (IH a1) as (a' & -> & Hl). exists a'. split; [done|].
    rewrite longitud_app. lia.
Qed.

Lemma lstrip_byte (c : ascii) (b : string) :
  byte_de_blanco c = false -> Str.lstrip (String c b) = String c b.
Proof.
  intros Hc. unfold Str.lstrip.
  destruct (lstrip_con_byte c (String.length (String c b)) "" b Hc) as (a' & Ha & Hl).
  simpl_app. rewrite Ha. destruct a'; [done | cbn in Hl; lia].
Qed.

Lemma solo_espacios_byte (c : ascii) (a b : string) :
  byte_de_blanco c = false -> Str.solo_espacios (a +:+ String c b) = false.
Proof.
  intros Hc. unfold Str.solo_espacios, Str.lstrip.
  destruct (lstrip_con_byte c (String.length (a +:+ String c b)) a b Hc) as (a' & -> & _).
  by destruct a'.
Qed.

(** What [rstrip] leaves of a text that ends with a byte of no white space,
    followed by white space only. *)
Lemma rstrip_byte (c : ascii) (a ws : string) :
  byte_de_blanco c = false -> Str.solo_espacios ws = true ->
  Str.rstrip (a +:+ String c ws) = a +:+ String c "".
Proof.
  intros Hc Hws.
  assert (Str.rstrip ws = "") as Hr.
  { destruct ws as [|x ws]; [done|]. cbn [Str.rstrip]. by rewrite Hws. }
  induction a as [|x a IH]; simpl_app; cbn [Str.rstrip].
  - pose proof (solo_espacios_byte c "" ws Hc) as Hs. rewrite app_vacia in Hs.
    by rewrite Hs, Hr.
  - pose proof (solo_espacios_byte c (String x a) ws Hc) as Hs. rewrite app_cons in Hs.
    by rewrite Hs, IH.
Qed.

Lemma strip_entre_bytes (c d : ascii) (a ws : string) :
  byte_de_blanco c = false -> byte_de_blanco d = false -> Str.solo_espacios ws = true ->
  Str.strip (String c (a +:+ String d ws)) = String c (a +:+ String d "").
Proof.
  intros Hc Hd Hws. unfold Str.strip. rewrite lstrip_byte by done.
  pose proof (rstrip_byte d (String c a) ws Hd Hws) as Hr.
  by rewrite !app_cons in Hr.
Qed.

Lemma strip_un_byte (c : ascii) (ws : string) :
  byte_de_blanco c = false -> Str.solo_espacios ws = true ->
  Str.strip (String c ws) = String c "".
Proof.
  intros Hc Hws. unfold Str.strip. rewrite lstrip_byte by done.
  pose proof (rstrip_byte c "" ws Hc Hws) as Hr.
  by rewrite !app_vacia in Hr.
Qed.

(** ** The answer of the model to a routine in free text *)

Lemma ultimo_distinto (a a' : string) (c c' : ascii) :
  c <> c' -> a +:+ String c "" <> a' +:+ String c' "".
Proof.
  intros Hc. revert a'. induction a as [|x a IH]; intros [|y a']; simpl_app.
  - congruence.
  - destruct a'; simpl_app; discriminate.
  - destruct a; simpl_app; discriminate.
  - intros [= _ Heq]. by apply (IH a').
Qed.

Lemma quitar_cerca_final_eq (s : string) :
  quitar_cerca_final s
  = if String.eqb (tras_blancos s) "```" then ""
    else if String.eqb (tras_blancos s) ("```" +:+ nl) then nl
    else match s with
         | EmptyString => EmptyString
         | String c s' => String c (quitar_cerca_final s')
         end.
Proof. by destruct s. Qed.

Lemma byte_llave_abre : byte_de_blanco "{" = false.
Proof. reflexivity. Qed.

Lemma byte_llave_cierra : byte_de_blanco "}" = false.
Proof. reflexivity. Qed.

Lemma byte_acento_grave : byte_de_blanco "`" = false.
Proof. reflexivity. Qed.

(** A text that ends with a closing brace has no closing fence to
    remove. *)
Lemma quitar_cerca_final_llave (a : string) :
  quitar_cerca_final (a +:+ "}") = a +:+ "}".
Proof.
  assert (forall a, String.eqb (tras_blancos (a +:+ "}")) "```" = false
                    /\ String.eqb (tras_blancos (a +:+ "}")) ("```" +:+ nl) = false) as Hno.
  { intros a0. unfold tras_blancos, Str.lstrip.
    destruct (lstrip_con_byte "}" (String.length (a0 +:+ "}")) a0 "" byte_llave_cierra)
      as (a' & -> & _).
    split; apply String.eqb_neq.
    - by apply (ultimo_distinto a' "``" "}" "`").
    - by apply (ultimo_distinto a' "```" "}" (ascii_of_N 10)). }
  induction a as [|x a IH].
  - rewrite quitar_cerca_final_eq. destruct (Hno "") as [-> ->].
    simpl_app. rewrite quitar_cerca_final_eq. reflexivity.
  - rewrite quitar_cerca_final_eq. destruct (Hno (String x a)) as [-> ->].
    simpl_app. by rewrite IH.
Qed.

(** The closing fence after a text that ends with a closing brace is
    removed, with the line feed before it. *)
Lemma quitar_cerca_final_cercado (a : string) :
  quitar_cerca_final (a +:+ "}" +:+ nl +:+ "```") = a +:+ "}".
Proof.
  assert (forall a, String.eqb (tras_blancos (a +:+ "}" +:+ nl +:+ "```")) "```" = false
                    /\ String.eqb (tras_blancos (a +:+ "}" +:+ nl +:+ "```")) ("```" +:+ nl)
                       = false) as Hno.
  { intros a0.
    change (a0 +:+ "}" +:+ nl +:+ "```") with (a0 +:+ String "}" (nl +:+ "```")).
    unfold tras_blancos, Str.lstrip.
    destruct (lstrip_con_byte "}" (String.length (a0 +:+ String "}" (nl +:+ "```"))) a0
                (nl +:+ "```") byte_llave_cierra) as (a' & -> & _).
    split; apply String.eqb_neq; intros Heq; apply (f_equal String.length) in Heq;
      rewrite longitud_app in Heq;
      change (String.length (String "}" (nl +:+ "```"))) with 5%nat in Heq;
      [ change (String.length "```") with 3%nat in Heq
      | change (String.length ("```" +:+ nl)) with 4%nat in Heq ]; lia. }
  induction a as [|x a IH].
  - rewrite quitar_cerca_final_eq. destruct (Hno "") as [-> ->].
    simpl_app. rewrite quitar_cerca_final_eq. reflexivity.
  - rewrite quitar_cerca_final_eq. destruct (Hno (String x a)) as [-> ->].
    simpl_app. by rewrite IH.
Qed.

Lemma solo_espacios_strip (s : string) :
  Str.solo_espacios s = true -> Str.strip s = "".
Proof.
  unfold Str.solo_espacios, Str.strip. by destruct (Str.lstrip s).
Qed.

Lemma lstrip_salto (c : ascii) (b : string) :
  byte_de_blanco c = false ->
  Str.lstrip (String (ascii_of_N 10) (String c b)) = String c b.
Proof.
  intros Hc. unfold Str.lstrip.
  change (String.length (String (ascii_of_N 10) (String c b)))
    with (S (S (String.length b))).
  change (Str.lstrip_con Str.espacios (S (S (String.length b)))
            (String (ascii_of_N 10) (String c b)))
    with (Str.lstrip_con Str.espacios (S (String.length b)) (String c b)).
  destruct (lstrip_con_byte c (S (String.length b)) "" b Hc) as (a' & Ha & Hl).
  rewrite app_vacia in Ha. rewrite Ha. destruct a'; [done | cbn in Hl; lia].
Qed.

Lemma strip_con_blancos (c d : ascii) (a ws : string) :
  byte_de_blanco c = false -> byte_de_blanco d = false -> Str.solo_espacios ws = true ->
  Str.strip (String c (a +:+ String d "") +:+ ws) = String c (a +:+ String d "").
Proof.
  intros Hc Hd Hws. rewrite app_cons, app_asociativa, app_cons, app_vacia.
  by apply strip_entre_bytes.
Qed.

Lemma strip_llaves (cuerpo ws : string) :
  Str.solo_espacios ws = true ->
  Str.strip (entre_llaves cuerpo +:+ ws) = entre_llaves cuerpo.
Proof.
  intros Hws. unfold entre_llaves.
  by apply (strip_con_blancos "{" "}" cuerpo ws byte_llave_abre byte_llave_cierra).
Qed.

Lemma cercado_forma (etiqueta p : string) :
  cercado etiqueta p
  = String "`"%char (("``" +:+ etiqueta +:+ nl +:+ p +:+ nl +:+ "``") +:+ String "`"%char "").
Proof.
  unfold cercado. rewrite !app_asociativa. by autorewrite with cadenas.
Qed.

Lemma strip_cercado (etiqueta p ws : string) :
  Str.solo_espacios ws = true ->
  Str.strip (cercado etiqueta p +:+ ws) = cercado etiqueta p.
Proof.
  intros Hws. rewrite cercado_forma.
  by apply (strip_con_blancos "`" "`" _ ws byte_acento_grave byte_acento_grave).
Qed.

Lemma quitar_cerca_inicial_json (cuerpo : string) :
  quitar_cerca_inicial (cercado "json" (entre_llaves cuerpo))
  = entre_llaves cuerpo +:+ nl +:+ "```".
Proof.
  unfold cercado, quitar_cerca_inicial, tras_blancos, entre_llaves, nl.
  autorewrite with cadenas. cbn [String.prefix Str.desde].
  repeat (destruct (ascii_dec _ _) as [_|Hne]; [|by destruct Hne]).
  cbn [Str.desde]. by apply lstrip_salto, byte_llave_abre.
Qed.

Lemma quitar_cerca_inicial_llano (cuerpo : string) :
  quitar_cerca_inicial (cercado "" (entre_llaves cuerpo))
  = entre_llaves cuerpo +:+ nl +:+ "```".
Proof.
  unfold cercado, quitar_cerca_inicial, tras_blancos, entre_llaves, nl.
  autorewrite with cadenas. cbn [String.prefix Str.desde].
  repeat (destruct (ascii_dec _ _) as [He|Hne]; [try discriminate He|try by destruct Hne]).
  cbn [Str.desde]. by apply lstrip_salto, byte_llave_abre.
Qed.

Lemma quitar_cerca_final_objeto (cuerpo : string) :
  quitar_cerca_final (entre_llaves cuerpo +:+ nl +:+ "```") = entre_llaves cuerpo.
Proof.
  unfold entre_llaves.
  change (String "{" (cuerpo +:+ "}") +:+ nl +:+ "```")
    with ((String "{" cuerpo +:+ "}") +:+ nl +:+ "```").
  rewrite app_asociativa. apply (quitar_cerca_final_cercado (String "{" cuerpo)).
Qed.

Lemma quitar_cerca_objeto_llano (cuerpo : string) :
  quitar_cerca_final (quitar_cerca_inicial (entre_llaves cuerpo)) = entre_llaves cuerpo.
Proof.
  unfold entre_llaves.
  change (quitar_cerca_inicial (String "{" (cuerpo +:+ "}")))
    with (String "{"%char (cuerpo +:+ "}")).
  apply (quitar_cerca_final_llave (String "{" cuerpo)).
Qed.

Section PropiedadesParseo.
Variable completar_groq : string -> resultado string.

(** X23. An answer that is white space only, or a code fence with nothing
    in it, is refused as an empty answer. *)
Theorem respuesta_vacia (texto_rutina respuesta : string) :
  completar_groq ("Convertí esta rutina al formato JSON indicado:"
                  +:+ nl +:+ nl +:+ texto_rutina) = Ok respuesta ->
  Str.solo_espacios respuesta = true
  \/ respuesta = "```json" +:+ nl +:+ "```"
  \/ respuesta = "```" +:+ nl +:+ "```" ->
  parsear_rutina_con_llm completar_groq texto_rutina
  = Lanza (ValueError "El modelo devolvió una respuesta vacía").
Proof.
  intros Hc Hr. unfold parsear_rutina_con_llm. rewrite Hc. paso_res.
  destruct Hr as [Hr | [-> | ->]]; [|reflexivity|reflexivity].
  by rewrite (solo_espacios_strip _ Hr).
Qed.

(** X24. The code fences are transparent.  A JSON object answered bare,
    between the fences of a block tagged json or between plain fences,
    with white space after it or not, is decoded as the bare object is:
    the result is that of [json.loads] on the repaired text of the
    object. *)
Theorem cerca_transparente (texto_rutina cuerpo ws respuesta : string) :
  completar_groq ("Convertí esta rutina al formato JSON indicado:"
                  +:+ nl +:+ nl +:+ texto_rutina) = Ok respuesta ->
  Str.solo_espacios ws = true ->
  respuesta = entre_llaves cuerpo +:+ ws
  \/ respuesta = cercado "json" (entre_llaves cuerpo) +:+ ws
  \/ respuesta = cercado "" (entre_llaves cuerpo) +:+ ws ->
  parsear_rutina_con_llm completar_groq texto_rutina
  = Json.loads (reparar_escapes (entre_llaves cuerpo)).
Proof.
  intros Hc Hws Hr. unfold parsear_rutina_con_llm. rewrite Hc. paso_res.
  assert (quitar_cerca_final
            (quitar_cerca_inicial (Str.strip respuesta)) = entre_llaves cuerpo) as ->.
  { destruct Hr as [-> | [-> | ->]].
    - rewrite strip_llaves by done. apply quitar_cerca_objeto_llano.
    - rewrite strip_cercado by done.
      rewrite quitar_cerca_inicial_json. apply quitar_cerca_final_objeto.
    - rewrite strip_cercado by done.
      rewrite quitar_cerca_inicial_llano. apply quitar_cerca_final_objeto. }
  assert (Str.strip (entre_llaves cuerpo) = entre_llaves cuerpo) as ->.
  { pose proof (strip_llaves cuerpo "" eq_refl) as Hs. by rewrite app_vacia_r in Hs. }
  unfold entre_llaves. by rewrite reparar_escapes_llave.
Qed.

End PropiedadesParseo.

(** ** A completion in the format asked for *)

Lemma hasta_app (a b : string) : Str.hasta (String.length a) (a +:+ b) = a.
Proof. induction a as [|c a IH]; simpl_app; cbn [String.length Str.hasta]; [by destruct b | by rewrite IH]. Qed.

Lemma sin_espacio_inicial_byte (c : ascii) (b : string) :
  byte_de_blanco c = false -> Str.sin_espacio_inicial Str.espacios (String c b) = None.
Proof.
  intros Hc. unfold Str.sin_espacio_inicial.
  destruct (List.find _ Str.espacios) as [w|] eqn:Hw; [|done].
  apply find_some in Hw as [Hin Hp]. exfalso.
  pose proof (blanco_sin_byte w c (proj2 (list_elem_of_In _ _) Hin) Hc) as Hb.
  destruct w as [|x w].
  - vm_compute in Hin. repeat (destruct Hin as [Hin|Hin]; [discriminate Hin|]). done.
  - cbn [String.prefix] in Hp. destruct (ascii_dec x c) as [->|]; [|discriminate].
    cbn [String.list_ascii_of_string] in Hb. by apply Forall_cons in Hb as [Hb _].
Qed.

Lemma lstrip_sufijo (s : string) : exists pre, s = pre +:+ Str.lstrip s.
Proof.
  unfold Str.lstrip. generalize (String.length s) as fuel. intros fuel. revert s.
  induction fuel as [|fuel IH]; intros s; cbn [Str.lstrip_con]; [by exists ""|].
  unfold Str.sin_espacio_inicial.
  destruct (List.find _ Str.espacios) as [w|]; cbn [fmap option_fmap option_map];
    [|by exists ""].
  destruct (desde_sufijo (String.length w) s) as [pre1 Hpre1].
  destruct (IH (Str.desde (String.length w) s)) as [pre2 Hpre2].
  exists (pre1 +:+ pre2). rewrite app_asociativa, <- Hpre2. exact Hpre1.
Qed.

(** The marker is not at the head of a text that a line feed follows
    unless it is at the head of the text itself. *)
Lemma marcador_antes_del_salto (s y : string) :
  String.prefix "JSON:" s = false ->
  String.prefix "JSON:" (s +:+ String (ascii_of_N 10) y) = false.
Proof.
  destruct s as [|c1 [|c2 [|c3 [|c4 [|c5 s]]]]];
    rewrite ?app_cons, ?app_vacia; cbn [String.prefix];
    repeat (destruct (ascii_dec _ _) as [?|?]; try done; try discriminate).
  by destruct s.
Qed.

Lemma sin_marcador_salto (y : string) :
  String.prefix "JSON:" (String (ascii_of_N 10) y) = false.
Proof. reflexivity. Qed.

Lemma contiene_cons (p : string) (c : ascii) (s : string) :
  Str.contiene p (String c s) = false ->
  String.prefix p (String c s) = false /\ Str.contiene p s = false.
Proof. cbn [Str.contiene]. by intros [? ?]%orb_false_iff. Qed.

Lemma buscar_marcador (r y : string) :
  Str.contiene "JSON:" r = false ->
  Str.buscar "JSON:" (r +:+ nl +:+ nl +:+ "JSON:" +:+ y) = Some (String.length r + 2)%nat.
Proof.
  induction r as [|x r IH]; intros Hr.
  - rewrite app_vacia. unfold nl. rewrite !app_cons, !app_vacia. cbn [Str.buscar].
    rewrite !sin_marcador_salto. change (String "J" (String "S" (String "O" (String "N" (String ":" y)))))
      with ("JSON:" +:+ y). by rewrite prefix_app.
  - apply contiene_cons in Hr as [Hp Hr]. rewrite app_cons. cbn [Str.buscar].
    pose proof (marcador_antes_del_salto (String x r) (nl +:+ "JSON:" +:+ y) Hp) as Hm.
    rewrite app_cons in Hm. unfold nl at 1. rewrite app_cons, app_vacia, Hm.
    change (String (ascii_of_N 10) (nl +:+ "JSON:" +:+ y)) with (nl +:+ nl +:+ "JSON:" +:+ y).
    by rewrite (IH Hr).
Qed.

Lemma buscar_patron_salta (coincide : string -> option string) (t y : string) :
  (forall s, String.prefix "JSON:" s = false -> coincide s = None) ->
  Str.contiene "JSON:" t = false ->
  buscar_patron coincide (t +:+ nl +:+ nl +:+ "JSON:" +:+ y)
  = buscar_patron coincide ("JSON:" +:+ y).
Proof.
  intros Hco. induction t as [|x t IH]; intros Ht.
  - rewrite app_vacia. unfold nl. rewrite !app_cons, !app_vacia.
    cbn [buscar_patron]. by rewrite !(Hco _ (sin_marcador_salto _)).
  - apply contiene_cons in Ht as [Hp Ht]. rewrite app_cons. cbn [buscar_patron].
    pose proof (marcador_antes_del_salto (String x t) (nl +:+ "JSON:" +:+ y) Hp) as Hm.
    rewrite app_cons in Hm.
    change (nl +:+ nl +:+ "JSON:" +:+ y)
      with (String (ascii_of_N 10) (nl +:+ "JSON:" +:+ y)) at 1.
    rewrite (Hco _ Hm).
    change (String (ascii_of_N 10) (nl +:+ "JSON:" +:+ y)) with (nl +:+ nl +:+ "JSON:" +:+ y).
    by apply IH.
Qed.

Lemma coincide_json_suelto_sin_marcador (s : string) :
  String.prefix "JSON:" s = false -> coincide_json_suelto s = None.
Proof. intros Hp. unfold coincide_json_suelto. by rewrite Hp. Qed.

Lemma coincide_json_cercado_cerca (s g : string) :
  coincide_json_cercado s = Some g -> Str.contiene "```" s = true.
Proof.
  unfold coincide_json_cercado.
  destruct (String.prefix "JSON:" s); [|discriminate].
  destruct (String.prefix "```" (tras_blancos (Str.desde 5 s))) eqn:Hp; [|discriminate].
  intros _. apply prefix_spec in Hp as [post Hpost].
  destruct (desde_sufijo 5 s) as [pre1 Hpre1].
  destruct (lstrip_sufijo (Str.desde 5 s)) as [pre2 Hpre2].
  unfold tras_blancos in Hpost. rewrite Hpost in Hpre2. rewrite Hpre2 in Hpre1.
  apply contiene_spec. exists (pre1 +:+ pre2), post. by rewrite app_asociativa.
Qed.

Lemma sin_cerca_no_cercado (cruda : string) :
  Str.contiene "```" cruda = false -> buscar_patron coincide_json_cercado cruda = None.
Proof.
  intros Hno. destruct (buscar_patron coincide_json_cercado cruda) as [g|] eqn:Hb; [|done].
  apply buscar_patron_sufijo in Hb as (pre & s' & -> & Hs').
  apply coincide_json_cercado_cerca in Hs'.
  by rewrite (contiene_sufijo _ pre _ Hs') in Hno.
Qed.

Lemma ultima_llave_final (b : string) :
  ultima_llave (b +:+ "}") = Some (String.length b).
Proof.
  induction b as [|c b IH]; [done|].
  rewrite app_cons. cbn [ultima_llave String.length]. by rewrite IH.
Qed.

Lemma buscar_patron_eq (coincide : string -> option string) (s : string) :
  buscar_patron coincide s
  = match coincide s with
    | Some g => Some g
    | None => match s with
              | EmptyString => None
              | String _ r => buscar_patron coincide r
              end
    end.
Proof. by destruct s. Qed.

Lemma tras_blancos_opciones_byte (c : ascii) (z : string) (fuel : nat) :
  byte_de_blanco c = false ->
  tras_blancos_opciones fuel (String c z) = [String c z].
Proof.
  intros Hc. destruct fuel as [|fuel]; [done|].
  cbn [tras_blancos_opciones]. by rewrite sin_espacio_inicial_byte.
Qed.

(** The search for the message in a text that starts with its marker, a
    space and a character that is no white space. *)
Lemma extraer_mensaje_cabeza (c : ascii) (z g : string) :
  byte_de_blanco c = false ->
  hasta_marcador_json (String c z) = Some g ->
  extraer_mensaje ("MENSAJE: " +:+ String c z) = Some g.
Proof.
  intros Hc Hg. unfold extraer_mensaje. rewrite buscar_patron_eq.
  assert (coincide_mensaje ("MENSAJE: " +:+ String c z) = Some g) as ->; [|done].
  unfold coincide_mensaje.
  assert (String.prefix "MENSAJE:" ("MENSAJE: " +:+ String c z) = true) as ->
    by reflexivity.
  change (Str.desde 8 ("MENSAJE: " +:+ String c z)) with (String " "%char (String c z)).
  cbn [String.length tras_blancos_opciones].
  assert (Str.sin_espacio_inicial Str.espacios (String " " (String c z))
          = Some (String c z)) as -> by reflexivity.
  rewrite sin_espacio_inicial_byte by done. cbn [app primera]. by rewrite Hg.
Qed.

(** The message of a completion in the format asked for. *)
Lemma extraer_mensaje_formato (c0 c1 : ascii) (r0 a carga : string) :
  byte_de_blanco c0 = false ->
  String c0 r0 = a +:+ String c1 "" -> byte_de_blanco c1 = false ->
  Str.contiene "JSON:" (String c0 r0) = false ->
  Str.strip <$> extraer_mensaje (respuesta_en_formato (String c0 r0) carga)
  = Some (String c0 r0).
Proof.
  intros Hc0 Hm1 Hc1 Hno.
  apply contiene_cons in Hno as [_ Hr0].
  change (respuesta_en_formato (String c0 r0) carga)
    with ("MENSAJE: " +:+ String c0 (r0 +:+ nl +:+ nl +:+ "JSON:" +:+ nl +:+ carga)).
  rewrite (extraer_mensaje_cabeza c0 _ (String c0 (r0 +:+ nl +:+ nl)) Hc0).
  - cbn [fmap option_fmap option_map]. f_equal.
    change (String c0 (r0 +:+ nl +:+ nl)) with (String c0 r0 +:+ nl +:+ nl).
    rewrite Hm1, app_asociativa.
    change (String c1 "" +:+ nl +:+ nl) with (String c1 (nl +:+ nl)).
    unfold Str.strip.
    assert (Str.lstrip (a +:+ String c1 (nl +:+ nl)) = a +:+ String c1 (nl +:+ nl)) as ->.
    { destruct a as [|x a].
      - rewrite app_vacia. by apply lstrip_byte.
      - rewrite app_cons in Hm1. injection Hm1 as <- _.
        rewrite app_cons. by apply lstrip_byte. }
    by apply rstrip_byte.
  - cbn [hasta_marcador_json]. rewrite (buscar_marcador r0 (nl +:+ carga) Hr0).
    cbn [fmap option_fmap option_map]. do 2 f_equal.
    pose proof (hasta_app (r0 +:+ nl +:+ nl) ("JSON:" +:+ nl +:+ carga)) as Hh.
    rewrite !app_asociativa in Hh.
    replace (String.length r0 + 2)%nat with (String.length (r0 +:+ nl +:+ nl));
      [exact Hh|].
    rewrite !longitud_app. cbn. lia.
Qed.

Lemma sin_marcador_cabecera (mensaje : string) :
  Str.contiene "JSON:" mensaje = false ->
  Str.contiene "JSON:" ("MENSAJE: " +:+ mensaje) = false.
Proof.
  intros Hm.
  change (Str.contiene "JSON:" ("MENSAJE: " +:+ mensaje))
    with (String.prefix "JSON:" (String " " mensaje) || Str.contiene "JSON:" mensaje).
  rewrite Hm. by destruct mensaje.
Qed.

(** The search for the payload at the marker, when an object follows on
    the next line. *)
Lemma coincide_json_suelto_objeto (cuerpo : string) :
  coincide_json_suelto ("JSON:" +:+ nl +:+ entre_llaves cuerpo)
  = match cuerpo with
    | EmptyString => None
    | String _ _ => Some (entre_llaves cuerpo)
    end.
Proof.
  unfold coincide_json_suelto. rewrite prefix_app.
  change (Str.desde 5 ("JSON:" +:+ nl +:+ entre_llaves cuerpo))
    with (String (ascii_of_N 10) (String "{" (cuerpo +:+ "}"))).
  unfold tras_blancos. rewrite (lstrip_salto "{" _ byte_llave_abre).
  assert (String.prefix "{" (String "{" (cuerpo +:+ "}")) = true) as ->.
  { apply prefix_spec. by exists (cuerpo +:+ "}"). }
  cbn [Str.desde]. destruct cuerpo as [|c r]; [done|].
  rewrite app_cons, ultima_llave_final. cbn [fmap option_fmap option_map].
  by rewrite hasta_app.
Qed.

(** The payload of a completion in the format asked for that holds no code
    fence. *)
Lemma extraer_json_formato (mensaje cuerpo : string) :
  Str.contiene "JSON:" mensaje = false ->
  Str.contiene "```" (respuesta_en_formato mensaje (entre_llaves cuerpo)) = false ->
  extraer_json (respuesta_en_formato mensaje (entre_llaves cuerpo))
  = match cuerpo with
    | EmptyString => None
    | String _ _ => Some (entre_llaves cuerpo)
    end.
Proof.
  intros Hm Hno. unfold extraer_json. rewrite (sin_cerca_no_cercado _ Hno).
  unfold respuesta_en_formato. rewrite <- (app_asociativa "MENSAJE: " mensaje).
  rewrite (buscar_patron_salta coincide_json_suelto _ _
             coincide_json_suelto_sin_marcador (sin_marcador_cabecera _ Hm)).
  rewrite buscar_patron_eq, coincide_json_suelto_objeto.
  by destruct cuerpo.
Qed.

(** X25. The round trip of the format.  A completion written as the system
    prompts ask (the marker of the message, a message that starts and ends
    with characters that are no white space and does not hold the marker
    of the payload, an empty line, the marker of the payload, and on the
    next line an object with something between its braces), with no code
    fence in it, parses to that message and to what [json.loads] makes of
    the repaired object. *)
Theorem respuesta_en_formato_parseada
    (c0 c1 : ascii) (r0 a cuerpo : string) :
  byte_de_blanco c0 = false ->
  String c0 r0 = a +:+ String c1 "" ->
  byte_de_blanco c1 = false ->
  Str.contiene "JSON:" (String c0 r0) = false ->
  Str.contiene "```" (respuesta_en_formato (String c0 r0) (entre_llaves cuerpo)) = false ->
  cuerpo <> "" ->
  parsear_respuesta_llm (respuesta_en_formato (String c0 r0) (entre_llaves cuerpo))
  = (fun rutina => (String c0 r0, rutina))
      <$> Json.loads (reparar_escapes (entre_llaves cuerpo)).
Proof.
  intros Hc0 Hm1 Hc1 Hno Hcerca Hcuerpo. unfold parsear_respuesta_llm.
  pose proof (extraer_mensaje_formato c0 c1 r0 a (entre_llaves cuerpo) Hc0 Hm1 Hc1 Hno) as Hm.
  destruct (extraer_mensaje _) as [g|]; [|discriminate].
  injection Hm as ->.
  rewrite (extraer_json_formato _ _ Hno Hcerca).
  destruct cuerpo as [|c r]; [done|].
  assert (Str.strip (entre_llaves (String c r)) = entre_llaves (String c r)) as ->.
  { pose proof (strip_llaves (String c r) "" eq_refl) as Hs. by rewrite app_vacia_r in Hs. }
  by destruct (Json.loads _).
Qed.

(** X26. The empty object is not found.  In the same format, a payload
    that is the empty object, the two braces with nothing between them, is
    refused with the error of the missing payload: the pattern of the
    payload asks for at least one character between the braces. *)
Theorem objeto_vacio_no_encontrado (c0 c1 : ascii) (r0 a : string) :
  byte_de_blanco c0 = false ->
  String c0 r0 = a +:+ String c1 "" ->
  byte_de_blanco c1 = false ->
  Str.contiene "JSON:" (String c0 r0) = false ->
  Str.contiene "```" (respuesta_en_formato (String c0 r0) (entre_llaves "")) = false ->
  Json.loads (entre_llaves "") = Ok (JObj [])
  /\ parsear_respuesta_llm (respuesta_en_formato (String c0 r0) (entre_llaves ""))
     = Lanza (ValueError "No se encontró el campo JSON en la respuesta del LLM").
Proof.
  intros Hc0 Hm1 Hc1 Hno Hcerca. split; [reflexivity|]. unfold parsear_respuesta_llm.
  pose proof (extraer_mensaje_formato c0 c1 r0 a (entre_llaves "") Hc0 Hm1 Hc1 Hno) as Hm.
  destruct (extraer_mensaje _) as [g|]; [|discriminate].
  by rewrite (extraer_json_formato _ _ Hno Hcerca).
Qed.

(** ** The properties on the sample data *)

Lemma guardado_recuperable_witness :
  guardar_en_chromadb (H:=runtime_latin1) Muestra.semana_sin_fecha Ejemplo.mundo
  = (Ok true, Muestra.mundo_sin_fecha)
  /\ documento_de "semana_2025_W12" (almacen Muestra.mundo_sin_fecha)
     = Some {| doc_id := "semana_2025_W12";
               doc_texto := "Semana: semana_2025_W12 | Inicio: None";
               doc_metadata :=
                 JObj [ ("semana_id", JStr "semana_2025_W12");
                        ("movimientos_olimpicos", JStr "");
                        ("patrones_fuerza", JStr "");
                        ("grupos_musculares", JStr "");
                        ("total_dias", JInt 0) ] |}
  /\ length (almacen Muestra.mundo_sin_fecha) = S (length (almacen Ejemplo.mundo))
  /\ (obtener_coleccion Muestra.mundo_sin_fecha).1 = Ok ().
Proof.
  assert (Hg : guardar_en_chromadb (H:=runtime_latin1) Muestra.semana_sin_fecha Ejemplo.mundo
               = (Ok true, Muestra.mundo_sin_fecha))
    by (apply injective_projections; [vm_compute; reflexivity | reflexivity]).
  split; [exact Hg|].
  destruct (guardado_recuperable (H:=runtime_latin1) Muestra.semana_sin_fecha Ejemplo.mundo
              Muestra.mundo_sin_fecha Hg)
    as (id & texto & metadata & Hid & _ & Ht & Hm & Hd & _ & _ & _ & _ & Hl & Ho).
  change (Ok (JStr "semana_2025_W12") = Ok (JStr id)) in Hid. injection Hid as <-.
  assert (Ht' : json_a_texto_enriquecido (H:=runtime_latin1) Muestra.semana_sin_fecha
                = Ok "Semana: semana_2025_W12 | Inicio: None") by (vm_compute; reflexivity).
  rewrite Ht' in Ht. injection Ht as <-.
  assert (Hm' : extraer_metadata_para_chroma (H:=runtime_latin1) Muestra.semana_sin_fecha
                = Ok (JObj [ ("semana_id", JStr "semana_2025_W12");
                             ("fecha_inicio", JNull);
                             ("movimientos_olimpicos", JStr "");
                             ("patrones_fuerza", JStr "");
                             ("grupos_musculares", JStr "");
                             ("total_dias", JInt 0) ])) by (vm_compute; reflexivity).
  rewrite Hm' in Hm. injection Hm as <-.
  split; [exact Hd|]. split; [exact Hl|]. exact Ho.
Defined.

Lemma guardado_idempotente_witness :
  guardar_en_chromadb (H:=runtime_latin1) Muestra.rutina_borrador Ejemplo.mundo
  = (Ok true, Muestra.mundo_guardado)
  /\ exists w2,
       guardar_en_chromadb (H:=runtime_latin1) Muestra.rutina_borrador Muestra.mundo_guardado
       = (Ok true, w2)
       /\ almacen w2 = almacen Muestra.mundo_guardado.
Proof.
  assert (Hg : guardar_en_chromadb (H:=runtime_latin1) Muestra.rutina_borrador Ejemplo.mundo
               = (Ok true, Muestra.mundo_guardado))
    by (apply injective_projections; [vm_compute; reflexivity | reflexivity]).
  split; [exact Hg|].
  exact (guardado_idempotente (H:=runtime_latin1) Muestra.rutina_borrador Ejemplo.mundo
           Muestra.mundo_guardado Hg).
Defined.

(** The week whose day has no metadata has an enriched text and cannot be
    approved. *)
Lemma dia_sin_metadata_no_se_guarda_witness :
  es_ok (json_a_texto_enriquecido (H:=runtime_latin1) Muestra.semana_sin_metadata) = true
  /\ dia_sin_metadata (JObj [("dia", JStr "Lunes")])
  /\ intencion_de (H:=runtime_latin1) "aprobar" Muestra.estado_sin_metadata = "aprobar"
  /\ respuesta_de (procesar_mensaje (H:=runtime_latin1) "aprobar"
                     Muestra.estado_sin_metadata Ejemplo.mundo)
     = Ok "❌ Hubo un error al guardar la rutina. Intentá de nuevo."
  /\ estado_tras (procesar_mensaje (H:=runtime_latin1) "aprobar"
                    Muestra.estado_sin_metadata Ejemplo.mundo)
     = Muestra.estado_sin_metadata.
Proof.
  assert (H1 : Py.item (rutina_actual Muestra.estado_sin_metadata) "dias"
               = Ok (JArr [JObj [("dia", JStr "Lunes")]])) by reflexivity.
  assert (H2 : JObj [("dia", JStr "Lunes")] ∈ [JObj [("dia", JStr "Lunes")]])
    by apply list_elem_of_here.
  assert (H3 : dia_sin_metadata (JObj [("dia", JStr "Lunes")]))
    by (eexists; split; reflexivity).
  assert (H4 : intencion_de (H:=runtime_latin1) "aprobar" Muestra.estado_sin_metadata
               = "aprobar") by (vm_compute; reflexivity).
  assert (H5 : aprobada Muestra.estado_sin_metadata = false) by reflexivity.
  split; [vm_compute; reflexivity|]. split; [exact H3|]. split; [exact H4|].
  pose proof (dia_sin_metadata_no_se_guarda (H:=runtime_latin1) "aprobar"
                Muestra.estado_sin_metadata Ejemplo.mundo _ _ H1 H2 H3 H4 H5)
    as (_ & _ & Hr & He & _).
  split; [exact Hr | exact He].
Defined.

Lemma estado_bien_formado_witness :
  alcanzable (H:=runtime_latin1) Muestra.estado_aprobado
  /\ (rutina_actual Muestra.estado_aprobado = JNull
      \/ exists c, rutina_actual Muestra.estado_aprobado = JObj c)
  /\ 0 <= n_ediciones Muestra.estado_aprobado
  /\ (rutina_actual Muestra.estado_aprobado = JNull ->
      historial Muestra.estado_aprobado = []
      /\ aprobada Muestra.estado_aprobado = false
      /\ n_ediciones Muestra.estado_aprobado = 0).
Proof.
  assert (Hal : alcanzable (H:=runtime_latin1) Muestra.estado_aprobado)
    by (apply alcanzable_paso, alcanzable_paso, (alcanzable_inicial Ejemplo.hoy);
        reflexivity).
  split; [exact Hal|].
  exact (estado_bien_formado (H:=runtime_latin1) Muestra.estado_aprobado Hal).
Defined.

(** After the approval of the sample session a correction is applied and
    nothing is written. *)
Lemma aprobacion_definitiva_witness :
  alcanzable (H:=runtime_latin1) Muestra.estado_aprobado
  /\ aprobada Muestra.estado_aprobado = true
  /\ aprobada (estado_tras (procesar_mensaje (H:=runtime_latin1) Ejemplo.correccion
                              Muestra.estado_aprobado Muestra.mundo_guardado)) = true
  /\ almacen (mundo_tras (procesar_mensaje (H:=runtime_latin1) Ejemplo.correccion
                            Muestra.estado_aprobado Muestra.mundo_guardado))
     = almacen Muestra.mundo_guardado.
Proof.
  assert (Hal : alcanzable (H:=runtime_latin1) Muestra.estado_aprobado)
    by (apply alcanzable_paso, alcanzable_paso, (alcanzable_inicial Ejemplo.hoy);
        reflexivity).
  assert (Hap : aprobada Muestra.estado_aprobado = true) by (vm_compute; reflexivity).
  split; [exact Hal|]. split; [exact Hap|].
  pose proof (aprobacion_definitiva (H:=runtime_latin1) Ejemplo.correccion
                Muestra.estado_aprobado Muestra.mundo_guardado Hal Hap) as (H1 & H2 & _).
  split; [exact H1 | exact H2].
Defined.

Lemma rutina_presente_no_se_regenera_witness :
  tiene_rutina Ejemplo.estado_borrador = true
  /\ tiene_rutina (estado_tras (procesar_mensaje (H:=runtime_latin1) Ejemplo.pedido
                                  Ejemplo.estado_borrador Ejemplo.mundo)) = true
  /\ intencion_de (H:=runtime_latin1) Ejemplo.pedido Ejemplo.estado_borrador <> "generar"
  /\ fecha_inicio (estado_tras (procesar_mensaje (H:=runtime_latin1) Ejemplo.pedido
                                  Ejemplo.estado_borrador Ejemplo.mundo))
     = fecha_inicio Ejemplo.estado_borrador.
Proof.
  assert (Ht : tiene_rutina Ejemplo.estado_borrador = true) by (vm_compute; reflexivity).
  split; [exact Ht|].
  pose proof (rutina_presente_no_se_regenera (H:=runtime_latin1) Ejemplo.pedido
                Ejemplo.estado_borrador Ejemplo.mundo Ht) as (H1 & H2 & H3 & _).
  split; [exact H1|]. split; [exact H2 | exact H3].
Defined.

Lemma historial_alternado_witness :
  alcanzable (H:=runtime_latin1) Muestra.estado_aprobado
  /\ length (historial Muestra.estado_aprobado) = 4%nat
  /\ turnos_alternados (historial Muestra.estado_aprobado) = true.
Proof.
  assert (Hal : alcanzable (H:=runtime_latin1) Muestra.estado_aprobado)
    by (apply alcanzable_paso, alcanzable_paso, (alcanzable_inicial Ejemplo.hoy);
        reflexivity).
  split; [exact Hal|]. split; [vm_compute; reflexivity|].
  exact (proj1 (historial_alternado (H:=runtime_latin1) Muestra.estado_aprobado Hal)).
Defined.

Lemma respuesta_coleccion_vacia_witness :
  intencion_de (H:=runtime_latin1) Ejemplo.pedido Ejemplo.estado_inicial = "generar"
  /\ fallo_chroma Ejemplo.mundo_vacio = None
  /\ almacen Ejemplo.mundo_vacio = []
  /\ procesar_mensaje (H:=runtime_latin1) Ejemplo.pedido Ejemplo.estado_inicial
       Ejemplo.mundo_vacio
     = (Ok ("❌ Hubo un error al generar la rutina: "
            +:+ "La colección de ChromaDB está vacía. "
            +:+ "Ejecutá ingest.py primero para cargar las rutinas."),
        Ejemplo.estado_inicial, registrar EvCount Ejemplo.mundo_vacio).
Proof.
  assert (Hi : intencion_de (H:=runtime_latin1) Ejemplo.pedido Ejemplo.estado_inicial
               = "generar") by (vm_compute; reflexivity).
  split; [exact Hi|]. split; [reflexivity|]. split; [reflexivity|].
  exact (respuesta_coleccion_vacia (H:=runtime_latin1) Ejemplo.pedido Ejemplo.estado_inicial
           Ejemplo.mundo_vacio Hi eq_refl eq_refl).
Defined.

(** One result asked of the store of two documents. *)
Lemma contexto_recuperado_witness :
  fallo_chroma Ejemplo.mundo = None
  /\ almacen_con_semana_id Ejemplo.mundo
  /\ exists contexto rutinas,
       (recuperar_contexto (H:=runtime_latin1) (Some Ejemplo.pedido) None None None 1
          Ejemplo.mundo).1 = Ok (contexto, rutinas)
       /\ Z.of_nat (length rutinas) = 1
       /\ String.prefix ("RUTINAS DE REFERENCIA" +:+ nl) contexto = true.
Proof.
  assert (Hs : almacen_con_semana_id Ejemplo.mundo).
  { repeat constructor; eexists; reflexivity. }
  assert (Hp : (0 < length (almacen Ejemplo.mundo))%nat) by (cbn; lia).
  assert (Hn : 0 < 1) by lia.
  split; [reflexivity|]. split; [exact Hs|].
  destruct (contexto_recuperado (H:=runtime_latin1) Ejemplo.mundo (Some Ejemplo.pedido)
              None None None 1 eq_refl Hs Hp Hn)
    as (contexto & rutinas & Hr & Hl & _ & Hpre & _).
  exists contexto, rutinas. rewrite Hr. split; [reflexivity|]. split; [exact Hl | exact Hpre].
Defined.

Lemma carga_y_guardado_coinciden_witness :
  leer Muestra.disco "data/processed/semana_01.json" = Some Muestra.texto_semana_07
  /\ Json.loads Muestra.texto_semana_07 = Ok Muestra.rutina_borrador
  /\ ((cargar_semana (H:=runtime_latin1) Muestra.disco "data/processed/semana_01.json"
         Ejemplo.mundo).1 = Ok true
      <-> (guardar_en_chromadb (H:=runtime_latin1) Muestra.rutina_borrador
             Ejemplo.mundo).1 = Ok true)
  /\ almacen (cargar_semana (H:=runtime_latin1) Muestra.disco
                "data/processed/semana_01.json" Ejemplo.mundo).2
     = almacen (guardar_en_chromadb (H:=runtime_latin1) Muestra.rutina_borrador
                  Ejemplo.mundo).2.
Proof.
  assert (Hl : leer Muestra.disco "data/processed/semana_01.json"
               = Some Muestra.texto_semana_07) by reflexivity.
  assert (Hj : Json.loads Muestra.texto_semana_07 = Ok Muestra.rutina_borrador)
    by (vm_compute; reflexivity).
  split; [exact Hl|]. split; [exact Hj|].
  pose proof (carga_y_guardado_coinciden (H:=runtime_latin1) Muestra.disco
                "data/processed/semana_01.json" Muestra.texto_semana_07
                Muestra.rutina_borrador Ejemplo.mundo Hl Hj) as (H1 & H2 & _).
  split; [exact H1 | exact H2].
Defined.

Lemma carga_idempotente_witness :
  cargar_semana (H:=runtime_latin1) Muestra.disco "data/processed/semana_01.json"
    Ejemplo.mundo_vacio
  = (Ok true, Muestra.mundo_cargado)
  /\ length (almacen Muestra.mundo_cargado) = 1%nat
  /\ exists w2,
       cargar_semana (H:=runtime_latin1) Muestra.disco "data/processed/semana_01.json"
         Muestra.mundo_cargado
       = (Ok true, w2)
       /\ almacen w2 = almacen Muestra.mundo_cargado.
Proof.
  assert (Hc : cargar_semana (H:=runtime_latin1) Muestra.disco
                 "data/processed/semana_01.json" Ejemplo.mundo_vacio
               = (Ok true, Muestra.mundo_cargado))
    by (apply injective_projections; [vm_compute; reflexivity | reflexivity]).
  split; [exact Hc|]. split; [vm_compute; reflexivity|].
  exact (carga_idempotente (H:=runtime_latin1) Muestra.disco
           "data/processed/semana_01.json" Ejemplo.mundo_vacio Muestra.mundo_cargado Hc).
Defined.

(** The folder with the file that is cut short. *)
Lemma archivo_invalido_detiene_la_carga_witness :
  glob_json Muestra.disco_roto
  = Some ["data/processed/semana_02.json"; "data/processed/semana_01.json"]
  /\ leer Muestra.disco_roto "data/processed/semana_02.json" = Some "{"
  /\ Json.loads "{" = Lanza JSONDecodeError
  /\ exists e' w',
       cargar_todas_las_semanas (H:=runtime_latin1) Muestra.disco_roto Ejemplo.mundo_vacio
       = (Lanza e', w').
Proof.
  assert (Hin : "data/processed/semana_02.json"
                ∈ ["data/processed/semana_02.json"; "data/processed/semana_01.json"])
    by apply list_elem_of_here.
  assert (Hj : Json.loads "{" = Lanza JSONDecodeError) by reflexivity.
  split; [reflexivity|]. split; [reflexivity|]. split; [exact Hj|].
  exact (archivo_invalido_detiene_la_carga (H:=runtime_latin1) Muestra.disco_roto
           _ "data/processed/semana_02.json" "{" JSONDecodeError Ejemplo.mundo_vacio
           eq_refl Hin eq_refl Hj).
Defined.

(** The folder of two weeks loaded into the empty store. *)
Lemma carga_total_acotada_witness :
  (cargar_todas_las_semanas (H:=runtime_latin1) Muestra.disco Ejemplo.mundo_vacio).1 = Ok 2
  /\ (length (almacen Ejemplo.mundo_vacio)
      <= length (almacen (cargar_todas_las_semanas (H:=runtime_latin1) Muestra.disco
                            Ejemplo.mundo_vacio).2))%nat
  /\ Z.of_nat (length (almacen (cargar_todas_las_semanas (H:=runtime_latin1) Muestra.disco
                                  Ejemplo.mundo_vacio).2))
     <= Z.of_nat (length (almacen Ejemplo.mundo_vacio)) + 2.
Proof.
  assert (Hc : cargar_todas_las_semanas (H:=runtime_latin1) Muestra.disco Ejemplo.mundo_vacio
               = (Ok 2, (cargar_todas_las_semanas (H:=runtime_latin1) Muestra.disco
                           Ejemplo.mundo_vacio).2))
    by (apply injective_projections; [vm_compute; reflexivity | reflexivity]).
  split; [rewrite Hc; reflexivity|].
  pose proof (carga_total_acotada (H:=runtime_latin1) Muestra.disco 2 Ejemplo.mundo_vacio _ Hc)
    as (_ & _ & H1 & H2 & _).
  split; [exact H1 | exact H2].
Defined.

Lemma inicializacion_si_vacia_witness :
  (inicializar_si_vacia (H:=runtime_latin1) Muestra.disco Ejemplo.mundo_vacio).1 = Ok 2
  /\ (obtener_coleccion (inicializar_si_vacia (H:=runtime_latin1) Muestra.disco
                           Ejemplo.mundo_vacio).2).1 = Ok ()
  /\ (inicializar_si_vacia (H:=runtime_latin1) Muestra.disco Ejemplo.mundo).1 = Ok 0.
Proof.
  assert (Hc : inicializar_si_vacia (H:=runtime_latin1) Muestra.disco Ejemplo.mundo_vacio
               = (Ok 2, (inicializar_si_vacia (H:=runtime_latin1) Muestra.disco
                           Ejemplo.mundo_vacio).2))
    by (apply injective_projections; [vm_compute; reflexivity | reflexivity]).
  split; [rewrite Hc; reflexivity|].
  pose proof (inicializacion_si_vacia (H:=runtime_latin1) Muestra.disco 2
                Ejemplo.mundo_vacio _ Hc) as (_ & _ & _ & H1).
  split; [exact (proj2 (H1 ltac:(lia))) | vm_compute; reflexivity].
Defined.

Lemma respuesta_sin_marcadores_witness :
  Str.contiene "MENSAJE:" "MENSAJE: Lista la semana." = true
  /\ Str.contiene "JSON:" "MENSAJE: Lista la semana." = false
  /\ parsear_respuesta_llm "MENSAJE: Lista la semana."
     = Lanza (ValueError "No se encontró el campo MENSAJE en la respuesta del LLM").
Proof.
  assert (Hn : Str.contiene "JSON:" "MENSAJE: Lista la semana." = false) by reflexivity.
  split; [reflexivity|]. split; [exact Hn|].
  exact (respuesta_sin_marcadores "MENSAJE: Lista la semana." (or_intror Hn)).
Defined.

Lemma parseo_devuelve_objeto_witness :
  parsear_respuesta_llm Ejemplo.completado_edicion
  = Ok ("Cambiado.",
        JObj [("semana_id", JStr "semana_2031_W01");
              ("fecha_inicio", JStr "2025-02-10"); ("dias", JArr [])])
  /\ Str.contiene "MENSAJE:" Ejemplo.completado_edicion = true
  /\ Str.contiene "JSON:" Ejemplo.completado_edicion = true
  /\ exists campos,
       JObj [("semana_id", JStr "semana_2031_W01");
             ("fecha_inicio", JStr "2025-02-10"); ("dias", JArr [])] = JObj campos.
Proof.
  assert (Hp : parsear_respuesta_llm Ejemplo.completado_edicion
               = Ok ("Cambiado.",
                     JObj [("semana_id", JStr "semana_2031_W01");
                           ("fecha_inicio", JStr "2025-02-10"); ("dias", JArr [])]))
    by (vm_compute; reflexivity).
  split; [exact Hp|].
  exact (parseo_devuelve_objeto _ _ _ Hp).
Defined.

Lemma respuesta_vacia_witness :
  Muestra.completar_en_blanco
    ("Convertí esta rutina al formato JSON indicado:" +:+ nl +:+ nl +:+ "LUNES")
  = Ok (" " +:+ nl)
  /\ Str.solo_espacios (" " +:+ nl) = true
  /\ parsear_rutina_con_llm Muestra.completar_en_blanco "LUNES"
     = Lanza (ValueError "El modelo devolvió una respuesta vacía").
Proof.
  assert (Hs : Str.solo_espacios (" " +:+ nl) = true) by reflexivity.
  split; [reflexivity|]. split; [exact Hs|].
  exact (respuesta_vacia Muestra.completar_en_blanco "LUNES" (" " +:+ nl) eq_refl
           (or_introl Hs)).
Defined.

Lemma cerca_transparente_witness :
  Muestra.completar_cercado
    ("Convertí esta rutina al formato JSON indicado:" +:+ nl +:+ nl +:+ "LUNES")
  = Ok (cercado "json" (entre_llaves Muestra.cuerpo_objeto) +:+ nl)
  /\ Str.solo_espacios nl = true
  /\ Json.loads (reparar_escapes (entre_llaves Muestra.cuerpo_objeto))
     = Ok (JObj [("semana_id", JStr "semana_2025_W11"); ("dias", JArr [])])
  /\ parsear_rutina_con_llm Muestra.completar_cercado "LUNES"
     = Json.loads (reparar_escapes (entre_llaves Muestra.cuerpo_objeto)).
Proof.
  assert (Hs : Str.solo_espacios nl = true) by reflexivity.
  split; [reflexivity|]. split; [exact Hs|]. split; [vm_compute; reflexivity|].
  exact (cerca_transparente Muestra.completar_cercado "LUNES" Muestra.cuerpo_objeto nl
           (cercado "json" (entre_llaves Muestra.cuerpo_objeto) +:+ nl) eq_refl Hs
           (or_intror (or_introl eq_refl))).
Defined.

Lemma respuesta_en_formato_parseada_witness :
  byte_de_blanco "L" = false
  /\ byte_de_blanco "." = false
  /\ Str.contiene "JSON:" "Lista." = false
  /\ Str.contiene "```" (respuesta_en_formato "Lista." (entre_llaves Muestra.cuerpo_objeto))
     = false
  /\ Json.loads (reparar_escapes (entre_llaves Muestra.cuerpo_objeto))
     = Ok (JObj [("semana_id", JStr "semana_2025_W11"); ("dias", JArr [])])
  /\ parsear_respuesta_llm (respuesta_en_formato "Lista." (entre_llaves Muestra.cuerpo_objeto))
     = (fun rutina => ("Lista.", rutina))
         <$> Json.loads (reparar_escapes (entre_llaves Muestra.cuerpo_objeto)).
Proof.
  assert (H1 : byte_de_blanco "L" = false) by reflexivity.
  assert (H2 : byte_de_blanco "." = false) by reflexivity.
  assert (H3 : Str.contiene "JSON:" "Lista." = false) by reflexivity.
  assert (H4 : Str.contiene "```"
                 (respuesta_en_formato "Lista." (entre_llaves Muestra.cuerpo_objeto)) = false)
    by (vm_compute; reflexivity).
  assert (H5 : Muestra.cuerpo_objeto <> "") by (vm_compute; discriminate).
  split; [exact H1|]. split; [exact H2|]. split; [exact H3|]. split; [exact H4|].
  split; [vm_compute; reflexivity|].
  exact (respuesta_en_formato_parseada "L" "." "ista." "Lista" Muestra.cuerpo_objeto
           H1 eq_refl H2 H3 H4 H5).
Defined.

Lemma objeto_vacio_no_encontrado_witness :
  byte_de_blanco "L" = false
  /\ byte_de_blanco "." = false
  /\ Str.contiene "JSON:" "Lista." = false
  /\ Str.contiene "```" (respuesta_en_formato "Lista." (entre_llaves "")) = false
  /\ Json.loads (entre_llaves "") = Ok (JObj [])
  /\ parsear_respuesta_llm (respuesta_en_formato "Lista." (entre_llaves ""))
     = Lanza (ValueError "No se encontró el campo JSON en la respuesta del LLM").
Proof.
  assert (H1 : byte_de_blanco "L" = false) by reflexivity.
  assert (H2 : byte_de_blanco "." = false) by reflexivity.
  assert (H3 : Str.contiene "JSON:" "Lista." = false) by reflexivity.
  assert (H4 : Str.contiene "```" (respuesta_en_formato "Lista." (entre_llaves "")) = false)
    by (vm_compute; reflexivity).
  split; [exact H1|]. split; [exact H2|]. split; [exact H3|]. split; [exact H4|].
  exact (objeto_vacio_no_encontrado "L" "." "ista." "Lista" H1 eq_refl H2 H3 H4).
Defined.

(** Empty arguments add nothing; an objective and an intensity come after
    the base phrase. *)
Lemma construir_query_base_witness :
  construir_query (Some "") (Some []) (Some []) (Some "") = "rutina de crossfit semanal"
  /\ String.prefix "rutina de crossfit semanal"
       (construir_query (Some "fuerza") None None (Some "alta")) = true
  /\ construir_query (Some "fuerza") None None (Some "alta")
     = "rutina de crossfit semanal enfocada en fuerza de intensidad alta".
Proof.
  split; [|split; [|reflexivity]].
  - exact (proj2 (construir_query_base (Some "") (Some []) (Some []) (Some ""))
             eq_refl eq_refl eq_refl eq_refl).
  - exact (proj1 (construir_query_base (Some "fuerza") None None (Some "alta"))).
Defined.
